(** * Flask user-management API: a shallow embedding of [app.py]

    The development follows the layout of the source file:
    - Python values and the built-ins the program calls on them
      ([in], subscription, truthiness, [str.lower], [str.strip], [int],
      [re.match]);
    - the [UserManager] class (an insertion-ordered dict of user records
      and the [next_id] counter) with its methods;
    - the Flask view functions, as state transformers that return a
      response;
    - theorems about the store, validation and the handlers.

    Modelling conventions.
    - A Python [str] is a Rocq [string]; a character is its code point,
      so the model covers the strings whose code points are below 256.
      [str.lower], [str.isspace] and the white space [int] accepts are
      the Unicode ones restricted to that range.
    - A Python [dict] is the association list of its items in insertion
      order.  Lookup returns the first binding of a key, so every list
      denotes a dict; the operations keep keys unique.
    - A stored user dict is a value.  The views serialise the dicts they
      read before the next mutation, so the sharing between the store
      and the lists and records it returns is not observable.
    - Exceptions are values of [result]; code that mutates [self] runs in
      a state-and-exception monad, so that what was written before a
      raise stays written.
    - [datetime.now()] is an input: the methods that read the clock take
      the formatted time stamp as an argument.  The [timestamp] key of the
      response envelope is left out.
    - [int(str)] refuses a string of more than 4300 digits, the
      interpreter's default limit; the same limit on the conversion of an
      integer to text is not modelled. *)

From Stdlib Require Import ZArith List String Ascii Bool Lia NArith.
From Stdlib Require Import DecimalString Sorted.
Import ListNotations.

Set Warnings "-register-all".

Local Open Scope string_scope.
Local Open Scope list_scope.
Local Open Scope Z_scope.

(* ===================================================================== *)
(** ** Exceptions *)
(* ===================================================================== *)

Inductive exn : Type :=
| TypeError
| AttributeError
| ValueError
| OverflowError
| KeyError
| BadRequest.

Inductive result (A : Type) : Type :=
| Ok (a : A)
| Raise (e : exn).

Arguments Ok {A} a.
Arguments Raise {A} e.

Definition rbind {A B : Type} (r : result A) (k : A -> result B) : result B :=
  match r with
  | Ok a => k a
  | Raise e => Raise e
  end.

Declare Scope result_scope.
Delimit Scope result_scope with result.
Notation "x <- r ;; k" := (rbind r (fun x => k))
  (at level 61, r at next level, right associativity) : result_scope.

(* ===================================================================== *)
(** ** Strings *)
(* ===================================================================== *)

Module PyStr.

Definition code (c : ascii) : N := N_of_ascii c.

Definition between (lo hi : N) (c : ascii) : bool :=
  ((lo <=? code c) && (code c <=? hi))%N.

(** [str.isspace] on one character. *)
Definition isspace (c : ascii) : bool :=
  between 9 13 c || between 28 32 c
  || (code c =? 133)%N || (code c =? 160)%N.

(** White space skipped by [int] around the digits. *)
Definition int_isspace (c : ascii) : bool :=
  between 9 13 c || (code c =? 32)%N
  || (code c =? 133)%N || (code c =? 160)%N.

Definition isupper (c : ascii) : bool :=
  between 65 90 c
  || (between 192 222 c && negb (code c =? 215)%N).

Definition lower_char (c : ascii) : ascii :=
  if isupper c then ascii_of_N (code c + 32) else c.

(** [s.lower()] *)
Fixpoint lower (s : string) : string :=
  match s with
  | EmptyString => EmptyString
  | String c r => String (lower_char c) (lower r)
  end.

Definition is_empty (s : string) : bool :=
  match s with
  | EmptyString => true
  | String _ _ => false
  end.

Fixpoint lstrip_by (sp : ascii -> bool) (s : string) : string :=
  match s with
  | EmptyString => EmptyString
  | String c r => if sp c then lstrip_by sp r else s
  end.

Fixpoint rstrip_by (sp : ascii -> bool) (s : string) : string :=
  match s with
  | EmptyString => EmptyString
  | String c r =>
      let r' := rstrip_by sp r in
      if sp c && is_empty r' then EmptyString else String c r'
  end.

(** [s.strip()] *)
Definition strip (s : string) : string :=
  rstrip_by isspace (lstrip_by isspace s).

(** [len(s)] *)
Definition len (s : string) : Z := Z.of_nat (String.length s).

(** [needle in hay] on two strings. *)
Fixpoint contains (needle hay : string) : bool :=
  String.prefix needle hay
  || match hay with
     | EmptyString => false
     | String _ r => contains needle r
     end.

(** The text of [str(n)] for an integer. *)
Definition of_Z (n : Z) : string := NilZero.string_of_int (Z.to_int n).

(** *** [int(s)] for a string, base ten *)

Definition isdigit (c : ascii) : bool := between 48 57 c.

Definition digit (c : ascii) : Z := Z.of_N (code c) - 48.

Inductive scan : Type := AtStart | AfterDigit | AfterUnderscore.

(** Digits with single underscores between them. *)
Fixpoint digits (s : string) (st : scan) (acc : Z) : option Z :=
  match s with
  | EmptyString =>
      match st with
      | AfterDigit => Some acc
      | _ => None
      end
  | String c r =>
      if isdigit c then digits r AfterDigit (10 * acc + digit c)
      else if Ascii.eqb c "_" then
        match st with
        | AfterDigit => digits r AfterUnderscore acc
        | _ => None
        end
      else None
  end.

(** [sys.int_info.default_max_str_digits]: a string with more digits
    is refused with a [ValueError], whatever else it holds. *)
Definition max_str_digits : Z := 4300.

Fixpoint count_digits (s : string) : Z :=
  match s with
  | EmptyString => 0
  | String c r => (if isdigit c then 1 else 0) + count_digits r
  end.

Definition to_int (s : string) : option Z :=
  let t := rstrip_by int_isspace (lstrip_by int_isspace s) in
  if max_str_digits <? count_digits t then None
  else
    match t with
    | String "+" r => digits r AtStart 0
    | String "-" r => option_map Z.opp (digits r AtStart 0)
    | _ => digits t AtStart 0
    end.

End PyStr.

(* ===================================================================== *)
(** ** Regular expressions: the part of [re] the program uses *)
(* ===================================================================== *)

Module Re.

Inductive regex : Type :=
| Never
| Eps
| Class (p : ascii -> bool)
| Seq (a b : regex)
| Alt (a b : regex)
| Star (a : regex).

Definition Plus (a : regex) : regex := Seq a (Star a).

Fixpoint nullable (r : regex) : bool :=
  match r with
  | Never => false
  | Eps => true
  | Class _ => false
  | Seq a b => nullable a && nullable b
  | Alt a b => nullable a || nullable b
  | Star _ => true
  end.

Fixpoint deriv (c : ascii) (r : regex) : regex :=
  match r with
  | Never => Never
  | Eps => Never
  | Class p => if p c then Eps else Never
  | Seq a b =>
      if nullable a then Alt (Seq (deriv c a) b) (deriv c b)
      else Seq (deriv c a) b
  | Alt a b => Alt (deriv c a) (deriv c b)
  | Star a => Seq (deriv c a) (Star a)
  end.

(** The whole of [s] is a word of [r]. *)
Fixpoint fullmatch (r : regex) (s : string) : bool :=
  match s with
  | EmptyString => nullable r
  | String c t => fullmatch (deriv c r) t
  end.

Definition newline : ascii := ascii_of_N 10.

(** [s] without its last character, when that is a newline. *)
Fixpoint chop_newline (s : string) : option string :=
  match s with
  | EmptyString => None
  | String c EmptyString => if Ascii.eqb c newline then Some EmptyString else None
  | String c r => option_map (String c) (chop_newline r)
  end.

(** [re.match('^' r '$', s)]: [$] holds at the end of the string and
    just before a newline that ends the string. *)
Definition match_anchored (r : regex) (s : string) : bool :=
  fullmatch r s
  || match chop_newline s with
     | Some t => fullmatch r t
     | None => false
     end.

Definition alpha (c : ascii) : bool :=
  PyStr.between 97 122 c || PyStr.between 65 90 c.

Definition alnum (c : ascii) : bool := alpha c || PyStr.isdigit c.

Definition one_of (cs : string) (c : ascii) : bool :=
  existsb (Ascii.eqb c) (list_ascii_of_string cs).

(** [r'^[a-zA-Z0-9._%+-]+@[a-zA-Z0-9.-]+\.[a-zA-Z]{2,}$'] *)
Definition email_pattern : regex :=
  Seq (Plus (Class (fun c => alnum c || one_of "._%+-" c)))
 (Seq (Class (Ascii.eqb "@"))
 (Seq (Plus (Class (fun c => alnum c || one_of ".-" c)))
 (Seq (Class (Ascii.eqb "."))
 (Seq (Class alpha) (Seq (Class alpha) (Star (Class alpha))))))).

End Re.

(* ===================================================================== *)
(** ** Python values: what [request.get_json()] can return *)
(* ===================================================================== *)

(** A float is not-a-number, an infinity, or a finite value given as a
    fraction; only its truth value and its integer part are used. *)
Inductive pyfloat : Type :=
| FNan
| FInf (negative : bool)
| FFinite (num : Z) (den : positive).

Inductive value : Type :=
| VNone
| VBool (b : bool)
| VInt (n : Z)
| VFloat (f : pyfloat)
| VStr (s : string)
| VList (l : list value)
| VDict (items : list (string * value)).

Module Py.

Local Open Scope result_scope.

(** [bool(v)] *)
Definition truthy (v : value) : bool :=
  match v with
  | VNone => false
  | VBool b => b
  | VInt n => negb (n =? 0)
  | VFloat FNan => true
  | VFloat (FInf _) => true
  | VFloat (FFinite num _) => negb (num =? 0)
  | VStr s => negb (PyStr.is_empty s)
  | VList l => match l with [] => false | _ :: _ => true end
  | VDict d => match d with [] => false | _ :: _ => true end
  end.

Fixpoint assoc (key : string) (items : list (string * value)) : option value :=
  match items with
  | [] => None
  | (k, v) :: rest => if String.eqb k key then Some v else assoc key rest
  end.

Definition is_str (key : string) (v : value) : bool :=
  match v with
  | VStr s => String.eqb s key
  | _ => false
  end.

(** [key in container], for a string [key] *)
Definition contains (key : string) (container : value) : result bool :=
  match container with
  | VDict d => Ok (match assoc key d with Some _ => true | None => false end)
  | VList l => Ok (existsb (is_str key) l)
  | VStr s => Ok (PyStr.contains key s)
  | _ => Raise TypeError
  end.

(** [container[key]], for a string [key] *)
Definition getitem (container : value) (key : string) : result value :=
  match container with
  | VDict d =>
      match assoc key d with
      | Some v => Ok v
      | None => Raise KeyError
      end
  | _ => Raise TypeError
  end.

(** [container.get(key)] *)
Definition get (container : value) (key : string) : result value :=
  match container with
  | VDict d =>
      match assoc key d with
      | Some v => Ok v
      | None => Ok VNone
      end
  | _ => Raise AttributeError
  end.

(** [v.lower()] *)
Definition lower (v : value) : result string :=
  match v with
  | VStr s => Ok (PyStr.lower s)
  | _ => Raise AttributeError
  end.

(** [v.strip()] *)
Definition strip (v : value) : result string :=
  match v with
  | VStr s => Ok (PyStr.strip s)
  | _ => Raise AttributeError
  end.

(** [int(v)] *)
Definition int (v : value) : result Z :=
  match v with
  | VNone => Raise TypeError
  | VBool b => Ok (if b then 1 else 0)
  | VInt n => Ok n
  | VFloat FNan => Raise ValueError
  | VFloat (FInf _) => Raise OverflowError
  | VFloat (FFinite num den) => Ok (Z.quot num (Z.pos den))
  | VStr s =>
      match PyStr.to_int s with
      | Some n => Ok n
      | None => Raise ValueError
      end
  | VList _ => Raise TypeError
  | VDict _ => Raise TypeError
  end.

(** [re.match(email_pattern, v)], as a truth value *)
Definition re_match_email (v : value) : result bool :=
  match v with
  | VStr s => Ok (Re.match_anchored Re.email_pattern s)
  | _ => Raise TypeError
  end.

End Py.

(* ===================================================================== *)
(** ** Insertion-ordered dicts keyed by integers *)
(* ===================================================================== *)

Module PyDict.
Section Dict.

Context {V : Type}.

Definition t : Type := list (Z * V).

(** [d.get(k)] *)
Fixpoint get (d : t) (k : Z) : option V :=
  match d with
  | [] => None
  | (k', v) :: rest => if k' =? k then Some v else get rest k
  end.

(** [k in d] *)
Definition mem (d : t) (k : Z) : bool :=
  match get d k with
  | Some _ => true
  | None => false
  end.

(** [d[k] = v]: an existing key keeps its place, a new one goes last. *)
Fixpoint set (d : t) (k : Z) (v : V) : t :=
  match d with
  | [] => [(k, v)]
  | (k', v') :: rest =>
      if k' =? k then (k, v) :: rest else (k', v') :: set rest k v
  end.

(** The dict after [d.pop(k)]. *)
Definition remove (d : t) (k : Z) : t :=
  filter (fun kv => negb (fst kv =? k)) d.

(** [list(d.values())] *)
Definition values (d : t) : list V := map snd d.

Definition keys (d : t) : list Z := map fst d.

End Dict.
End PyDict.

(* ===================================================================== *)
(** ** User records and the [UserManager] class *)
(* ===================================================================== *)

(** The dict stored for one user.  Its seven keys are fixed at creation:
    no method adds or removes a key, so it is a record.  The four content
    fields hold whatever value the payload carried. *)
Record user : Type := mkUser {
  id : Z;
  name : value;
  email : value;
  age : value;
  position : value;
  created_at : string;
  updated_at : string
}.

Record UserManager : Type := mkUserManager {
  users : list (Z * user);
  next_id : Z
}.

(** Methods run in a state-and-exception monad over the object. *)
Definition M (A : Type) : Type := UserManager -> result A * UserManager.

Definition ret {A : Type} (a : A) : M A := fun self => (Ok a, self).

Definition raise {A : Type} (e : exn) : M A := fun self => (Raise e, self).

Definition bind {A B : Type} (m : M A) (k : A -> M B) : M B :=
  fun self =>
    match m self with
    | (Ok a, self') => k a self'
    | (Raise e, self') => (Raise e, self')
    end.

(** A value or exception computed without touching the object. *)
Definition lift {A : Type} (r : result A) : M A := fun self => (r, self).

Definition read {A : Type} (f : UserManager -> A) : M A :=
  fun self => (Ok (f self), self).

Definition write (f : UserManager -> UserManager) : M unit :=
  fun self => (Ok tt, f self).

(** [try: body except Exception as e: handler(e)] *)
Definition try_except {A : Type} (body : M A) (handler : exn -> M A) : M A :=
  fun self =>
    match body self with
    | (Ok a, self') => (Ok a, self')
    | (Raise e, self') => handler e self'
    end.

Declare Scope method_scope.
Delimit Scope method_scope with method.
Notation "x <- m ;; k" := (bind m (fun x => k))
  (at level 61, m at next level, right associativity) : method_scope.
Notation "m ;;; k" := (bind m (fun _ => k))
  (at level 61, right associativity) : method_scope.

Definition seed_time : string := "2025-09-29 21:42:00".

Definition seed_users : list (Z * user) :=
  [ (1, mkUser 1 (VStr "John Doe") (VStr "john.doe@example.com") (VInt 30)
          (VStr "Software Developer") seed_time seed_time);
    (2, mkUser 2 (VStr "Jane Smith") (VStr "jane.smith@example.com") (VInt 28)
          (VStr "Product Manager") seed_time seed_time);
    (3, mkUser 3 (VStr "Mike Johnson") (VStr "mike.johnson@example.com") (VInt 35)
          (VStr "DevOps Engineer") seed_time seed_time) ].

(** [UserManager.__init__] *)
Definition init : UserManager := mkUserManager seed_users 4.

Definition set_users (f : list (Z * user) -> list (Z * user)) (self : UserManager)
  : UserManager :=
  mkUserManager (f (users self)) (next_id self).

Definition set_next_id (n : Z) (self : UserManager) : UserManager :=
  mkUserManager (users self) n.

(** [get_all_users] *)
Definition get_all_users (self : UserManager) : list user :=
  PyDict.values (users self).

(** [get_user_by_id] *)
Definition get_user_by_id (self : UserManager) (user_id : Z) : option user :=
  PyDict.get (users self) user_id.

Section Methods.

Local Open Scope method_scope.

(** [create_user]; [now] is the clock reading. *)
Definition create_user (user_data : value) (now : string) : M user :=
  user_id <- read next_id ;;
  n <- lift (Py.get user_data "name") ;;
  e <- lift (Py.get user_data "email") ;;
  a <- lift (Py.get user_data "age") ;;
  p <- lift (Py.get user_data "position") ;;
  let new_user := mkUser user_id n e a p now now in
  write (set_users (fun d => PyDict.set d user_id new_user)) ;;;
  write (fun self => set_next_id (next_id self + 1) self) ;;;
  ret new_user.

(** One [if field in user_data: user[field] = user_data[field]] of
    [update_user]; [assign] writes the field of the stored record. *)
Definition update_field (user_id : Z) (user_data : value) (field : string)
    (assign : value -> user -> user) : M unit :=
  present <- lift (Py.contains field user_data) ;;
  if present then
    v <- lift (Py.getitem user_data field) ;;
    write (set_users (fun d =>
      match PyDict.get d user_id with
      | Some u => PyDict.set d user_id (assign v u)
      | None => d
      end))
  else ret tt.

Definition set_name (v : value) (u : user) : user :=
  mkUser (id u) v (email u) (age u) (position u) (created_at u) (updated_at u).
Definition set_email (v : value) (u : user) : user :=
  mkUser (id u) (name u) v (age u) (position u) (created_at u) (updated_at u).
Definition set_age (v : value) (u : user) : user :=
  mkUser (id u) (name u) (email u) v (position u) (created_at u) (updated_at u).
Definition set_position (v : value) (u : user) : user :=
  mkUser (id u) (name u) (email u) (age u) v (created_at u) (updated_at u).
Definition set_updated_at (now : string) (u : user) : user :=
  mkUser (id u) (name u) (email u) (age u) (position u) (created_at u) now.

(** [update_user]; the result [None] is Python's [None]. *)
Definition update_user (user_id : Z) (user_data : value) (now : string)
  : M (option user) :=
  known <- read (fun self => PyDict.mem (users self) user_id) ;;
  if negb known then ret None
  else
    update_field user_id user_data "name" set_name ;;;
    update_field user_id user_data "email" set_email ;;;
    update_field user_id user_data "age" set_age ;;;
    update_field user_id user_data "position" set_position ;;;
    write (set_users (fun d =>
      match PyDict.get d user_id with
      | Some u => PyDict.set d user_id (set_updated_at now u)
      | None => d
      end)) ;;;
    read (fun self => PyDict.get (users self) user_id).

(** [delete_user] *)
Definition delete_user (user_id : Z) : M (option user) :=
  known <- read (fun self => PyDict.mem (users self) user_id) ;;
  if known then
    deleted_user <- read (fun self => PyDict.get (users self) user_id) ;;
    write (set_users (fun d => PyDict.remove d user_id)) ;;;
    ret deleted_user
  else ret None.

End Methods.

(* ===================================================================== *)
(** ** [UserManager.validate_user_data] *)
(* ===================================================================== *)

Section Validation.

Local Open Scope result_scope.

Definition required_fields : list string := ["name"; "email"; "age"; "position"].

Definition required_message (field : string) : string :=
  ("Field '" ++ field ++ "' is required")%string.

(** [field not in data or not data[field]] *)
Definition missing (data : value) (field : string) : result bool :=
  present <- Py.contains field data ;;
  if negb present then Ok true
  else v <- Py.getitem data field ;; Ok (negb (Py.truthy v)).

(** The [for field in required_fields] loop, appending to [errors]. *)
Fixpoint require_fields (data : value) (fields : list string) (errors : list string)
  : result (list string) :=
  match fields with
  | [] => Ok errors
  | field :: rest =>
      m <- missing data field ;;
      require_fields data rest
        (if m then errors ++ [required_message field] else errors)
  end.

(** [field in data and data[field]]: the value when the test holds. *)
Definition provided (data : value) (field : string) : result (option value) :=
  present <- Py.contains field data ;;
  if present then
    v <- Py.getitem data field ;;
    Ok (if Py.truthy v then Some v else None)
  else Ok None.

Definition validate_email (data : value) (errors : list string) : result (list string) :=
  p <- provided data "email" ;;
  match p with
  | Some v =>
      ok <- Py.re_match_email v ;;
      Ok (if negb ok then errors ++ ["Invalid email format"] else errors)
  | None => Ok errors
  end.

(** The [try] block catches [ValueError] and [TypeError] only. *)
Definition validate_age (data : value) (errors : list string) : result (list string) :=
  p <- provided data "age" ;;
  match p with
  | Some v =>
      match Py.int v with
      | Ok age =>
          Ok (if (age <? 0) || (age >? 150)
              then errors ++ ["Age must be between 0 and 150"]
              else errors)
      | Raise ValueError | Raise TypeError =>
          Ok (errors ++ ["Age must be a valid number"])
      | Raise e => Raise e
      end
  | None => Ok errors
  end.

(** The checks of [name] and [position]. *)
Definition validate_length (data : value) (field : string) (message : string)
    (errors : list string) : result (list string) :=
  p <- provided data field ;;
  match p with
  | Some v =>
      s <- Py.strip v ;;
      Ok (if PyStr.len s <? 2 then errors ++ [message] else errors)
  | None => Ok errors
  end.

Definition validate_user_data (data : value) (is_update : bool) : result (list string) :=
  errors <- (if negb is_update then require_fields data required_fields []
             else Ok []) ;;
  errors <- validate_email data errors ;;
  errors <- validate_age data errors ;;
  errors <- validate_length data "name"
              "Name must be at least 2 characters long" errors ;;
  validate_length data "position"
    "Position must be at least 2 characters long" errors.

End Validation.

(* ===================================================================== *)
(** ** Requests and the response envelope *)
(* ===================================================================== *)

(** What a view reads of the request body: [request.is_json] and the
    outcome of [request.get_json()]. *)
Record request : Type := mkRequest {
  is_json : bool;
  get_json : result value
}.

Inductive response_data : Type :=
| HomeData
| UsersData (users : list user) (total_count : Z)
| UserData (user : option user)
| DeletedUserData (deleted_user : option user)
| SearchData (users : list user) (total_count : Z) (search_query : string).

(** The [errors] argument: a list of messages, or [[str(e)]]. *)
Inductive error_list : Type :=
| Messages (l : list string)
| ExceptionText (e : exn).

Record response : Type := mkResponse {
  status_code : Z;
  resp_data : option response_data;
  resp_message : option string;
  resp_errors : option error_list
}.

(** [create_response]: [message] and [errors] are kept when truthy. *)
Definition create_response (data : option response_data) (message : string)
    (status : Z) (errors : option error_list) : response :=
  mkResponse status data
    (if PyStr.is_empty message then None else Some message)
    (match errors with
     | Some (Messages []) => None
     | other => other
     end).

(** [len(l)] *)
Definition len {A : Type} (l : list A) : Z := Z.of_nat (List.length l).

(* ===================================================================== *)
(** ** The view functions *)
(* ===================================================================== *)

Module Views.

Local Open Scope method_scope.

(** Inside this module [create_user], [update_user] and [delete_user]
    name the methods of [user_manager] until the view of the same name
    is defined. *)

Definition not_found_message (user_id : Z) : string :=
  ("User with ID " ++ PyStr.of_Z user_id ++ " not found")%string.

(** [GET /]; the fixed description of the API is not spelled out. *)
Definition home : M response :=
  ret (create_response (Some HomeData) "Welcome to Flask User Management API" 200 None).

(** [GET /users] *)
Definition get_users : M response :=
  users <- read get_all_users ;;
  ret (create_response (Some (UsersData users (len users)))
         ("Retrieved " ++ PyStr.of_Z (len users) ++ " users successfully")%string
         200 None).

(** [GET /users/<id>] *)
Definition get_user (user_id : Z) : M response :=
  user <- read (fun self => get_user_by_id self user_id) ;;
  match user with
  | None => ret (create_response None (not_found_message user_id) 404 None)
  | Some _ =>
      ret (create_response (Some (UserData user))
             "User retrieved successfully" 200 None)
  end.

(** The loop of [create_user] over the existing users: [true] when it
    returns from inside the loop. *)
Fixpoint email_exists (existing_users : list user) (data : value) : result bool :=
  match existing_users with
  | [] => Ok false
  | user :: rest =>
      (a <- Py.lower (email user) ;;
       e <- Py.getitem data "email" ;;
       b <- Py.lower e ;;
       if String.eqb a b then Ok true else email_exists rest data)%result
  end.

(** [POST /users] *)
Definition create_user (rq : request) (now : string) : M response :=
  try_except
    (if negb (is_json rq) then
       ret (create_response None "Request must contain JSON data" 400 None)
     else
       data <- lift (get_json rq) ;;
       errors <- lift (validate_user_data data false) ;;
       match errors with
       | _ :: _ =>
           ret (create_response None "Validation failed" 400
                  (Some (Messages errors)))
       | [] =>
           existing_users <- read get_all_users ;;
           found <- lift (email_exists existing_users data) ;;
           if found then
             ret (create_response None "User with this email already exists"
                    409 None)
           else
             new_user <- create_user data now ;;
             ret (create_response (Some (UserData (Some new_user)))
                    "User created successfully" 201 None)
       end)
    (fun e =>
       ret (create_response None "Error creating user" 500
              (Some (ExceptionText e)))).

(** The loop of [update_user] over the existing users. *)
Fixpoint email_exists_elsewhere (existing_users : list user) (user_id : Z)
    (data : value) : result bool :=
  match existing_users with
  | [] => Ok false
  | user :: rest =>
      if negb (id user =? user_id) then
        (a <- Py.lower (email user) ;;
         e <- Py.getitem data "email" ;;
         b <- Py.lower e ;;
         if String.eqb a b then Ok true
         else email_exists_elsewhere rest user_id data)%result
      else email_exists_elsewhere rest user_id data
  end.

(** [PUT /users/<id>] *)
Definition update_user (user_id : Z) (rq : request) (now : string) : M response :=
  try_except
    (current <- read (fun self => get_user_by_id self user_id) ;;
     match current with
     | None => ret (create_response None (not_found_message user_id) 404 None)
     | Some _ =>
         if negb (is_json rq) then
           ret (create_response None "Request must contain JSON data" 400 None)
         else
           data <- lift (get_json rq) ;;
           errors <- lift (validate_user_data data true) ;;
           match errors with
           | _ :: _ =>
               ret (create_response None "Validation failed" 400
                      (Some (Messages errors)))
           | [] =>
               has_email <- lift (Py.contains "email" data) ;;
               found <- (if has_email then
                           existing_users <- read get_all_users ;;
                           lift (email_exists_elsewhere existing_users user_id data)
                         else ret false) ;;
               if found then
                 ret (create_response None
                        "Another user with this email already exists" 409 None)
               else
                 updated_user <- update_user user_id data now ;;
                 ret (create_response (Some (UserData updated_user))
                        "User updated successfully" 200 None)
           end
     end)
    (fun e =>
       ret (create_response None "Error updating user" 500
              (Some (ExceptionText e)))).

(** [DELETE /users/<id>] *)
Definition delete_user (user_id : Z) : M response :=
  try_except
    (deleted_user <- delete_user user_id ;;
     match deleted_user with
     | None => ret (create_response None (not_found_message user_id) 404 None)
     | Some _ =>
         ret (create_response (Some (DeletedUserData deleted_user))
                "User deleted successfully" 200 None)
     end)
    (fun e =>
       ret (create_response None "Error deleting user" 500
              (Some (ExceptionText e)))).

(** [query.lower() in field.lower()] *)
Definition field_matches (query : string) (field : value) : result bool :=
  (f <- Py.lower field ;; Ok (PyStr.contains (PyStr.lower query) f))%result.

(** The three-way [or] in the loop of [search_users]. *)
Definition user_matches (query : string) (user : user) : result bool :=
  (a <- field_matches query (name user) ;;
   if a then Ok true
   else
     b <- field_matches query (email user) ;;
     if b then Ok true else field_matches query (position user))%result.

Fixpoint search_loop (all_users : list user) (query : string)
    (matching_users : list user) : result (list user) :=
  match all_users with
  | [] => Ok matching_users
  | user :: rest =>
      (m <- user_matches query user ;;
       search_loop rest query
         (if m then matching_users ++ [user] else matching_users))%result
  end.

(** [GET /users/search]; [q] is [None] when the parameter is absent.
    This view has no [try]: an exception leaves it. *)
Definition search_users (q : option string) : M response :=
  let query := PyStr.strip (match q with Some s => s | None => "" end) in
  if PyStr.is_empty query then
    ret (create_response None "Search query parameter 'q' is required" 400 None)
  else
    all_users <- read get_all_users ;;
    matching_users <- lift (search_loop all_users query []) ;;
    ret (create_response
           (Some (SearchData matching_users (len matching_users) query))
           ("Found " ++ PyStr.of_Z (len matching_users)
            ++ " users matching '" ++ query ++ "'")%string
           200 None).

(** The functions registered with [app.errorhandler] for 404, 400 and
    500; none of them reads its [error] argument. *)
Definition not_found : response :=
  create_response None "Resource not found" 404 None.

Definition bad_request : response :=
  create_response None "Bad request" 400 None.

Definition internal_error : response :=
  create_response None "Internal server error" 500 None.

End Views.

(** One request to the application. *)
Inductive http_request : Type :=
| GET_home
| GET_users
| GET_user (user_id : Z)
| POST_users (rq : request) (now : string)
| PUT_user (user_id : Z) (rq : request) (now : string)
| DELETE_user (user_id : Z)
| GET_search (q : option string).

(** The routing table. *)
Definition dispatch (r : http_request) : M response :=
  match r with
  | GET_home => Views.home
  | GET_users => Views.get_users
  | GET_user user_id => Views.get_user user_id
  | POST_users rq now => Views.create_user rq now
  | PUT_user user_id rq now => Views.update_user user_id rq now
  | DELETE_user user_id => Views.delete_user user_id
  | GET_search q => Views.search_users q
  end.

(** The store after serving the requests in turn. *)
Fixpoint serve (rs : list http_request) (self : UserManager) : UserManager :=
  match rs with
  | [] => self
  | r :: rest => serve rest (snd (dispatch r self))
  end.

(** One call of a mutating method of the store. *)
Inductive store_call : Type :=
| Create (user_data : value) (now : string)
| Update (user_id : Z) (user_data : value) (now : string)
| Delete (user_id : Z).

Definition call (c : store_call) (self : UserManager) : UserManager :=
  match c with
  | Create user_data now => snd (create_user user_data now self)
  | Update user_id user_data now => snd (update_user user_id user_data now self)
  | Delete user_id => snd (delete_user user_id self)
  end.

Fixpoint calls (cs : list store_call) (self : UserManager) : UserManager :=
  match cs with
  | [] => self
  | c :: rest => calls rest (call c self)
  end.

(* ===================================================================== *)
(** ** Notions used in the statements *)
(* ===================================================================== *)

(** The record [create_user] builds from a dict payload. *)
Definition new_record (self : UserManager) (d : list (string * value)) (now : string) : user :=
  let field k := match Py.assoc k d with Some v => v | None => VNone end in
  mkUser (next_id self) (field "name") (field "email") (field "age")
    (field "position") now now.


(** The record [update_user] leaves in the store, for a dict payload. *)
Definition updated_record (u : user) (d : list (string * value)) (now : string) : user :=
  let field k old := match Py.assoc k d with Some v => v | None => old end in
  mkUser (id u) (field "name" (name u)) (field "email" (email u))
    (field "age" (age u)) (field "position" (position u)) (created_at u) now.

(** The store with the record under [user_id] replaced. *)
Definition with_user (self : UserManager) (user_id : Z) (u : user) : UserManager :=
  mkUserManager (PyDict.set (users self) user_id u) (next_id self).

(** Every key of the store is below the counter. *)
Definition keys_below_next_id (self : UserManager) : Prop :=
  forall k, In k (PyDict.keys (users self)) -> k < next_id self.

(** [field not in d or not d[field]] for a dict [d]. *)
Definition is_missing (d : list (string * value)) (field : string) : bool :=
  match Py.assoc field d with
  | Some v => negb (Py.truthy v)
  | None => true
  end.

(** The value of a field that is present and truthy. *)
Definition given (d : list (string * value)) (field : string) : option value :=
  match Py.assoc field d with
  | Some v => if Py.truthy v then Some v else None
  | None => None
  end.

(** The messages of each rule of [validate_user_data] taken alone. *)
Definition required_errors (data : value) : result (list string) :=
  require_fields data required_fields [].
Definition email_errors (data : value) : result (list string) :=
  validate_email data [].
Definition age_errors (data : value) : result (list string) :=
  validate_age data [].
Definition name_errors (data : value) : result (list string) :=
  validate_length data "name" "Name must be at least 2 characters long" [].
Definition position_errors (data : value) : result (list string) :=
  validate_length data "position" "Position must be at least 2 characters long" [].

(** A dict payload on which no rule raises: name, email and position
    are strings when they are given, and a given age is not an infinite
    float. *)
Definition is_string (o : option value) : bool :=
  match o with
  | Some (VStr _) => true
  | Some _ => false
  | None => true
  end.

Definition converts (o : option value) : bool :=
  match o with
  | Some (VFloat (FInf _)) => false
  | _ => true
  end.

Definition no_fault (d : list (string * value)) : bool :=
  is_string (given d "email") && converts (given d "age")
  && is_string (given d "name") && is_string (given d "position").

(** The payload of the validation example. *)
Definition invalid_payload : value :=
  VDict [("name", VStr ""); ("email", VStr "bad"); ("age", VInt (-5));
         ("position", VStr "")].

(** What the example payload is answered with. *)
Definition invalid_payload_errors : list string :=
  ["Field 'name' is required"; "Field 'position' is required";
   "Invalid email format"; "Age must be between 0 and 150"].

(** The 400 answer that carries the validation messages. *)
Definition validation_failed (errors : list string) : response :=
  create_response None "Validation failed" 400 (Some (Messages errors)).

(** Every stored email is a string. *)
Definition emails_are_strings (self : UserManager) : Prop :=
  forall k u, In (k, u) (users self) -> exists s, email u = VStr s.

(** Two records under different keys never hold emails that are equal
    once lowered. *)
Definition emails_differ (self : UserManager) : Prop :=
  forall k1 u1 k2 u2 s1 s2,
    In (k1, u1) (users self) -> In (k2, u2) (users self) -> k1 <> k2 ->
    email u1 = VStr s1 -> email u2 = VStr s2 ->
    PyStr.lower s1 <> PyStr.lower s2.

(** What the views keep true of the store. *)
Record consistent (self : UserManager) : Prop := mkConsistent {
  keys_unique : NoDup (PyDict.keys (users self));
  keys_fresh : keys_below_next_id self;
  ids_are_keys : forall k u, In (k, u) (users self) -> id u = k;
  emails_unique : emails_differ self;
  emails_typed : emails_are_strings self \/ (List.length (users self) <= 1)%nat
}.

(** The 409 answers of POST and PUT. *)
Definition conflict_on_create : response :=
  create_response None "User with this email already exists" 409 None.

Definition conflict_on_update : response :=
  create_response None "Another user with this email already exists" 409 None.

(** The name, email and position of a record are strings. *)
Definition text_fields (u : user) : Prop :=
  exists n e p, name u = VStr n /\ email u = VStr e /\ position u = VStr p.

(** [q] is a substring of [s] when letter case is ignored. *)
Definition occurs_in (q s : string) : Prop :=
  exists before after, PyStr.lower s = (before ++ PyStr.lower q ++ after)%string.

(** The name, the email or the position of [u] contains [q]. *)
Definition matches (q : string) (u : user) : Prop :=
  exists s, (name u = VStr s \/ email u = VStr s \/ position u = VStr s)
            /\ occurs_in q s.

Definition text (v : value) : string :=
  match v with
  | VStr s => s
  | _ => ""
  end.

(** The test of the search loop on a record with string fields. *)
Definition matchesb (q : string) (u : user) : bool :=
  PyStr.contains (PyStr.lower q) (PyStr.lower (text (name u)))
  || PyStr.contains (PyStr.lower q) (PyStr.lower (text (email u)))
  || PyStr.contains (PyStr.lower q) (PyStr.lower (text (position u))).

(** The query the search view works with. *)
Definition query_of (q : option string) : string :=
  PyStr.strip (match q with Some s => s | None => "" end).

Fixpoint all_space (s : string) : bool :=
  match s with
  | EmptyString => true
  | String c r => PyStr.isspace c && all_space r
  end.

Definition search_found (found : list user) (query : string) : response :=
  create_response (Some (SearchData found (len found) query))
    ("Found " ++ PyStr.of_Z (len found) ++ " users matching '" ++ query ++ "'")%string
    200 None.

Definition search_rejected : response :=
  create_response None "Search query parameter 'q' is required" 400 None.

(** The store the test suite starts each test from ([reset_users]). *)
Definition reset_users : UserManager :=
  mkUserManager
    [ (1, mkUser 1 (VStr "John Doe") (VStr "john.doe@example.com") (VInt 30)
            (VStr "Software Developer") seed_time seed_time);
      (2, mkUser 2 (VStr "Jane Smith") (VStr "jane.smith@example.com") (VInt 28)
            (VStr "Product Manager") seed_time seed_time) ]
    3.

(** A request with a JSON body. *)
Definition json (v : value) : request := mkRequest true (Ok v).

(** The status of the answer, 0 when the view raised. *)
Definition status_of (out : result response * UserManager) : Z :=
  match fst out with
  | Ok r => status_code r
  | Raise _ => 0
  end.

(** The [data] of the answer, if any. *)
Definition resp_data_of (out : result response * UserManager) : option response_data :=
  match fst out with
  | Ok r => resp_data r
  | Raise _ => None
  end.

(** The shape every answer of the application has. *)
Definition enveloped (resp : response) : Prop :=
  In (status_code resp) [200; 201; 400; 404; 409; 500]
  /\ (exists m, resp_message resp = Some m /\ m <> "")
  /\ (resp_data resp <> None <-> status_code resp = 200 \/ status_code resp = 201)
  /\ (forall l, resp_errors resp = Some (Messages l) -> l <> [] /\ status_code resp = 400)
  /\ (forall e, resp_errors resp = Some (ExceptionText e) -> status_code resp = 500).

(** How many users a request adds, given its answer. *)
Definition count_change (r : http_request) (resp : response) : Z :=
  match r with
  | POST_users _ _ => if status_code resp =? 201 then 1 else 0
  | DELETE_user _ => if status_code resp =? 200 then -1 else 0
  | _ => 0
  end.

(** The keys of the store are in strictly increasing order. *)
Definition ascending (self : UserManager) : Prop :=
  StronglySorted Z.lt (PyDict.keys (users self)).

(** The users a search answered with. *)
Definition found_users (out : result response * UserManager) : option (list user) :=
  match resp_data_of out with
  | Some (SearchData l _ _) => Some l
  | _ => None
  end.

(** The words of a regular expression. *)
Inductive denotes : Re.regex -> string -> Prop :=
| denotes_eps : denotes Re.Eps ""
| denotes_class (p : ascii -> bool) (c : ascii) :
    p c = true -> denotes (Re.Class p) (String c "")
| denotes_seq (a b : Re.regex) (s t : string) :
    denotes a s -> denotes b t -> denotes (Re.Seq a b) (s ++ t)%string
| denotes_alt_l (a b : Re.regex) (s : string) :
    denotes a s -> denotes (Re.Alt a b) s
| denotes_alt_r (a b : Re.regex) (s : string) :
    denotes b s -> denotes (Re.Alt a b) s
| denotes_star_nil (a : Re.regex) : denotes (Re.Star a) ""
| denotes_star_cons (a : Re.regex) (s t : string) :
    denotes a s -> denotes (Re.Star a) t -> denotes (Re.Star a) (s ++ t)%string.

(** Every character of [s] is in the class [p]. *)
Fixpoint all_chars (p : ascii -> bool) (s : string) : bool :=
  match s with
  | EmptyString => true
  | String c r => p c && all_chars p r
  end.

(** The classes [[a-zA-Z0-9._%+-]] and [[a-zA-Z0-9.-]]. *)
Definition local_char (c : ascii) : bool := Re.alnum c || Re.one_of "._%+-" c.
Definition domain_char (c : ascii) : bool := Re.alnum c || Re.one_of ".-" c.

(** [s] is [local@domain.tld]: a non-empty local part, a non-empty
    domain and at least two letters after the last dot. *)
Definition email_shape (s : string) : Prop :=
  exists l d t,
    s = (l ++ "@" ++ d ++ "." ++ t)%string
    /\ l <> "" /\ all_chars local_char l = true
    /\ d <> "" /\ all_chars domain_char d = true
    /\ (2 <= String.length t)%nat /\ all_chars Re.alpha t = true.

(** What the email rule lets through: the shape, possibly followed by
    one newline. *)
Definition accepted_email (s : string) : Prop :=
  email_shape s
  \/ exists t, s = (t ++ String Re.newline "")%string /\ email_shape t.

(** The last character of a string. *)
Fixpoint last_char (s : string) : option ascii :=
  match s with
  | EmptyString => None
  | String c EmptyString => Some c
  | String _ r => last_char r
  end.

Definition first_char (s : string) : option ascii :=
  match s with
  | EmptyString => None
  | String c _ => Some c
  end.

(** The query a search answered with. *)
Definition search_query_of (out : result response * UserManager) : option string :=
  match resp_data_of out with
  | Some (SearchData _ _ q) => Some q
  | _ => None
  end.

(** The messages [validate_user_data] has for a field: the one of the
    required-field loop and those of the field's own rule. *)
Definition own_messages (field : string) : list string :=
  if String.eqb field "email" then ["Invalid email format"]
  else if String.eqb field "age" then
    ["Age must be between 0 and 150"; "Age must be a valid number"]
  else if String.eqb field "name" then ["Name must be at least 2 characters long"]
  else if String.eqb field "position" then
    ["Position must be at least 2 characters long"]
  else [].

Definition about (field message : string) : bool :=
  existsb (String.eqb message) (required_message field :: own_messages field).

(** No message twice, at most four, at most one about each field, and
    none about anything else. *)
Definition one_per_field (errors : list string) : bool :=
  (List.length (nodup string_dec errors) =? List.length errors)%nat
  && (List.length errors <=? 4)%nat
  && forallb (fun field => (List.length (filter (about field) errors) <=? 1)%nat)
       required_fields
  && forallb (fun message => existsb (fun field => about field message) required_fields)
       errors.

(** The payloads [update_user] can apply to a stored record: a dict, or
    a string or a list in which none of the four field names occurs. *)
Definition updatable (data : value) : bool :=
  match data with
  | VDict _ => true
  | VStr s => negb (existsb (fun field => PyStr.contains field s) required_fields)
  | VList l => negb (existsb (fun field => existsb (Py.is_str field) l) required_fields)
  | _ => false
  end.

(** *** What validation is documented to do, on a dict payload

    The messages the rules report, written from their wording: one per
    missing required field (create mode), then the email, the age, the
    name and the position message. *)
Definition in_range (n : Z) : bool := (0 <=? n) && (n <=? 150).

Definition too_short (s : string) : bool := PyStr.len (PyStr.strip s) <? 2.

Definition required_messages (d : list (string * value)) : list string :=
  (if is_missing d "name" then ["Field 'name' is required"] else [])
  ++ (if is_missing d "email" then ["Field 'email' is required"] else [])
  ++ (if is_missing d "age" then ["Field 'age' is required"] else [])
  ++ (if is_missing d "position" then ["Field 'position' is required"] else []).

Definition email_messages (d : list (string * value)) : list string :=
  match given d "email" with
  | Some (VStr s) =>
      if Re.match_anchored Re.email_pattern s then [] else ["Invalid email format"]
  | _ => []
  end.

Definition age_messages (d : list (string * value)) : list string :=
  match given d "age" with
  | Some v =>
      match Py.int v with
      | Ok n => if in_range n then [] else ["Age must be between 0 and 150"]
      | Raise _ => ["Age must be a valid number"]
      end
  | None => []
  end.

Definition length_messages (d : list (string * value)) (field message : string)
  : list string :=
  match given d field with
  | Some (VStr s) => if too_short s then [message] else []
  | _ => []
  end.

Definition triggered (d : list (string * value)) (is_update : bool) : list string :=
  (if is_update then [] else required_messages d)
  ++ email_messages d
  ++ age_messages d
  ++ length_messages d "name" "Name must be at least 2 characters long"
  ++ length_messages d "position" "Position must be at least 2 characters long".

(** The exception a dict payload makes validation raise, if any: a
    given email that is not a string, else an infinite age, else a given
    name or position that is not a string. *)
Definition fault (d : list (string * value)) : option exn :=
  if negb (is_string (given d "email")) then Some TypeError
  else if negb (converts (given d "age")) then Some OverflowError
  else if negb (is_string (given d "name") && is_string (given d "position"))
  then Some AttributeError
  else None.

(** *** Substrings when letter case is ignored

    Written without [str.lower]: a capital letter is one of A-Z or of
    the capitals of Latin-1, and its small letter lies 32 code points
    above it. *)
Definition capital (c : ascii) : Prop :=
  (65 <= PyStr.code c <= 90
   \/ (192 <= PyStr.code c <= 222 /\ PyStr.code c <> 215))%N.

Definition small_of (up lo : ascii) : Prop :=
  capital up /\ (PyStr.code lo = PyStr.code up + 32)%N.

Definition same_letter (a b : ascii) : Prop :=
  a = b \/ small_of a b \/ small_of b a.

(** Two strings that differ in letter case only. *)
Inductive same_text : string -> string -> Prop :=
| same_text_nil : same_text "" ""
| same_text_cons (a b : ascii) (s t : string) :
    same_letter a b -> same_text s t -> same_text (String a s) (String b t).

Definition contains_ignoring_case (q s : string) : Prop :=
  exists before mid after,
    s = (before ++ mid ++ after)%string /\ same_text q mid.

(** The name, the email or the position of [u] contains [q], letter
    case ignored. *)
Definition has_text (q : string) (u : user) : Prop :=
  exists s, (name u = VStr s \/ email u = VStr s \/ position u = VStr s)
            /\ contains_ignoring_case q s.

(** Every record of the store has a string as name, email and
    position. *)
Definition all_text (self : UserManager) : Prop :=
  forall u, In u (get_all_users self) -> text_fields u.

(** A request that is no PUT whose JSON object holds something else
    than a string under name, email or position. *)
Definition keeps_text (r : http_request) : Prop :=
  match r with
  | PUT_user _ rq _ =>
      forall d field v,
        get_json rq = Ok (VDict d) ->
        In field ["name"; "email"; "position"] ->
        Py.assoc field d = Some v ->
        exists s, v = VStr s
  | _ => True
  end.

(** [c * n] for a character [c]. *)
Fixpoint replicate (n : nat) (c : ascii) : string :=
  match n with
  | O => EmptyString
  | S m => String c (replicate m c)
  end.

(* ===================================================================== *)
(** ** The built-ins and the test suite on concrete inputs *)
(* ===================================================================== *)

Example lower_examples :
  PyStr.lower "John.DOE@Example.com" = "john.doe@example.com"
  /\ PyStr.strip "  DevOps Engineer  " = "DevOps Engineer"
  /\ PyStr.contains "john" "mike johnson" = true
  /\ PyStr.contains "" "" = true
  /\ PyStr.of_Z 999 = "999".
Proof. repeat split; reflexivity. Qed.

Example to_int_examples :
  PyStr.to_int " 12 " = Some 12
  /\ PyStr.to_int "+5" = Some 5
  /\ PyStr.to_int "-5" = Some (-5)
  /\ PyStr.to_int "1_000" = Some 1000
  /\ PyStr.to_int "007" = Some 7
  /\ PyStr.to_int "1__0" = None
  /\ PyStr.to_int "_1" = None
  /\ PyStr.to_int "1_" = None
  /\ PyStr.to_int "+ 5" = None
  /\ PyStr.to_int "1.5" = None
  /\ PyStr.to_int "abc" = None
  /\ PyStr.to_int "" = None.
Proof. repeat split; reflexivity. Qed.

(** The limit on the number of digits: 4300 digits convert, with a sign,
    white space and underscores on top; one digit more does not, even
    when it is a leading zero. *)
Example to_int_limit :
  (exists n, PyStr.to_int (replicate 4300 "1") = Some n)
  /\ (exists n, PyStr.to_int (" -" ++ replicate 4299 "1" ++ "_1 ")%string = Some n)
  /\ PyStr.to_int (replicate 4301 "1") = None
  /\ PyStr.to_int (replicate 4301 "0") = None
  /\ Py.int (VStr (replicate 4301 "0")) = Raise ValueError.
Proof.
  split; [eexists; vm_compute; reflexivity|].
  split; [eexists; vm_compute; reflexivity|].
  repeat split; vm_compute; reflexivity.
Qed.

Example int_examples :
  Py.int (VFloat (FFinite (-19) 10)) = Ok (-1)
  /\ Py.int (VBool true) = Ok 1
  /\ Py.int (VStr "thirty") = Raise ValueError
  /\ Py.int (VList [VInt 1]) = Raise TypeError
  /\ Py.int (VFloat (FInf false)) = Raise OverflowError.
Proof. repeat split; reflexivity. Qed.

Example email_pattern_examples :
  map (Re.match_anchored Re.email_pattern)
    ["test@example.com"; "a@b.co"; "a@b..co"; "a@-.co";
     "invalid-email"; "bad"; "a@b.c"; "a@.co"; "a@b.co "; "a b@c.de"; ""]
  = [true; true; true; true; false; false; false; false; false; false; false]
  /\ Re.match_anchored Re.email_pattern (String.append "a@b.co" (String Re.newline ""))
     = true.
Proof. split; reflexivity. Qed.

(** [test_api.py], test by test, on the store of the [reset_users]
    fixture. *)

Example test_get_all_users :
  exists l n, fst (Views.get_users reset_users)
              = Ok (create_response (Some (UsersData l n))
                      "Retrieved 2 users successfully" 200 None)
              /\ 2 <= len l.
Proof. do 2 eexists. split; [reflexivity | cbn; lia]. Qed.

Example test_get_user_by_id :
  exists u, fst (Views.get_user 1 reset_users)
            = Ok (create_response (Some (UserData (Some u)))
                    "User retrieved successfully" 200 None)
            /\ name u = VStr "John Doe".
Proof. eexists. split; reflexivity. Qed.

Example test_get_nonexistent_user :
  fst (Views.get_user 999 reset_users)
  = Ok (create_response None "User with ID 999 not found" 404 None).
Proof. reflexivity. Qed.

Example test_create_user :
  exists u self',
    Views.create_user
      (json (VDict [("name", VStr "Test User"); ("email", VStr "test@example.com");
                    ("age", VInt 25); ("position", VStr "Tester")]))
      "2025-10-01 08:00:00" reset_users
    = (Ok (create_response (Some (UserData (Some u)))
             "User created successfully" 201 None), self')
    /\ name u = VStr "Test User" /\ email u = VStr "test@example.com" /\ id u = 3.
Proof. do 2 eexists. split; [cbv; reflexivity | repeat split]. Qed.

Example test_create_user_validation :
  Views.create_user
    (json (VDict [("name", VStr ""); ("email", VStr "invalid-email");
                  ("age", VInt (-5)); ("position", VStr "")]))
    "2025-10-01 08:00:00" reset_users
  = (Ok (validation_failed invalid_payload_errors), reset_users).
Proof. reflexivity. Qed.

Example test_create_duplicate_email :
  Views.create_user
    (json (VDict [("name", VStr "Duplicate User"); ("email", VStr "john.doe@example.com");
                  ("age", VInt 30); ("position", VStr "Developer")]))
    "2025-10-01 08:00:00" reset_users
  = (Ok conflict_on_create, reset_users).
Proof. reflexivity. Qed.

Example test_update_user :
  exists u self',
    Views.update_user 1
      (json (VDict [("name", VStr "John Updated"); ("position", VStr "Senior Developer")]))
      "2025-10-01 08:00:00" reset_users
    = (Ok (create_response (Some (UserData (Some u)))
             "User updated successfully" 200 None), self')
    /\ name u = VStr "John Updated" /\ position u = VStr "Senior Developer".
Proof. do 2 eexists. split; [cbv; reflexivity | split; reflexivity]. Qed.

Example test_update_nonexistent_user :
  status_of (Views.update_user 999 (json (VDict [("name", VStr "Updated Name")]))
               "2025-10-01 08:00:00" reset_users) = 404.
Proof. reflexivity. Qed.

Example test_delete_user :
  status_of (Views.delete_user 1 reset_users) = 200
  /\ status_of (Views.get_user 1 (snd (Views.delete_user 1 reset_users))) = 404.
Proof. split; reflexivity. Qed.

Example test_delete_nonexistent_user :
  status_of (Views.delete_user 999 reset_users) = 404.
Proof. reflexivity. Qed.

Example test_search_users :
  exists u rest n q,
    fst (Views.search_users (Some "John") reset_users)
    = Ok (create_response (Some (SearchData (u :: rest) n q))
            "Found 1 users matching 'John'" 200 None)
    /\ exists s, name u = VStr s /\ PyStr.contains "John" s = true.
Proof. do 4 eexists. split; [reflexivity | eexists; split; reflexivity]. Qed.

Example test_search_users_empty_query :
  status_of (Views.search_users None reset_users) = 400.
Proof. reflexivity. Qed.

(** The end-to-end scenario of the specification: POST on the seeded
    store assigns 4, the listing then counts four users, and after
    DELETE of 1 a GET of 1 answers 404 while 4 is still there. *)
Example end_to_end_scenario :
  let post := POST_users
                (json (VDict [("name", VStr "New User"); ("email", VStr "new@example.com");
                              ("age", VInt 41); ("position", VStr "Analyst")]))
                "2025-10-01 08:00:00" in
  (exists u, resp_data_of (dispatch post init) = Some (UserData (Some u)) /\ id u = 4)
  /\ (exists l, resp_data_of (Views.get_users (serve [post] init)) = Some (UsersData l 4))
  /\ status_of (Views.get_user 1 (serve [post; DELETE_user 1] init)) = 404
  /\ status_of (Views.get_user 4 (serve [post; DELETE_user 1] init)) = 200.
Proof.
  cbv zeta. split; [eexists; split; reflexivity|].
  split; [eexists; reflexivity|]. split; reflexivity.
Qed.

(* ===================================================================== *)
(** ** Properties of the dict operations *)
(* ===================================================================== *)

Section DictFacts.

Context {V : Type}.
Implicit Types (d : list (Z * V)) (k : Z) (v : V).

Lemma get_set_eq d k v : PyDict.get (PyDict.set d k v) k = Some v.
Proof.
  induction d as [|[k' v'] d IH]; simpl.
  - now rewrite Z.eqb_refl.
  - destruct (k' =? k) eqn:E; simpl.
    + now rewrite Z.eqb_refl.
    + now rewrite E.
Qed.

Lemma get_set_ne d k k' v : k <> k' -> PyDict.get (PyDict.set d k v) k' = PyDict.get d k'.
Proof.
  intros Hne. induction d as [|[k0 v0] d IH]; simpl.
  - destruct (k =? k') eqn:E; [apply Z.eqb_eq in E; contradiction | reflexivity].
  - destruct (k0 =? k) eqn:E; simpl.
    + apply Z.eqb_eq in E. subst k0.
      destruct (k =? k') eqn:E'; [apply Z.eqb_eq in E'; contradiction | reflexivity].
    + now rewrite IH.
Qed.

Lemma set_set d k v v' : PyDict.set (PyDict.set d k v) k v' = PyDict.set d k v'.
Proof.
  induction d as [|[k0 v0] d IH]; simpl.
  - now rewrite Z.eqb_refl.
  - destruct (k0 =? k) eqn:E; simpl.
    + now rewrite Z.eqb_refl.
    + now rewrite E, IH.
Qed.

Lemma get_remove_eq d k : PyDict.get (PyDict.remove d k) k = None.
Proof.
  induction d as [|[k0 v0] d IH]; simpl; [reflexivity|].
  destruct (k0 =? k) eqn:E; simpl; [exact IH | now rewrite E].
Qed.

Lemma get_remove_ne d k k' : k <> k' -> PyDict.get (PyDict.remove d k) k' = PyDict.get d k'.
Proof.
  intros Hne. induction d as [|[k0 v0] d IH]; simpl; [reflexivity|].
  destruct (k0 =? k) eqn:E; simpl.
  - apply Z.eqb_eq in E. subst k0.
    destruct (k =? k') eqn:E'; [apply Z.eqb_eq in E'; contradiction | exact IH].
  - now rewrite IH.
Qed.

Lemma remove_absent d k : PyDict.get d k = None -> PyDict.remove d k = d.
Proof.
  induction d as [|[k0 v0] d IH]; simpl; [reflexivity|].
  destruct (k0 =? k) eqn:E; simpl; [discriminate|].
  intros H. now rewrite (IH H).
Qed.

Lemma get_None_keys d k : PyDict.get d k = None <-> ~ In k (PyDict.keys d).
Proof.
  induction d as [|[k0 v0] d IH]; simpl.
  - tauto.
  - destruct (k0 =? k) eqn:E.
    + apply Z.eqb_eq in E. split; [discriminate | intros H; exfalso; apply H; now left].
    + apply Z.eqb_neq in E. rewrite IH. tauto.
Qed.

Lemma get_Some_keys d k v : PyDict.get d k = Some v -> In k (PyDict.keys d).
Proof.
  intros H. destruct (in_dec Z.eq_dec k (PyDict.keys d)) as [Hin|Hout]; [exact Hin|].
  apply get_None_keys in Hout. congruence.
Qed.

Lemma get_Some_In d k v : PyDict.get d k = Some v -> In (k, v) d.
Proof.
  induction d as [|[k0 v0] d IH]; simpl; [discriminate|].
  destruct (k0 =? k) eqn:E.
  - apply Z.eqb_eq in E. intros [= ->]. left. now subst.
  - intros H. right. now apply IH.
Qed.

Lemma keys_set d k v k' :
  In k' (PyDict.keys (PyDict.set d k v)) <-> k' = k \/ In k' (PyDict.keys d).
Proof.
  induction d as [|[k0 v0] d IH]; simpl.
  - intuition.
  - destruct (k0 =? k) eqn:E; simpl.
    + apply Z.eqb_eq in E. subst k0. intuition.
    + rewrite IH. intuition.
Qed.

Lemma keys_remove d k k' :
  In k' (PyDict.keys (PyDict.remove d k)) <-> k' <> k /\ In k' (PyDict.keys d).
Proof.
  induction d as [|[k0 v0] d IH]; simpl.
  - tauto.
  - destruct (k0 =? k) eqn:E; simpl.
    + apply Z.eqb_eq in E. subst k0. rewrite IH. intuition congruence.
    + apply Z.eqb_neq in E. rewrite IH. intuition congruence.
Qed.

End DictFacts.

(* ===================================================================== *)
(** ** What the methods of the store compute *)
(* ===================================================================== *)

Lemma create_user_dict self d now :
  create_user (VDict d) now self
  = (Ok (new_record self d now),
     mkUserManager (PyDict.set (users self) (next_id self) (new_record self d now))
       (next_id self + 1)).
Proof.
  unfold create_user, new_record, bind, read, lift, write, ret, set_users, set_next_id.
  simpl.
  destruct (Py.assoc "name" d), (Py.assoc "email" d), (Py.assoc "age" d),
    (Py.assoc "position" d); reflexivity.
Qed.

Lemma create_user_Ok self user_data now u self' :
  create_user user_data now self = (Ok u, self') ->
  exists d, user_data = VDict d /\ u = new_record self d now
    /\ self' = mkUserManager (PyDict.set (users self) (next_id self) u) (next_id self + 1).
Proof.
  destruct user_data; try (cbv; discriminate).
  rewrite create_user_dict. intros [= <- <-]. eauto.
Qed.

Lemma create_user_Raise self user_data now e self' :
  create_user user_data now self = (Raise e, self') -> self' = self.
Proof.
  destruct user_data; try (cbv; congruence).
  rewrite create_user_dict. discriminate.
Qed.
Lemma set_same {V : Type} (d : list (Z * V)) k v :
  PyDict.get d k = Some v -> PyDict.set d k v = d.
Proof.
  induction d as [|[k0 v0] d IH]; simpl; [discriminate|].
  destruct (k0 =? k) eqn:E.
  - apply Z.eqb_eq in E. intros [= ->]. now subst.
  - intros H. now rewrite (IH H).
Qed.

Lemma with_user_same self user_id u :
  get_user_by_id self user_id = Some u -> with_user self user_id u = self.
Proof.
  unfold get_user_by_id, with_user. intros H. rewrite (set_same _ _ _ H).
  now destruct self.
Qed.

Lemma get_with_user self user_id u :
  get_user_by_id (with_user self user_id u) user_id = Some u.
Proof. apply get_set_eq. Qed.

(** One field of [update_user], on any payload. *)
Lemma update_field_with self user_id data field assign u :
  update_field user_id data field assign (with_user self user_id u)
  = match Py.contains field data with
    | Raise e => (Raise e, with_user self user_id u)
    | Ok false => (Ok tt, with_user self user_id u)
    | Ok true =>
        match Py.getitem data field with
        | Ok v => (Ok tt, with_user self user_id (assign v u))
        | Raise e => (Raise e, with_user self user_id u)
        end
    end.
Proof.
  unfold update_field, bind, lift, write, ret.
  destruct (Py.contains field data) as [[|]|e]; try reflexivity.
  destruct (Py.getitem data field) as [v|e]; try reflexivity.
  unfold set_users, with_user. simpl. now rewrite get_set_eq, set_set.
Qed.

Lemma update_user_unknown self user_id user_data now :
  get_user_by_id self user_id = None ->
  update_user user_id user_data now self = (Ok None, self).
Proof.
  unfold get_user_by_id, update_user, bind, read, ret, PyDict.mem.
  now intros ->.
Qed.

Lemma update_field_dict self user_id d field assign u :
  update_field user_id (VDict d) field assign (with_user self user_id u)
  = (Ok tt, with_user self user_id
              (match Py.assoc field d with Some v => assign v u | None => u end)).
Proof.
  rewrite update_field_with. cbn [Py.contains Py.getitem].
  destruct (Py.assoc field d); reflexivity.
Qed.

Lemma known_with_user self user_id u :
  read (fun self => PyDict.mem (users self) user_id) (with_user self user_id u)
  = (Ok true, with_user self user_id u).
Proof. unfold read, PyDict.mem. cbn [with_user users]. now rewrite get_set_eq. Qed.

Lemma stamp_with_user self user_id u now :
  write (set_users (fun d =>
    match PyDict.get d user_id with
    | Some u => PyDict.set d user_id (set_updated_at now u)
    | None => d
    end)) (with_user self user_id u)
  = (Ok tt, with_user self user_id (set_updated_at now u)).
Proof.
  unfold write, set_users, with_user. cbn [users next_id].
  now rewrite get_set_eq, set_set.
Qed.

Lemma read_with_user self user_id u :
  read (fun self => PyDict.get (users self) user_id) (with_user self user_id u)
  = (Ok (Some u), with_user self user_id u).
Proof. unfold read. cbn [with_user users]. now rewrite get_set_eq. Qed.

Lemma update_user_dict self user_id d now u :
  get_user_by_id self user_id = Some u ->
  update_user user_id (VDict d) now self
  = (Ok (Some (updated_record u d now)),
     with_user self user_id (updated_record u d now)).
Proof.
  intros Hget. rewrite <- (with_user_same _ _ _ Hget) at 1.
  unfold update_user, bind.
  rewrite known_with_user. cbn [negb].
  rewrite !update_field_dict, stamp_with_user, read_with_user.
  unfold updated_record.
  destruct (Py.assoc "name" d), (Py.assoc "email" d), (Py.assoc "age" d),
    (Py.assoc "position" d); reflexivity.
Qed.

(** A payload that names none of the four fields only moves the stamp. *)
Lemma update_user_no_field self user_id data now u :
  get_user_by_id self user_id = Some u ->
  Py.contains "name" data = Ok false ->
  Py.contains "email" data = Ok false ->
  Py.contains "age" data = Ok false ->
  Py.contains "position" data = Ok false ->
  update_user user_id data now self
  = (Ok (Some (set_updated_at now u)), with_user self user_id (set_updated_at now u)).
Proof.
  intros Hget Hn He Ha Hp. rewrite <- (with_user_same _ _ _ Hget) at 1.
  unfold update_user, bind.
  rewrite known_with_user. cbn [negb].
  rewrite update_field_with, Hn. rewrite update_field_with, He.
  rewrite update_field_with, Ha. rewrite update_field_with, Hp.
  now rewrite stamp_with_user, read_with_user.
Qed.

Lemma delete_user_unknown self user_id :
  get_user_by_id self user_id = None -> delete_user user_id self = (Ok None, self).
Proof.
  unfold get_user_by_id, delete_user, bind, read, ret, PyDict.mem.
  now intros ->.
Qed.

Lemma delete_user_known self user_id u :
  get_user_by_id self user_id = Some u ->
  delete_user user_id self
  = (Ok (Some u), mkUserManager (PyDict.remove (users self) user_id) (next_id self)).
Proof.
  unfold get_user_by_id, delete_user, bind, read, write, ret, PyDict.mem, set_users.
  intros H. cbn beta. rewrite H. cbn beta iota. now rewrite H.
Qed.

(* ===================================================================== *)
(** ** The store: update, delete and unknown identifiers *)
(* ===================================================================== *)

(** C2.  [update_user] on a stored record with a dict payload returns the
    updated record and stores it.  Each of name, email, age and position
    takes the payload's value when the payload names it and keeps its
    old value otherwise; [id] and [created_at] keep their values;
    [updated_at] is the clock reading.  The other records and the
    counter are as before. *)
Theorem update_user_changes_named_fields_only
    (self : UserManager) (user_id : Z) (u : user)
    (d : list (string * value)) (now : string) :
  get_user_by_id self user_id = Some u ->
  exists u' self',
    update_user user_id (VDict d) now self = (Ok (Some u'), self')
    /\ get_user_by_id self' user_id = Some u'
    /\ name u' = match Py.assoc "name" d with Some v => v | None => name u end
    /\ email u' = match Py.assoc "email" d with Some v => v | None => email u end
    /\ age u' = match Py.assoc "age" d with Some v => v | None => age u end
    /\ position u' = match Py.assoc "position" d with Some v => v | None => position u end
    /\ id u' = id u
    /\ created_at u' = created_at u
    /\ updated_at u' = now
    /\ (forall k, k <> user_id -> get_user_by_id self' k = get_user_by_id self k)
    /\ next_id self' = next_id self.
Proof.
  intros Hget.
  exists (updated_record u d now), (with_user self user_id (updated_record u d now)).
  split; [now apply update_user_dict|].
  split; [apply get_with_user|].
  repeat (split; [reflexivity|]).
  split; [|reflexivity].
  intros k Hk. unfold get_user_by_id, with_user. cbn [users].
  apply get_set_ne. congruence.
Qed.

Lemma update_user_changes_named_fields_only_witness :
  get_user_by_id init 1 = Some (mkUser 1 (VStr "John Doe") (VStr "john.doe@example.com")
                                  (VInt 30) (VStr "Software Developer") seed_time seed_time)
  /\ exists u' self',
    update_user 1 (VDict [("name", VStr "John Updated"); ("position", VStr "Senior Developer")])
      "2025-10-01 08:00:00" init = (Ok (Some u'), self')
    /\ get_user_by_id self' 1 = Some u'
    /\ name u' = VStr "John Updated"
    /\ email u' = VStr "john.doe@example.com"
    /\ age u' = VInt 30
    /\ position u' = VStr "Senior Developer"
    /\ id u' = 1
    /\ created_at u' = seed_time
    /\ updated_at u' = "2025-10-01 08:00:00"
    /\ (forall k, k <> 1 -> get_user_by_id self' k = get_user_by_id init k)
    /\ next_id self' = next_id init.
Proof.
  split; [reflexivity|].
  exact (update_user_changes_named_fields_only init 1 _
           [("name", VStr "John Updated"); ("position", VStr "Senior Developer")]
           "2025-10-01 08:00:00" eq_refl).
Defined.

(** On a stored record, a payload that is not a dict and in which a
    field name is found, or that is no container at all, makes
    [update_user] raise before it has written anything. *)
Lemma update_user_not_updatable self user_id data now u :
  get_user_by_id self user_id = Some u ->
  updatable data = false ->
  update_user user_id data now self = (Raise TypeError, self).
Proof.
  intros Hget Hu. rewrite <- (with_user_same _ _ _ Hget).
  unfold update_user, bind. rewrite known_with_user. cbn [negb].
  destruct data as [| | | |s|l|d]; try discriminate Hu;
    try (rewrite update_field_with; reflexivity).
  - cbn [updatable required_fields existsb] in Hu.
    rewrite update_field_with. cbn [Py.contains Py.getitem].
    destruct (PyStr.contains "name" s); [reflexivity|].
    rewrite update_field_with. cbn [Py.contains Py.getitem].
    destruct (PyStr.contains "email" s); [reflexivity|].
    rewrite update_field_with. cbn [Py.contains Py.getitem].
    destruct (PyStr.contains "age" s); [reflexivity|].
    rewrite update_field_with. cbn [Py.contains Py.getitem].
    destruct (PyStr.contains "position" s); [reflexivity | discriminate Hu].
  - cbn [updatable required_fields existsb] in Hu.
    rewrite update_field_with. cbn [Py.contains Py.getitem].
    destruct (existsb (Py.is_str "name") l); [reflexivity|].
    rewrite update_field_with. cbn [Py.contains Py.getitem].
    destruct (existsb (Py.is_str "email") l); [reflexivity|].
    rewrite update_field_with. cbn [Py.contains Py.getitem].
    destruct (existsb (Py.is_str "age") l); [reflexivity|].
    rewrite update_field_with. cbn [Py.contains Py.getitem].
    destruct (existsb (Py.is_str "position") l); [reflexivity | discriminate Hu].
Qed.

Lemma update_user_updatable self user_id data now u :
  get_user_by_id self user_id = Some u ->
  updatable data = true ->
  exists u',
    update_user user_id data now self = (Ok (Some u'), with_user self user_id u')
    /\ id u' = id u /\ created_at u' = created_at u /\ updated_at u' = now.
Proof.
  intros Hget Hu.
  destruct data as [| | | |s|l|d]; try discriminate Hu.
  - exists (set_updated_at now u). split; [|repeat split].
    cbn [updatable required_fields existsb] in Hu.
    apply negb_true_iff in Hu. apply orb_false_iff in Hu as [H1 Hu].
    apply orb_false_iff in Hu as [H2 Hu]. apply orb_false_iff in Hu as [H3 Hu].
    apply orb_false_iff in Hu as [H4 _].
    apply update_user_no_field; [exact Hget | | | |]; cbn [Py.contains]; congruence.
  - exists (set_updated_at now u). split; [|repeat split].
    cbn [updatable required_fields existsb] in Hu.
    apply negb_true_iff in Hu. apply orb_false_iff in Hu as [H1 Hu].
    apply orb_false_iff in Hu as [H2 Hu]. apply orb_false_iff in Hu as [H3 Hu].
    apply orb_false_iff in Hu as [H4 _].
    apply update_user_no_field; [exact Hget | | | |]; cbn [Py.contains]; congruence.
  - exists (updated_record u d now). split; [|repeat split].
    now apply update_user_dict.
Qed.

Lemma create_user_not_dict self data now :
  (forall d, data <> VDict d) -> create_user data now self = (Raise AttributeError, self).
Proof.
  intros H. destruct data; try reflexivity. now destruct (H items).
Qed.

(** C7.  For an identifier that is not in the store, [update_user]
    returns [None] for every payload, raises nothing, and leaves the
    record mapping and the counter as they were; [delete_user] does the
    same, and on a stored identifier it returns the record it removed:
    not-found is never an exception.  The store is not total, though.
    On a stored identifier [update_user] returns exactly on the
    payloads that are a dict, or a string or list in which none of the
    four field names occurs, and raises [TypeError] on every other one;
    [create_user] returns exactly on dicts and raises [AttributeError]
    on every other payload.  A call that raises leaves the store as it
    was. *)
Theorem store_absent_is_a_normal_return
    (self : UserManager) (user_id : Z) (user_data : value) (now : string) :
  (get_user_by_id self user_id = None ->
   update_user user_id user_data now self = (Ok None, self)
   /\ delete_user user_id self = (Ok None, self))
  /\ (forall u, get_user_by_id self user_id = Some u ->
        (updatable user_data = true ->
         exists u',
           update_user user_id user_data now self
           = (Ok (Some u'), with_user self user_id u')
           /\ id u' = id u /\ created_at u' = created_at u /\ updated_at u' = now)
        /\ (updatable user_data = false ->
            update_user user_id user_data now self = (Raise TypeError, self))
        /\ delete_user user_id self
           = (Ok (Some u),
              mkUserManager (PyDict.remove (users self) user_id) (next_id self)))
  /\ (forall d, user_data = VDict d ->
        create_user user_data now self
        = (Ok (new_record self d now),
           mkUserManager (PyDict.set (users self) (next_id self) (new_record self d now))
             (next_id self + 1)))
  /\ ((forall d, user_data <> VDict d) ->
      create_user user_data now self = (Raise AttributeError, self)).
Proof.
  split.
  { intros H. split; [now apply update_user_unknown | now apply delete_user_unknown]. }
  split.
  { intros u Hget. split; [now apply update_user_updatable|].
    split; [intros Hu; now apply (update_user_not_updatable _ _ _ _ u)
           | now apply delete_user_known]. }
  split; [intros d ->; apply create_user_dict | apply create_user_not_dict].
Qed.

Lemma store_absent_is_a_normal_return_witness :
  get_user_by_id init 999 = None
  /\ update_user 999 (VStr "my name") "2025-10-01 08:00:00" init = (Ok None, init)
  /\ delete_user 999 init = (Ok None, init).
Proof.
  split; [reflexivity|].
  destruct (store_absent_is_a_normal_return init 999 (VStr "my name")
              "2025-10-01 08:00:00") as (H & _).
  exact (H eq_refl).
Defined.

(** C7 as stated fails in its last clause: the store is not defined for
    all inputs.  On the seeded store, updating record 1 with a string
    that contains a field name raises. *)
Lemma store_is_not_total :
  ~ (forall (self : UserManager) (user_id : Z) (user_data : value) (now : string),
       exists o self', update_user user_id user_data now self = (Ok o, self')).
Proof.
  intros H.
  destruct (H init 1 (VStr "my name") "2025-10-01 08:00:00") as (o & self' & E).
  discriminate E.
Qed.

Lemma delete_view_known self user_id u :
  get_user_by_id self user_id = Some u ->
  Views.delete_user user_id self
  = (Ok (create_response (Some (DeletedUserData (Some u))) "User deleted successfully" 200 None),
     mkUserManager (PyDict.remove (users self) user_id) (next_id self)).
Proof.
  intros H. unfold Views.delete_user, try_except, bind.
  now rewrite (delete_user_known _ _ _ H).
Qed.

Lemma delete_view_unknown self user_id :
  get_user_by_id self user_id = None ->
  Views.delete_user user_id self
  = (Ok (create_response None (Views.not_found_message user_id) 404 None), self).
Proof.
  intros H. unfold Views.delete_user, try_except, bind.
  now rewrite (delete_user_unknown _ _ H).
Qed.

Lemma get_view_unknown self user_id :
  get_user_by_id self user_id = None ->
  Views.get_user user_id self
  = (Ok (create_response None (Views.not_found_message user_id) 404 None), self).
Proof.
  intros H. unfold Views.get_user, bind, read. now rewrite H.
Qed.

(** C6.  After a DELETE that answered 200, the identifier is gone: a GET
    answers 404, a second DELETE answers 404 without data and leaves
    the store as it is.  In any store, deleting an absent identifier
    returns [None] and changes nothing. *)
Theorem delete_then_not_found
    (self self' : UserManager) (user_id : Z) (r : response) :
  Views.delete_user user_id self = (Ok r, self') ->
  status_code r = 200 ->
  get_user_by_id self' user_id = None
  /\ (exists r1, Views.get_user user_id self' = (Ok r1, self')
                 /\ status_code r1 = 404 /\ resp_data r1 = None)
  /\ (exists r2, Views.delete_user user_id self' = (Ok r2, self')
                 /\ status_code r2 = 404 /\ resp_data r2 = None)
  /\ delete_user user_id self' = (Ok None, self')
  /\ (forall s, get_user_by_id s user_id = None -> delete_user user_id s = (Ok None, s)).
Proof.
  intros Hdel Hst.
  assert (Hgone : get_user_by_id self' user_id = None).
  { destruct (get_user_by_id self user_id) as [u|] eqn:Hget.
    - rewrite (delete_view_known _ _ _ Hget) in Hdel.
      injection Hdel as _ <-. apply get_remove_eq.
    - rewrite (delete_view_unknown _ _ Hget) in Hdel.
      injection Hdel as <- _. discriminate Hst. }
  split; [exact Hgone|].
  split; [eexists; split; [now apply get_view_unknown | split; reflexivity]|].
  split; [eexists; split; [now apply delete_view_unknown | split; reflexivity]|].
  split; [now apply delete_user_unknown|].
  intros s Hs. now apply delete_user_unknown.
Qed.

Lemma delete_then_not_found_witness :
  exists r self',
    Views.delete_user 1 init = (Ok r, self')
    /\ status_code r = 200
    /\ get_user_by_id self' 1 = None
    /\ (exists r1, Views.get_user 1 self' = (Ok r1, self')
                   /\ status_code r1 = 404 /\ resp_data r1 = None)
    /\ (exists r2, Views.delete_user 1 self' = (Ok r2, self')
                   /\ status_code r2 = 404 /\ resp_data r2 = None)
    /\ delete_user 1 self' = (Ok None, self')
    /\ (forall s, get_user_by_id s 1 = None -> delete_user 1 s = (Ok None, s)).
Proof.
  eexists. eexists.
  split; [reflexivity|].
  split; [reflexivity|].
  exact (delete_then_not_found init _ 1 _ eq_refl eq_refl).
Defined.

(* ===================================================================== *)
(** ** The counter and the keys along a run *)
(* ===================================================================== *)

Lemma update_field_cases self user_id data field assign u :
  (exists e, update_field user_id data field assign (with_user self user_id u)
             = (Raise e, with_user self user_id u))
  \/ (exists u', update_field user_id data field assign (with_user self user_id u)
                 = (Ok tt, with_user self user_id u')).
Proof.
  rewrite update_field_with.
  destruct (Py.contains field data) as [[|]|e]; [|eauto|eauto].
  destruct (Py.getitem data field); eauto.
Qed.

(** Whatever the payload, [update_user] only rewrites the record under
    [user_id]. *)
Lemma update_user_state self user_id data now u :
  get_user_by_id self user_id = Some u ->
  exists u', snd (update_user user_id data now self) = with_user self user_id u'.
Proof.
  intros Hget.
  enough (H : exists u', snd (update_user user_id data now (with_user self user_id u))
                         = with_user self user_id u')
    by now rewrite (with_user_same _ _ _ Hget) in H.
  unfold update_user, bind. rewrite known_with_user. cbn [negb].
  destruct (update_field_cases self user_id data "name" set_name u)
    as [[e ->]|[u1 ->]]; [cbn [snd]; eauto|].
  destruct (update_field_cases self user_id data "email" set_email u1)
    as [[e ->]|[u2 ->]]; [cbn [snd]; eauto|].
  destruct (update_field_cases self user_id data "age" set_age u2)
    as [[e ->]|[u3 ->]]; [cbn [snd]; eauto|].
  destruct (update_field_cases self user_id data "position" set_position u3)
    as [[e ->]|[u4 ->]]; [cbn [snd]; eauto|].
  rewrite stamp_with_user, read_with_user. cbn [snd]. eauto.
Qed.

Lemma keys_with_user self user_id u u0 k :
  get_user_by_id self user_id = Some u0 ->
  In k (PyDict.keys (users (with_user self user_id u))) <-> In k (PyDict.keys (users self)).
Proof.
  intros Hget. cbn [with_user users]. rewrite keys_set.
  split; [|tauto]. intros [->|H]; [|exact H].
  now apply get_Some_keys in Hget.
Qed.

Lemma call_next_id (c : store_call) (self : UserManager) :
  next_id self <= next_id (call c self).
Proof.
  destruct c as [data now|user_id data now|user_id]; cbn [call].
  - destruct (create_user data now self) as [[u|e] s'] eqn:E.
    + apply create_user_Ok in E as (d & _ & _ & ->). cbn. lia.
    + apply create_user_Raise in E. subst. cbn. lia.
  - destruct (get_user_by_id self user_id) as [u|] eqn:Hget.
    + destruct (update_user_state self user_id data now u Hget) as [u' ->]. cbn. lia.
    + rewrite update_user_unknown by assumption. cbn. lia.
  - destruct (get_user_by_id self user_id) as [u|] eqn:Hget.
    + rewrite (delete_user_known _ _ _ Hget). cbn. lia.
    + rewrite delete_user_unknown by assumption. cbn. lia.
Qed.

Lemma calls_next_id (cs : list store_call) (self : UserManager) :
  next_id self <= next_id (calls cs self).
Proof.
  revert self. induction cs as [|c cs IH]; intros self; cbn [calls]; [lia|].
  specialize (IH (call c self)). pose proof (call_next_id c self). lia.
Qed.

Lemma delete_user_next_id (user_id : Z) (self : UserManager) :
  next_id (snd (delete_user user_id self)) = next_id self.
Proof.
  destruct (get_user_by_id self user_id) as [u|] eqn:Hget.
  - now rewrite (delete_user_known _ _ _ Hget).
  - now rewrite delete_user_unknown.
Qed.

Lemma call_keys_below (c : store_call) (self : UserManager) :
  keys_below_next_id self -> keys_below_next_id (call c self).
Proof.
  intros Inv. destruct c as [data now|user_id data now|user_id]; cbn [call].
  - destruct (create_user data now self) as [[u|e] s'] eqn:E.
    + apply create_user_Ok in E as (d & _ & _ & ->). intros k. cbn [snd users next_id].
      rewrite keys_set. intros [->|H]; [lia|]. apply Inv in H. lia.
    + apply create_user_Raise in E. now subst.
  - destruct (get_user_by_id self user_id) as [u|] eqn:Hget.
    + destruct (update_user_state self user_id data now u Hget) as [u' ->].
      intros k. rewrite (keys_with_user _ _ _ _ _ Hget). apply Inv.
    + now rewrite update_user_unknown.
  - destruct (get_user_by_id self user_id) as [u|] eqn:Hget.
    + rewrite (delete_user_known _ _ _ Hget). intros k. cbn [snd users next_id].
      rewrite keys_remove. intros [_ H]. now apply Inv.
    + now rewrite delete_user_unknown.
Qed.

Lemma init_keys_below : keys_below_next_id init.
Proof. intros k. cbn. intuition lia. Qed.

(** C8.  Along any sequence of store calls from the seeded state, two
    calls of [create_user] never hand out the same identifier: the later
    one gets a strictly larger one, whatever was deleted in between, and
    none gets a seeded identifier.  Every call leaves the counter at
    least as large as it found it, and [delete_user] leaves it as it
    is. *)
Theorem identifiers_never_reused
    (before between : list store_call)
    (data1 data2 : value) (now1 now2 : string)
    (u1 u2 : user) (s1 s2 : UserManager) :
  create_user data1 now1 (calls before init) = (Ok u1, s1) ->
  create_user data2 now2 (calls between s1) = (Ok u2, s2) ->
  id u1 < id u2
  /\ 4 <= id u1
  /\ (forall c s, next_id s <= next_id (call c s))
  /\ (forall k s, next_id (snd (delete_user k s)) = next_id s).
Proof.
  intros H1 H2.
  apply create_user_Ok in H1 as (d1 & _ & -> & ->).
  apply create_user_Ok in H2 as (d2 & _ & -> & _).
  cbn [new_record id].
  pose proof (calls_next_id before init) as Hb.
  pose proof (calls_next_id between
    (mkUserManager
       (PyDict.set (users (calls before init)) (next_id (calls before init))
          (new_record (calls before init) d1 now1))
       (next_id (calls before init) + 1))) as Hm.
  cbn [next_id init] in Hb, Hm.
  repeat split; try lia.
  - apply call_next_id.
  - intros k s. apply delete_user_next_id.
Qed.

Lemma identifiers_never_reused_witness :
  exists u1 s1 u2 s2,
    create_user (VDict [("name", VStr "Ann"); ("email", VStr "ann@example.com")])
      "2025-10-01 08:00:00" (calls [] init) = (Ok u1, s1)
    /\ create_user (VDict [("name", VStr "Bob"); ("email", VStr "bob@example.com")])
         "2025-10-01 08:05:00" (calls [Delete 4] s1) = (Ok u2, s2)
    /\ id u1 < id u2
    /\ 4 <= id u1
    /\ (forall c s, next_id s <= next_id (call c s))
    /\ (forall k s, next_id (snd (delete_user k s)) = next_id s).
Proof.
  do 4 eexists.
  split; [cbv; reflexivity|].
  split; [cbv; reflexivity|].
  exact (identifiers_never_reused [] [Delete 4]
           (VDict [("name", VStr "Ann"); ("email", VStr "ann@example.com")])
           (VDict [("name", VStr "Bob"); ("email", VStr "bob@example.com")])
           "2025-10-01 08:00:00" "2025-10-01 08:05:00" _ _ _ _ eq_refl eq_refl).
Defined.

(* ===================================================================== *)
(** ** The views, branch by branch *)
(* ===================================================================== *)

Lemma create_view_eq rq now self :
  Views.create_user rq now self =
  if negb (is_json rq) then
    (Ok (create_response None "Request must contain JSON data" 400 None), self)
  else
    match get_json rq with
    | Raise e => (Ok (create_response None "Error creating user" 500
                        (Some (ExceptionText e))), self)
    | Ok data =>
        match validate_user_data data false with
        | Raise e => (Ok (create_response None "Error creating user" 500
                            (Some (ExceptionText e))), self)
        | Ok (m :: ms) =>
            (Ok (create_response None "Validation failed" 400
                   (Some (Messages (m :: ms)))), self)
        | Ok [] =>
            match Views.email_exists (get_all_users self) data with
            | Raise e => (Ok (create_response None "Error creating user" 500
                                (Some (ExceptionText e))), self)
            | Ok true =>
                (Ok (create_response None "User with this email already exists"
                       409 None), self)
            | Ok false =>
                match create_user data now self with
                | (Ok new_user, self') =>
                    (Ok (create_response (Some (UserData (Some new_user)))
                           "User created successfully" 201 None), self')
                | (Raise e, self') =>
                    (Ok (create_response None "Error creating user" 500
                           (Some (ExceptionText e))), self')
                end
            end
        end
    end.
Proof.
  unfold Views.create_user, try_except, bind, lift, read, ret.
  destruct (is_json rq); cbn [negb]; [|reflexivity].
  destruct (get_json rq) as [data|e]; [|reflexivity].
  destruct (validate_user_data data false) as [[|m ms]|e]; try reflexivity.
  destruct (Views.email_exists (get_all_users self) data) as [[|]|e]; try reflexivity.
  destruct (create_user data now self) as [[u|e] s']; reflexivity.
Qed.

Lemma update_view_eq user_id rq now self :
  Views.update_user user_id rq now self =
  match get_user_by_id self user_id with
  | None => (Ok (create_response None (Views.not_found_message user_id) 404 None), self)
  | Some _ =>
      if negb (is_json rq) then
        (Ok (create_response None "Request must contain JSON data" 400 None), self)
      else
        match get_json rq with
        | Raise e => (Ok (create_response None "Error updating user" 500
                            (Some (ExceptionText e))), self)
        | Ok data =>
            match validate_user_data data true with
            | Raise e => (Ok (create_response None "Error updating user" 500
                                (Some (ExceptionText e))), self)
            | Ok (m :: ms) =>
                (Ok (create_response None "Validation failed" 400
                       (Some (Messages (m :: ms)))), self)
            | Ok [] =>
                match (has_email <- Py.contains "email" data ;;
                       if has_email
                       then Views.email_exists_elsewhere (get_all_users self) user_id data
                       else Ok false)%result with
                | Raise e => (Ok (create_response None "Error updating user" 500
                                    (Some (ExceptionText e))), self)
                | Ok true =>
                    (Ok (create_response None
                           "Another user with this email already exists" 409 None), self)
                | Ok false =>
                    match update_user user_id data now self with
                    | (Ok updated_user, self') =>
                        (Ok (create_response (Some (UserData updated_user))
                               "User updated successfully" 200 None), self')
                    | (Raise e, self') =>
                        (Ok (create_response None "Error updating user" 500
                               (Some (ExceptionText e))), self')
                    end
                end
            end
        end
  end.
Proof.
  unfold Views.update_user, try_except, bind, lift, read, ret, rbind.
  destruct (get_user_by_id self user_id) as [u0|]; [|reflexivity].
  destruct (is_json rq); cbn [negb]; [|reflexivity].
  destruct (get_json rq) as [data|e]; [|reflexivity].
  destruct (validate_user_data data true) as [[|m ms]|e]; try reflexivity.
  destruct (Py.contains "email" data) as [[|]|e]; try reflexivity.
  - destruct (Views.email_exists_elsewhere (get_all_users self) user_id data)
      as [[|]|e]; try reflexivity.
    destruct (update_user user_id data now self) as [[u|e] s']; reflexivity.
  - destruct (update_user user_id data now self) as [[u|e] s']; reflexivity.
Qed.

(** A view leaves the store alone or makes one call to it. *)
Lemma dispatch_state (r : http_request) (self : UserManager) :
  snd (dispatch r self) = self \/ exists c, snd (dispatch r self) = call c self.
Proof.
  destruct r as [| |user_id|rq now|user_id rq now|user_id|q]; cbn [dispatch].
  - now left.
  - now left.
  - left. unfold Views.get_user, bind, read.
    now destruct (get_user_by_id self user_id).
  - rewrite create_view_eq.
    destruct (negb (is_json rq)); [now left|].
    destruct (get_json rq) as [data|e]; [|now left].
    destruct (validate_user_data data false) as [[|m ms]|e]; [|now left|now left].
    destruct (Views.email_exists (get_all_users self) data) as [[|]|e];
      [now left| |now left].
    right. exists (Create data now). cbn [call].
    now destruct (create_user data now self) as [[u|e] s'].
  - rewrite update_view_eq.
    destruct (get_user_by_id self user_id) as [u0|]; [|now left].
    destruct (negb (is_json rq)); [now left|].
    destruct (get_json rq) as [data|e]; [|now left].
    destruct (validate_user_data data true) as [[|m ms]|e]; [|now left|now left].
    destruct (_ <- Py.contains "email" data ;; _)%result as [[|]|e];
      [now left| |now left].
    right. exists (Update user_id data now). cbn [call].
    now destruct (update_user user_id data now self) as [[u|e] s'].
  - right. exists (Delete user_id). cbn [call].
    unfold Views.delete_user, try_except, bind.
    destruct (delete_user user_id self) as [[[u|]|e] s']; reflexivity.
  - left. unfold Views.search_users.
    destruct (PyStr.is_empty _); [reflexivity|].
    unfold bind, read, lift.
    now destruct (Views.search_loop _ _ _).
Qed.

Lemma dispatch_next_id r self : next_id self <= next_id (snd (dispatch r self)).
Proof.
  destruct (dispatch_state r self) as [->|[c ->]]; [lia | apply call_next_id].
Qed.

Lemma dispatch_keys_below r self :
  keys_below_next_id self -> keys_below_next_id (snd (dispatch r self)).
Proof.
  destruct (dispatch_state r self) as [->|[c ->]]; [easy | apply call_keys_below].
Qed.

Lemma serve_app rs1 rs2 self : serve (rs1 ++ rs2) self = serve rs2 (serve rs1 self).
Proof.
  revert self. induction rs1 as [|r rs1 IH]; intros self; cbn; [reflexivity | apply IH].
Qed.

Lemma serve_next_id rs self : next_id self <= next_id (serve rs self).
Proof.
  revert self. induction rs as [|r rs IH]; intros self; cbn [serve]; [lia|].
  specialize (IH (snd (dispatch r self))). pose proof (dispatch_next_id r self). lia.
Qed.

Lemma serve_keys_below rs self :
  keys_below_next_id self -> keys_below_next_id (serve rs self).
Proof.
  revert self. induction rs as [|r rs IH]; intros self H; cbn [serve]; [exact H|].
  apply IH. now apply dispatch_keys_below.
Qed.

(* ===================================================================== *)
(** ** Creation through POST *)
(* ===================================================================== *)

(** The only branch of the POST view that answers 201. *)
Lemma create_view_201 rq now self r self' :
  Views.create_user rq now self = (Ok r, self') ->
  status_code r = 201 ->
  exists d,
    is_json rq = true
    /\ get_json rq = Ok (VDict d)
    /\ validate_user_data (VDict d) false = Ok []
    /\ Views.email_exists (get_all_users self) (VDict d) = Ok false
    /\ r = create_response (Some (UserData (Some (new_record self d now))))
             "User created successfully" 201 None
    /\ self' = mkUserManager
                 (PyDict.set (users self) (next_id self) (new_record self d now))
                 (next_id self + 1).
Proof.
  rewrite create_view_eq. intros H Hst.
  destruct (is_json rq); cbn [negb] in H;
    [|injection H as <- _; discriminate Hst].
  destruct (get_json rq) as [data|e]; [|injection H as <- _; discriminate Hst].
  destruct (validate_user_data data false) as [[|m ms]|e] eqn:Hv;
    [|injection H as <- _; discriminate Hst|injection H as <- _; discriminate Hst].
  destruct (Views.email_exists (get_all_users self) data) as [[|]|e] eqn:He;
    [injection H as <- _; discriminate Hst| |injection H as <- _; discriminate Hst].
  destruct (create_user data now self) as [[u|e] s'] eqn:Hc;
    [|injection H as <- _; discriminate Hst].
  apply create_user_Ok in Hc as (d & -> & -> & ->).
  injection H as <- <-. exists d. repeat split; assumption.
Qed.

(** C1.  When POST answers 201 after any run of requests from the seeded
    state, the identifier of the returned record is above every key the
    store held at any earlier point of the run (so above every
    identifier handed out before, deleted or not), it is at least 4, it
    is 4 when nothing was served before, and a get by it returns the
    very record POST returned. *)
Theorem created_identifier_is_fresh
    (rs : list http_request) (rq : request) (now : string)
    (r : response) (self' : UserManager) :
  Views.create_user rq now (serve rs init) = (Ok r, self') ->
  status_code r = 201 ->
  exists u,
    resp_data r = Some (UserData (Some u))
    /\ (forall n k, In k (PyDict.keys (users (serve (firstn n rs) init))) -> k < id u)
    /\ 4 <= id u
    /\ (rs = [] -> id u = 4)
    /\ get_user_by_id self' (id u) = Some u
    /\ Views.get_user (id u) self'
       = (Ok (create_response (Some (UserData (Some u)))
                "User retrieved successfully" 200 None), self').
Proof.
  intros H Hst.
  destruct (create_view_201 _ _ _ _ _ H Hst) as (d & _ & _ & _ & _ & -> & ->).
  exists (new_record (serve rs init) d now).
  assert (Hget : get_user_by_id
            (mkUserManager
               (PyDict.set (users (serve rs init)) (next_id (serve rs init))
                  (new_record (serve rs init) d now))
               (next_id (serve rs init) + 1))
            (id (new_record (serve rs init) d now))
          = Some (new_record (serve rs init) d now)).
  { unfold get_user_by_id. cbn [users new_record id]. apply get_set_eq. }
  split; [reflexivity|].
  split.
  { intros n k Hk. cbn [new_record id].
    pose proof (serve_keys_below (firstn n rs) init init_keys_below k Hk) as Hlt.
    pose proof (serve_next_id (skipn n rs) (serve (firstn n rs) init)) as Hle.
    rewrite <- serve_app, firstn_skipn in Hle. lia. }
  split.
  { cbn [new_record id]. pose proof (serve_next_id rs init) as Hle.
    cbn [init next_id] in Hle. exact Hle. }
  split; [intros ->; reflexivity|].
  split; [exact Hget|].
  unfold Views.get_user, bind, read. now rewrite Hget.
Qed.

Lemma created_identifier_is_fresh_witness :
  exists r self',
    Views.create_user
      (mkRequest true
         (Ok (VDict [("name", VStr "Test User"); ("email", VStr "test@example.com");
                     ("age", VInt 25); ("position", VStr "Tester")])))
      "2025-10-01 08:00:00" (serve [DELETE_user 1] init) = (Ok r, self')
    /\ status_code r = 201
    /\ exists u,
         resp_data r = Some (UserData (Some u))
         /\ (forall n k,
               In k (PyDict.keys (users (serve (firstn n [DELETE_user 1]) init))) ->
               k < id u)
         /\ 4 <= id u
         /\ ([DELETE_user 1] = [] -> id u = 4)
         /\ get_user_by_id self' (id u) = Some u
         /\ Views.get_user (id u) self'
            = (Ok (create_response (Some (UserData (Some u)))
                     "User retrieved successfully" 200 None), self').
Proof.
  do 2 eexists.
  split; [cbv; reflexivity|].
  split; [reflexivity|].
  exact (created_identifier_is_fresh [DELETE_user 1]
           (mkRequest true
              (Ok (VDict [("name", VStr "Test User"); ("email", VStr "test@example.com");
                          ("age", VInt 25); ("position", VStr "Tester")])))
           "2025-10-01 08:00:00" _ _ eq_refl eq_refl).
Defined.

(* ===================================================================== *)
(** ** Validation *)
(* ===================================================================== *)

Lemma missing_dict d field : missing (VDict d) field = Ok (is_missing d field).
Proof.
  unfold missing, is_missing, rbind. cbn [Py.contains Py.getitem].
  destruct (Py.assoc field d); reflexivity.
Qed.

Lemma provided_dict d field : provided (VDict d) field = Ok (given d field).
Proof.
  unfold provided, given, rbind. cbn [Py.contains Py.getitem].
  destruct (Py.assoc field d); reflexivity.
Qed.

Lemma require_fields_dict d fields errors :
  require_fields (VDict d) fields errors
  = Ok (errors ++ map required_message (filter (is_missing d) fields)).
Proof.
  revert errors. induction fields as [|f fields IH]; intros errors; cbn [require_fields].
  - cbn. now rewrite app_nil_r.
  - rewrite missing_dict. cbn [rbind filter]. rewrite IH.
    destruct (is_missing d f); cbn [map]; [now rewrite <- app_assoc | reflexivity].
Qed.

(** Each rule appends to the list it is given and never reads it. *)
Lemma require_fields_acc data fields errors :
  require_fields data fields errors
  = (x <- require_fields data fields [] ;; Ok (errors ++ x))%result.
Proof.
  revert errors. induction fields as [|f fields IH]; intros errors; cbn [require_fields].
  - cbn. now rewrite app_nil_r.
  - destruct (missing data f) as [m|e]; cbn [rbind]; [|reflexivity].
    rewrite IH. rewrite (IH (if m then [] ++ _ else [])).
    destruct (require_fields data fields []) as [x|e]; cbn [rbind]; [|reflexivity].
    destruct m; cbn [app]; [now rewrite <- app_assoc | reflexivity].
Qed.

Lemma validate_email_acc data errors :
  validate_email data errors = (x <- email_errors data ;; Ok (errors ++ x))%result.
Proof.
  unfold email_errors, validate_email.
  destruct (provided data "email") as [[v|]|e]; cbn [rbind];
    [|now rewrite app_nil_r|reflexivity].
  destruct (Py.re_match_email v) as [[|]|e]; cbn [rbind negb app];
    [now rewrite app_nil_r|reflexivity|reflexivity].
Qed.

Lemma validate_age_acc data errors :
  validate_age data errors = (x <- age_errors data ;; Ok (errors ++ x))%result.
Proof.
  unfold age_errors, validate_age.
  destruct (provided data "age") as [[v|]|e]; cbn [rbind];
    [|now rewrite app_nil_r|reflexivity].
  destruct (Py.int v) as [n|[]]; cbn [rbind app]; try reflexivity.
  destruct ((n <? 0) || (n >? 150)); [reflexivity | now rewrite app_nil_r].
Qed.

Lemma validate_length_acc data field message errors :
  validate_length data field message errors
  = (x <- validate_length data field message [] ;; Ok (errors ++ x))%result.
Proof.
  unfold validate_length.
  destruct (provided data field) as [[v|]|e]; cbn [rbind];
    [|now rewrite app_nil_r|reflexivity].
  destruct (Py.strip v) as [s|e]; cbn [rbind app]; [|reflexivity].
  destruct (PyStr.len s <? 2); [reflexivity | now rewrite app_nil_r].
Qed.

(** The result is the concatenation, in order, of what each rule
    reports alone; the first rule that raises decides the exception. *)
Lemma validate_user_data_concat data is_update :
  validate_user_data data is_update
  = (r <- (if is_update then Ok [] else required_errors data) ;;
     e <- email_errors data ;;
     a <- age_errors data ;;
     n <- name_errors data ;;
     p <- position_errors data ;;
     Ok (r ++ e ++ a ++ n ++ p))%result.
Proof.
  unfold validate_user_data, required_errors, name_errors, position_errors.
  destruct is_update; cbn [negb].
  - cbn [rbind]. rewrite validate_email_acc.
    destruct (email_errors data) as [e|x]; cbn [rbind]; [|reflexivity].
    rewrite validate_age_acc.
    destruct (age_errors data) as [a|x]; cbn [rbind]; [|reflexivity].
    rewrite validate_length_acc.
    destruct (validate_length data "name" _ []) as [n|x]; cbn [rbind]; [|reflexivity].
    rewrite validate_length_acc.
    destruct (validate_length data "position" _ []) as [p|x]; cbn [rbind]; [|reflexivity].
    now rewrite <- !app_assoc.
  - destruct (require_fields data required_fields []) as [r|x]; cbn [rbind]; [|reflexivity].
    rewrite validate_email_acc.
    destruct (email_errors data) as [e|x]; cbn [rbind]; [|reflexivity].
    rewrite validate_age_acc.
    destruct (age_errors data) as [a|x]; cbn [rbind]; [|reflexivity].
    rewrite validate_length_acc.
    destruct (validate_length data "name" _ []) as [n|x]; cbn [rbind]; [|reflexivity].
    rewrite validate_length_acc.
    destruct (validate_length data "position" _ []) as [p|x]; cbn [rbind]; [|reflexivity].
    now rewrite <- !app_assoc.
Qed.

Lemma required_errors_dict d :
  required_errors (VDict d) = Ok (map required_message (filter (is_missing d) required_fields)).
Proof. unfold required_errors. now rewrite require_fields_dict. Qed.

Lemma email_errors_returns d :
  (exists x, email_errors (VDict d) = Ok x) <-> is_string (given d "email") = true.
Proof.
  unfold email_errors, validate_email. rewrite provided_dict. cbn [rbind].
  destruct (given d "email") as [[]|]; cbn; split; intros H;
    try discriminate; try (destruct H; discriminate); eauto.
Qed.

Lemma age_errors_returns d :
  (exists x, age_errors (VDict d) = Ok x) <-> converts (given d "age") = true.
Proof.
  unfold age_errors, validate_age. rewrite provided_dict. cbn [rbind].
  destruct (given d "age") as [[| | |[]| | |]|]; cbn; split; intros H;
    try discriminate; try (destruct H; discriminate); eauto.
  destruct (PyStr.to_int s); eauto.
Qed.

Lemma length_errors_returns d field message :
  (exists x, validate_length (VDict d) field message [] = Ok x)
  <-> is_string (given d field) = true.
Proof.
  unfold validate_length. rewrite provided_dict. cbn [rbind].
  destruct (given d field) as [[]|]; cbn; split; intros H;
    try discriminate; try (destruct H; discriminate); eauto.
Qed.

(** Validation of a dict returns a list exactly when no rule raises. *)
Lemma validate_user_data_returns d is_update :
  (exists errors, validate_user_data (VDict d) is_update = Ok errors)
  <-> no_fault d = true.
Proof.
  rewrite validate_user_data_concat, required_errors_dict.
  unfold no_fault, name_errors, position_errors.
  rewrite !andb_true_iff.
  rewrite <- email_errors_returns, <- age_errors_returns.
  rewrite <- (length_errors_returns d "name" "Name must be at least 2 characters long").
  rewrite <- (length_errors_returns d "position"
                "Position must be at least 2 characters long").
  destruct (email_errors (VDict d)) as [e|x];
  destruct (age_errors (VDict d)) as [a|y];
  destruct (validate_length (VDict d) "name" _ []) as [n|z];
  destruct (validate_length (VDict d) "position" _ []) as [p|w];
  destruct is_update; cbn [rbind];
  split; intros H; try (destruct H as [? H]; discriminate H);
    try (destruct H as [[[[? H] [? H0]] [? H1]] [? H2]]; discriminate);
    eauto 10.
Qed.

Lemma create_view_invalid rq now self data errors :
  is_json rq = true ->
  get_json rq = Ok data ->
  validate_user_data data false = Ok errors ->
  errors <> [] ->
  Views.create_user rq now self = (Ok (validation_failed errors), self).
Proof.
  intros Hj Hd Hv Hne. rewrite create_view_eq, Hj, Hd, Hv. cbn [negb].
  destruct errors; [contradiction | reflexivity].
Qed.

Lemma create_view_valid rq now self data r self' :
  is_json rq = true ->
  get_json rq = Ok data ->
  validate_user_data data false = Ok [] ->
  Views.create_user rq now self = (Ok r, self') ->
  status_code r = 201 \/ status_code r = 409 \/ status_code r = 500.
Proof.
  intros Hj Hd Hv. rewrite create_view_eq, Hj, Hd, Hv. cbn [negb].
  destruct (Views.email_exists (get_all_users self) data) as [[|]|e].
  - intros [= <- _]. auto.
  - destruct (create_user data now self) as [[u|e] s']; intros [= <- _]; auto.
  - intros [= <- _]. auto.
Qed.

Lemma update_view_invalid user_id rq now self u data errors :
  get_user_by_id self user_id = Some u ->
  is_json rq = true ->
  get_json rq = Ok data ->
  validate_user_data data true = Ok errors ->
  errors <> [] ->
  Views.update_user user_id rq now self = (Ok (validation_failed errors), self).
Proof.
  intros Hu Hj Hd Hv Hne. rewrite update_view_eq, Hu, Hj, Hd, Hv. cbn [negb].
  destruct errors; [contradiction | reflexivity].
Qed.

Lemma update_view_valid user_id rq now self u data r self' :
  get_user_by_id self user_id = Some u ->
  is_json rq = true ->
  get_json rq = Ok data ->
  validate_user_data data true = Ok [] ->
  Views.update_user user_id rq now self = (Ok r, self') ->
  status_code r = 200 \/ status_code r = 409 \/ status_code r = 500.
Proof.
  intros Hu Hj Hd Hv. rewrite update_view_eq, Hu, Hj, Hd, Hv. cbn [negb].
  destruct (_ <- Py.contains "email" data ;; _)%result as [[|]|e].
  - intros [= <- _]. auto.
  - destruct (update_user user_id data now self) as [[u'|e] s']; intros [= <- _]; auto.
  - intros [= <- _]. auto.
Qed.

(* ===================================================================== *)
(** ** Falsy ages in create mode *)
(* ===================================================================== *)

Lemma validate_create_errors d errors :
  validate_user_data (VDict d) false = Ok errors ->
  exists rest,
    errors = map required_message (filter (is_missing d) required_fields) ++ rest.
Proof.
  rewrite validate_user_data_concat, required_errors_dict. cbn [rbind].
  destruct (email_errors (VDict d)) as [e|x]; cbn [rbind]; [|discriminate].
  destruct (age_errors (VDict d)) as [a|x]; cbn [rbind]; [|discriminate].
  destruct (name_errors (VDict d)) as [n|x]; cbn [rbind]; [|discriminate].
  destruct (position_errors (VDict d)) as [p|x]; cbn [rbind]; [|discriminate].
  intros [= <-]. eauto.
Qed.

Lemma validate_create_missing d field errors :
  In field required_fields ->
  is_missing d field = true ->
  validate_user_data (VDict d) false = Ok errors ->
  In (required_message field) errors.
Proof.
  intros Hin Hm Hv. destruct (validate_create_errors _ _ Hv) as [rest ->].
  apply in_or_app. left. apply in_map. apply filter_In. now split.
Qed.

Lemma validate_create_given d field :
  In field required_fields ->
  validate_user_data (VDict d) false = Ok [] ->
  exists v, Py.assoc field d = Some v /\ Py.truthy v = true.
Proof.
  intros Hin Hv.
  destruct (is_missing d field) eqn:Hm.
  - pose proof (validate_create_missing _ _ _ Hin Hm Hv) as [].
  - unfold is_missing in Hm. destruct (Py.assoc field d) as [v|]; [|discriminate].
    exists v. split; [reflexivity|]. now destruct (Py.truthy v).
Qed.

(* ===================================================================== *)
(** ** Email uniqueness *)
(* ===================================================================== *)

Section DictMembers.

Context {V : Type}.
Implicit Types (d : list (Z * V)) (k : Z) (v : V).

Lemma In_set d k0 v0 k v :
  NoDup (PyDict.keys d) ->
  In (k, v) (PyDict.set d k0 v0)
  <-> (k = k0 /\ v = v0) \/ (k <> k0 /\ In (k, v) d).
Proof.
  induction d as [|[k1 v1] d IH]; cbn [PyDict.set PyDict.keys map fst]; intros Hnd.
  - cbn. split.
    + intros [[= <- <-]|[]]. now left.
    + intros [[-> ->]|[_ []]]. now left.
  - inversion Hnd as [|? ? Hnotin Hnd']; subst.
    destruct (k1 =? k0) eqn:E.
    + apply Z.eqb_eq in E. subst k1. cbn [In]. split.
      * intros [[= <- <-]|Hin]; [now left|].
        right. split; [|now right].
        intros ->. apply Hnotin. change (In k0 (map fst d)).
        apply in_map_iff. now exists (k0, v).
      * intros [[-> ->]|[Hne [[= -> ->]|Hin]]]; [now left|contradiction|now right].
    + apply Z.eqb_neq in E. cbn [In]. rewrite (IH Hnd'). split.
      * intros [[= <- <-]|[[-> ->]|[Hne Hin]]]; [right|now left|right]; split; auto.
      * intros [[-> ->]|[Hne [[= -> ->]|Hin]]]; auto.
Qed.

Lemma keys_set_known d k v v0 :
  PyDict.get d k = Some v0 -> PyDict.keys (PyDict.set d k v) = PyDict.keys d.
Proof.
  induction d as [|[k1 v1] d IH]; cbn [PyDict.get PyDict.set]; [discriminate|].
  destruct (k1 =? k) eqn:E.
  - apply Z.eqb_eq in E. now subst.
  - intros H. cbn. f_equal. now apply IH.
Qed.

Lemma set_fresh d k v :
  PyDict.get d k = None -> PyDict.set d k v = d ++ [(k, v)].
Proof.
  induction d as [|[k1 v1] d IH]; cbn [PyDict.get PyDict.set]; [reflexivity|].
  destruct (k1 =? k); [discriminate|].
  intros H. cbn. f_equal. now apply IH.
Qed.

Lemma length_set_known d k v v0 :
  PyDict.get d k = Some v0 -> List.length (PyDict.set d k v) = List.length d.
Proof.
  intros H. rewrite <- (length_map fst (PyDict.set d k v)), <- (length_map fst d).
  change (map fst ?x) with (PyDict.keys x). now rewrite (keys_set_known _ _ _ _ H).
Qed.

Lemma In_remove d k0 k v :
  In (k, v) (PyDict.remove d k0) <-> k <> k0 /\ In (k, v) d.
Proof.
  unfold PyDict.remove. rewrite filter_In. cbn [fst].
  rewrite negb_true_iff, Z.eqb_neq. tauto.
Qed.

Lemma NoDup_keys_remove d k :
  NoDup (PyDict.keys d) -> NoDup (PyDict.keys (PyDict.remove d k)).
Proof.
  induction d as [|[k1 v1] d IH]; cbn; [auto|].
  intros Hnd. inversion Hnd as [|? ? Hnotin Hnd']; subst.
  destruct (k1 =? k); cbn; [now apply IH|].
  constructor; [|now apply IH].
  intros Hin. apply keys_remove in Hin. now apply Hnotin.
Qed.

Lemma length_remove d k : (List.length (PyDict.remove d k) <= List.length d)%nat.
Proof. apply filter_length_le. Qed.

Lemma In_values d v : In v (PyDict.values d) <-> exists k, In (k, v) d.
Proof.
  unfold PyDict.values. rewrite in_map_iff. split.
  - intros [[k v'] [<- H]]. now exists k.
  - intros [k H]. now exists (k, v).
Qed.

End DictMembers.

Lemma validate_parts data is_update errors :
  validate_user_data data is_update = Ok errors ->
  exists r e a n p,
    (if is_update then Ok [] else required_errors data) = Ok r
    /\ email_errors data = Ok e
    /\ age_errors data = Ok a
    /\ name_errors data = Ok n
    /\ position_errors data = Ok p
    /\ errors = r ++ e ++ a ++ n ++ p.
Proof.
  rewrite validate_user_data_concat.
  destruct (if is_update then Ok [] else required_errors data) as [r|x];
    cbn [rbind]; [|discriminate].
  destruct (email_errors data) as [e|x]; cbn [rbind]; [|discriminate].
  destruct (age_errors data) as [a|x]; cbn [rbind]; [|discriminate].
  destruct (name_errors data) as [n|x]; cbn [rbind]; [|discriminate].
  destruct (position_errors data) as [p|x]; cbn [rbind]; [|discriminate].
  intros [= <-]. exists r, e, a, n, p. repeat split; reflexivity.
Qed.

(** A rule that returns on a payload that is not a dict did not find its
    field in it. *)
Lemma provided_Ok data field o :
  provided data field = Ok o ->
  (exists d, data = VDict d) \/ Py.contains field data = Ok false.
Proof.
  unfold provided, rbind.
  destruct data; cbn [Py.contains Py.getitem]; try discriminate; eauto.
  - destruct (PyStr.contains field s); [discriminate | auto].
  - destruct (existsb (Py.is_str field) l); [discriminate | auto].
Qed.

Lemma validate_shape data is_update errors :
  validate_user_data data is_update = Ok errors ->
  (exists d, data = VDict d)
  \/ (Py.contains "name" data = Ok false /\ Py.contains "email" data = Ok false
      /\ Py.contains "age" data = Ok false /\ Py.contains "position" data = Ok false).
Proof.
  intros Hv. destruct (validate_parts _ _ _ Hv) as (r & e & a & n & p & _ & He & Ha & Hn & Hp & _).
  assert (Pe : exists o, provided data "email" = Ok o).
  { unfold email_errors, validate_email in He.
    destruct (provided data "email"); [eauto | discriminate]. }
  assert (Pa : exists o, provided data "age" = Ok o).
  { unfold age_errors, validate_age in Ha.
    destruct (provided data "age"); [eauto | discriminate]. }
  assert (Pn : exists o, provided data "name" = Ok o).
  { unfold name_errors, validate_length in Hn.
    destruct (provided data "name"); [eauto | discriminate]. }
  assert (Pp : exists o, provided data "position" = Ok o).
  { unfold position_errors, validate_length in Hp.
    destruct (provided data "position"); [eauto | discriminate]. }
  destruct Pe as [? Pe], Pa as [? Pa], Pn as [? Pn], Pp as [? Pp].
  apply provided_Ok in Pe, Pa, Pn, Pp.
  destruct Pe as [?|Pe]; [now left|].
  destruct Pa as [?|Pa]; [now left|].
  destruct Pn as [?|Pn]; [now left|].
  destruct Pp as [?|Pp]; [now left|].
  right. auto.
Qed.

(** A payload that passes create-mode validation carries a string email
    that matches the pattern. *)
Lemma validate_create_email d :
  validate_user_data (VDict d) false = Ok [] ->
  exists e, Py.assoc "email" d = Some (VStr e)
            /\ Re.match_anchored Re.email_pattern e = true.
Proof.
  intros Hv.
  destruct (validate_create_given d "email") as (v & Hv1 & Ht); [cbn; auto | exact Hv |].
  destruct (validate_parts _ _ _ Hv) as (r & e & a & n & p & _ & He & _ & _ & _ & Hnil).
  symmetry in Hnil. apply app_eq_nil in Hnil as [_ Hnil]. apply app_eq_nil in Hnil as [-> _].
  unfold email_errors, validate_email in He. rewrite provided_dict in He.
  unfold given in He. rewrite Hv1, Ht in He. cbn [rbind] in He.
  destruct v; try discriminate He. cbn [Py.re_match_email rbind] in He.
  exists s. split; [exact Hv1|].
  destruct (Re.match_anchored Re.email_pattern s); [reflexivity | discriminate He].
Qed.

(** *** The loops over the existing users *)

Lemma email_exists_false l d e :
  Py.assoc "email" d = Some (VStr e) ->
  Views.email_exists l (VDict d) = Ok false ->
  forall u, In u l -> exists s, email u = VStr s /\ PyStr.lower s <> PyStr.lower e.
Proof.
  intros He. induction l as [|u0 l IH]; cbn [Views.email_exists In]; [intros _ u []|].
  destruct (email u0) as [| | | |s| |] eqn:Hu0; cbn [Py.lower rbind]; try discriminate.
  cbn [Py.getitem]. rewrite He. cbn [rbind Py.lower].
  destruct (String.eqb_spec (PyStr.lower s) (PyStr.lower e)) as [Heq|Hne]; [discriminate|].
  intros Hl u [<-|Hin]; [eauto | now apply IH].
Qed.

Lemma email_exists_true l d e :
  Py.assoc "email" d = Some (VStr e) ->
  (forall u, In u l -> exists s, email u = VStr s) ->
  (exists u s, In u l /\ email u = VStr s /\ PyStr.lower s = PyStr.lower e) ->
  Views.email_exists l (VDict d) = Ok true.
Proof.
  intros He. induction l as [|u0 l IH]; cbn [Views.email_exists In];
    intros Hstr (u & s & Hin & Hu & Hs); [destruct Hin|].
  destruct (Hstr u0 (or_introl eq_refl)) as [s0 Hs0]. rewrite Hs0.
  cbn [Py.lower rbind Py.getitem]. rewrite He. cbn [rbind Py.lower].
  destruct (String.eqb_spec (PyStr.lower s0) (PyStr.lower e)) as [Heq|Hne]; [reflexivity|].
  apply IH; [intros; apply Hstr; now right|].
  destruct Hin as [<-|Hin]; [|eauto].
  rewrite Hs0 in Hu. injection Hu as <-. contradiction.
Qed.

Lemma email_exists_elsewhere_false l user_id d v :
  Py.assoc "email" d = Some v ->
  Views.email_exists_elsewhere l user_id (VDict d) = Ok false ->
  forall u, In u l -> id u <> user_id ->
    exists s e, email u = VStr s /\ v = VStr e /\ PyStr.lower s <> PyStr.lower e.
Proof.
  intros He. induction l as [|u0 l IH]; cbn [Views.email_exists_elsewhere In];
    [intros _ u []|].
  destruct (id u0 =? user_id) eqn:E; cbn [negb].
  - apply Z.eqb_eq in E. intros Hl u [<-|Hin] Hne; [contradiction | now apply IH].
  - destruct (email u0) as [| | | |s| |] eqn:Hu0; cbn [Py.lower rbind]; try discriminate.
    cbn [Py.getitem]. rewrite He. cbn [rbind].
    destruct v as [| | | |e| |]; cbn [Py.lower rbind]; try discriminate.
    destruct (String.eqb_spec (PyStr.lower s) (PyStr.lower e)) as [Heq|Hne]; [discriminate|].
    intros Hl u [<-|Hin] Hid; [eauto | now apply IH].
Qed.

Lemma email_exists_elsewhere_true l user_id d e :
  Py.assoc "email" d = Some (VStr e) ->
  (forall u, In u l -> exists s, email u = VStr s) ->
  (exists u s, In u l /\ id u <> user_id /\ email u = VStr s
               /\ PyStr.lower s = PyStr.lower e) ->
  Views.email_exists_elsewhere l user_id (VDict d) = Ok true.
Proof.
  intros He. induction l as [|u0 l IH]; cbn [Views.email_exists_elsewhere In];
    intros Hstr (u & s & Hin & Hid & Hu & Hs); [destruct Hin|].
  assert (Hrest : forall u, In u l -> exists s, email u = VStr s)
    by (intros; apply Hstr; now right).
  destruct (id u0 =? user_id) eqn:E; cbn [negb].
  - apply Z.eqb_eq in E. apply IH; [exact Hrest|].
    destruct Hin as [<-|Hin]; [contradiction | eauto 6].
  - destruct (Hstr u0 (or_introl eq_refl)) as [s0 Hs0]. rewrite Hs0.
    cbn [Py.lower rbind Py.getitem]. rewrite He. cbn [rbind Py.lower].
    destruct (String.eqb_spec (PyStr.lower s0) (PyStr.lower e)) as [Heq|Hne]; [reflexivity|].
    apply IH; [exact Hrest|].
    destruct Hin as [<-|Hin]; [|eauto 6].
    rewrite Hs0 in Hu. injection Hu as <-. contradiction.
Qed.

Lemma email_exists_elsewhere_found l user_id data :
  Views.email_exists_elsewhere l user_id data = Ok true ->
  exists u s e, In u l /\ id u <> user_id /\ email u = VStr s
                /\ Py.getitem data "email" = Ok (VStr e)
                /\ PyStr.lower s = PyStr.lower e.
Proof.
  induction l as [|u0 l IH]; cbn [Views.email_exists_elsewhere In]; [discriminate|].
  destruct (id u0 =? user_id) eqn:E; cbn [negb].
  - intros H. destruct (IH H) as (u & s & e & Hin & Hrest). exists u, s, e. auto.
  - apply Z.eqb_neq in E.
    destruct (email u0) as [| | | |s| |] eqn:Hu0; cbn [Py.lower rbind]; try discriminate.
    destruct (Py.getitem data "email") as [v|x]; cbn [rbind]; [|discriminate].
    destruct v as [| | | |e| |]; cbn [Py.lower rbind]; try discriminate.
    destruct (String.eqb_spec (PyStr.lower s) (PyStr.lower e)) as [Heq|Hne].
    + intros _. exists u0, s, e. auto 6.
    + intros H. destruct (IH H) as (u & s' & e' & Hin & Hid & Hu & Hg & Hl).
      injection Hg as <-. exists u, s', e. auto 6.
Qed.

(** *** The views keep the store consistent *)

Lemma NoDup_keys_set {V : Type} (d : list (Z * V)) k v :
  NoDup (PyDict.keys d) -> NoDup (PyDict.keys (PyDict.set d k v)).
Proof.
  induction d as [|[k1 v1] d IH]; cbn [PyDict.set]; intros Hnd.
  - cbn. constructor; [intros []|constructor].
  - inversion Hnd as [|? ? Hnotin Hnd']; subst.
    destruct (k1 =? k) eqn:E.
    + apply Z.eqb_eq in E. subst k1. cbn. now constructor.
    + apply Z.eqb_neq in E. cbn. constructor; [|now apply IH].
      intros Hin. apply keys_set in Hin as [->|Hin]; [now apply E | now apply Hnotin].
Qed.

Lemma init_consistent : consistent init.
Proof.
  constructor.
  - cbn. repeat (constructor; [cbn; intuition lia|]). constructor.
  - apply init_keys_below.
  - intros k u. cbn. intros [[= <- <-]|[[= <- <-]|[[= <- <-]|[]]]]; reflexivity.
  - intros k1 u1 k2 u2 s1 s2. cbn.
    intros [[= <- <-]|[[= <- <-]|[[= <- <-]|[]]]] [[= <- <-]|[[= <- <-]|[[= <- <-]|[]]]] Hne;
      try (exfalso; apply Hne; reflexivity);
      cbn; intros [= <-] [= <-]; discriminate.
  - left. intros k u. cbn.
    intros [[= <- <-]|[[= <- <-]|[[= <- <-]|[]]]]; cbn; eauto.
Qed.

Lemma consistent_create self d now :
  consistent self ->
  validate_user_data (VDict d) false = Ok [] ->
  Views.email_exists (get_all_users self) (VDict d) = Ok false ->
  consistent (mkUserManager
                (PyDict.set (users self) (next_id self) (new_record self d now))
                (next_id self + 1)).
Proof.
  intros [Hnd Hfresh Hids Huniq Htyped] Hv Hloop.
  destruct (validate_create_email d Hv) as (e & He & _).
  pose proof (email_exists_false _ _ _ He Hloop) as Hold.
  assert (Hnew : email (new_record self d now) = VStr e)
    by (cbn [new_record email]; now rewrite He).
  assert (Holdk : forall k u, In (k, u) (users self) ->
            exists s, email u = VStr s /\ PyStr.lower s <> PyStr.lower e).
  { intros k u Hin. apply Hold. apply In_values. eauto. }
  constructor; cbn [users next_id].
  - now apply NoDup_keys_set.
  - intros k. cbn [users next_id]. rewrite keys_set.
    intros [->|Hin]; [lia|]. apply Hfresh in Hin. lia.
  - intros k u Hin. apply (In_set _ _ _ _ _ Hnd) in Hin as [[-> ->]|[_ Hin]];
      [reflexivity | now apply Hids].
  - intros k1 u1 k2 u2 s1 s2 H1 H2 Hne E1 E2. cbn [users] in H1, H2.
    apply (In_set _ _ _ _ _ Hnd) in H1 as [[-> ->]|[N1 H1]];
    apply (In_set _ _ _ _ _ Hnd) in H2 as [[-> ->]|[N2 H2]].
    + contradiction.
    + destruct (Holdk _ _ H2) as (s & Es & Hs). rewrite Hnew in E1.
      injection E1 as <-. rewrite Es in E2. injection E2 as <-. congruence.
    + destruct (Holdk _ _ H1) as (s & Es & Hs). rewrite Hnew in E2.
      injection E2 as <-. rewrite Es in E1. injection E1 as <-. congruence.
    + now apply (Huniq k1 u1 k2 u2).
  - left. intros k u Hin. cbn [users] in Hin.
    apply (In_set _ _ _ _ _ Hnd) in Hin as [[-> ->]|[_ Hin]]; [eauto|].
    destruct (Holdk _ _ Hin) as (s & Es & _). eauto.
Qed.

Lemma two_keys {V : Type} (d : list (Z * V)) k :
  NoDup (PyDict.keys d) ->
  (2 <= List.length d)%nat ->
  exists k' v', In (k', v') d /\ k' <> k.
Proof.
  destruct d as [|[k1 v1] [|[k2 v2] d]]; cbn [List.length]; try lia.
  intros Hnd _. cbn in Hnd. inversion Hnd as [|? ? Hnotin _]; subst.
  destruct (Z.eq_dec k1 k) as [->|Hne].
  - exists k2, v2. split; [cbn; auto|]. intros ->. apply Hnotin. now left.
  - exists k1, v1. split; [cbn; auto | exact Hne].
Qed.

(** Replacing the record under a known key by one with the same [id]
    whose email is the old one, or one that the loop of the PUT view
    has compared with the email of every other record. *)
Lemma consistent_replace self user_id u0 u' :
  consistent self ->
  get_user_by_id self user_id = Some u0 ->
  id u' = id u0 ->
  (email u' = email u0
   \/ forall k u, In (k, u) (users self) -> k <> user_id ->
        exists s e, email u = VStr s /\ email u' = VStr e
                    /\ PyStr.lower s <> PyStr.lower e) ->
  consistent (with_user self user_id u').
Proof.
  intros [Hnd Hfresh Hids Huniq Htyped] Hget Hid Hemail.
  pose proof (get_Some_In _ _ _ Hget) as Hin0.
  constructor; cbn [with_user users next_id].
  - now apply NoDup_keys_set.
  - intros k. rewrite (keys_with_user _ _ _ _ _ Hget). apply Hfresh.
  - intros k u Hin. apply (In_set _ _ _ _ _ Hnd) in Hin as [[-> ->]|[_ Hin]];
      [|now apply Hids].
    rewrite Hid. now apply Hids.
  - intros k1 u1 k2 u2 s1 s2 H1 H2 Hne E1 E2. cbn [with_user users] in H1, H2.
    apply (In_set _ _ _ _ _ Hnd) in H1 as [[-> ->]|[N1 H1]];
    apply (In_set _ _ _ _ _ Hnd) in H2 as [[-> ->]|[N2 H2]].
    + contradiction.
    + destruct Hemail as [Hsame|Hcmp].
      * rewrite Hsame in E1. now apply (Huniq user_id u0 k2 u2).
      * destruct (Hcmp _ _ H2 N2) as (s & e & Es & Ee & Hs). congruence.
    + destruct Hemail as [Hsame|Hcmp].
      * rewrite Hsame in E2. now apply (Huniq k1 u1 user_id u0).
      * destruct (Hcmp _ _ H1 N1) as (s & e & Es & Ee & Hs). congruence.
    + now apply (Huniq k1 u1 k2 u2).
  - assert (Hlen : List.length (PyDict.set (users self) user_id u')
                   = List.length (users self))
      by (eapply length_set_known; exact Hget).
    destruct Htyped as [Hstr|Hone]; [|right; cbn [with_user users]; lia].
    destruct (Nat.le_gt_cases (List.length (users self)) 1) as [Hone|Hmany];
      [right; cbn [with_user users]; lia|].
    left. intros k u Hin. cbn [with_user users] in Hin.
    apply (In_set _ _ _ _ _ Hnd) in Hin as [[-> ->]|[_ Hin]]; [|now apply (Hstr k)].
    destruct Hemail as [->|Hcmp]; [now apply (Hstr user_id)|].
    destruct (two_keys (users self) user_id Hnd Hmany) as (k' & v' & Hin' & Hne').
    destruct (Hcmp _ _ Hin' Hne') as (s & e & _ & Ee & _). eauto.
Qed.

Lemma consistent_delete self user_id :
  consistent self ->
  consistent (mkUserManager (PyDict.remove (users self) user_id) (next_id self)).
Proof.
  intros [Hnd Hfresh Hids Huniq Htyped].
  constructor; cbn [users next_id].
  - now apply NoDup_keys_remove.
  - intros k. cbn [users next_id]. rewrite keys_remove. intros [_ H]. now apply Hfresh.
  - intros k u Hin. apply In_remove in Hin as [_ Hin]. now apply Hids.
  - intros k1 u1 k2 u2 s1 s2 H1 H2. cbn [users] in H1, H2.
    apply In_remove in H1 as [_ H1]. apply In_remove in H2 as [_ H2].
    now apply (Huniq k1 u1 k2 u2).
  - destruct Htyped as [Hstr|Hone].
    + left. intros k u Hin. cbn [users] in Hin.
      apply In_remove in Hin as [_ Hin]. now apply (Hstr k).
    + right. pose proof (length_remove (users self) user_id). cbn [users]. lia.
Qed.

Lemma create_view_consistent rq now self :
  consistent self -> consistent (snd (Views.create_user rq now self)).
Proof.
  intros Hc. rewrite create_view_eq.
  destruct (negb (is_json rq)); [exact Hc|].
  destruct (get_json rq) as [data|e]; [|exact Hc].
  destruct (validate_user_data data false) as [[|m ms]|e] eqn:Hv; [|exact Hc|exact Hc].
  destruct (Views.email_exists (get_all_users self) data) as [[|]|e] eqn:Hloop;
    [exact Hc| |exact Hc].
  destruct (create_user data now self) as [[u|e] s'] eqn:Hcr.
  - apply create_user_Ok in Hcr as (d & -> & -> & ->). cbn [snd].
    now apply consistent_create.
  - apply create_user_Raise in Hcr. now subst.
Qed.

Lemma update_view_consistent user_id rq now self :
  consistent self -> consistent (snd (Views.update_user user_id rq now self)).
Proof.
  intros Hc. rewrite update_view_eq.
  destruct (get_user_by_id self user_id) as [u0|] eqn:Hget; [|exact Hc].
  destruct (negb (is_json rq)); [exact Hc|].
  destruct (get_json rq) as [data|e]; [|exact Hc].
  destruct (validate_user_data data true) as [[|m ms]|e] eqn:Hv; [|exact Hc|exact Hc].
  destruct (_ <- Py.contains "email" data ;; _)%result as [[|]|e] eqn:Hloop;
    [exact Hc| |exact Hc].
  destruct (validate_shape _ _ _ Hv) as [[d ->]|(Hn & He & Ha & Hp)].
  - rewrite (update_user_dict _ _ d now _ Hget). cbn [snd].
    apply (consistent_replace self user_id u0); [exact Hc | exact Hget | reflexivity |].
    cbn [updated_record email].
    cbn [Py.contains rbind] in Hloop.
    destruct (Py.assoc "email" d) as [v|] eqn:Hv1; [right | now left].
    intros k u Hin Hne.
    apply (email_exists_elsewhere_false _ _ _ _ Hv1 Hloop u).
    + apply In_values. eauto.
    + now rewrite (ids_are_keys _ Hc _ _ Hin).
  - rewrite (update_user_no_field _ _ _ now _ Hget Hn He Ha Hp). cbn [snd].
    apply (consistent_replace self user_id u0); [exact Hc | exact Hget | reflexivity |].
    now left.
Qed.

Lemma delete_view_consistent user_id self :
  consistent self -> consistent (snd (Views.delete_user user_id self)).
Proof.
  intros Hc. destruct (get_user_by_id self user_id) as [u|] eqn:Hget.
  - rewrite (delete_view_known _ _ _ Hget). now apply consistent_delete.
  - now rewrite (delete_view_unknown _ _ Hget).
Qed.

Lemma dispatch_consistent r self :
  consistent self -> consistent (snd (dispatch r self)).
Proof.
  intros Hc. destruct r as [| |user_id|rq now|user_id rq now|user_id|q]; cbn [dispatch].
  - exact Hc.
  - exact Hc.
  - unfold Views.get_user, bind, read. now destruct (get_user_by_id self user_id).
  - now apply create_view_consistent.
  - now apply update_view_consistent.
  - now apply delete_view_consistent.
  - unfold Views.search_users. destruct (PyStr.is_empty _); [exact Hc|].
    unfold bind, read, lift. now destruct (Views.search_loop _ _ _).
Qed.

(** Every store reached by serving requests from the seeded one is
    consistent. *)
Lemma serve_consistent rs self : consistent self -> consistent (serve rs self).
Proof.
  revert self. induction rs as [|r rs IH]; intros self Hc; cbn [serve]; [exact Hc|].
  apply IH. now apply dispatch_consistent.
Qed.

Lemma reached_emails_are_strings self k1 u1 k2 u2 :
  consistent self ->
  In (k1, u1) (users self) -> In (k2, u2) (users self) -> k1 <> k2 ->
  forall u, In u (get_all_users self) -> exists s, email u = VStr s.
Proof.
  intros Hc H1 H2 Hne u Hin. apply In_values in Hin as [k Hin].
  destruct (emails_typed _ Hc) as [Hstr|Hone]; [now apply (Hstr k)|].
  exfalso. destruct (users self) as [|[ka ua] [|[kb ub] l]].
  - destruct H1.
  - destruct H1 as [[= <- <-]|[]], H2 as [[= <- <-]|[]]. now apply Hne.
  - cbn in Hone. lia.
Qed.

Lemma reached_match_is_string self u s :
  consistent self ->
  In u (get_all_users self) -> email u = VStr s ->
  forall u', In u' (get_all_users self) -> exists s', email u' = VStr s'.
Proof.
  intros Hc Hin Hs u' Hin'. apply In_values in Hin' as [k' Hin'].
  destruct (emails_typed _ Hc) as [Hstr|Hone]; [now apply (Hstr k')|].
  apply In_values in Hin as [k Hin].
  destruct (users self) as [|[ka ua] [|[kb ub] l]].
  - destruct Hin.
  - destruct Hin as [[= <- <-]|[]], Hin' as [[= <- <-]|[]]. eauto.
  - cbn in Hone. lia.
Qed.

(** C3, as amended.  In a store reached from the seeded one through the
    views, a creation payload that passes create-mode validation and
    whose email equals, once both are lowered, the email of some record
    makes POST answer 409 and create nothing.  On PUT of a known record
    with a payload that passes update-mode validation the same
    comparison runs over the other records only: a match with another
    record gives 409 and no change, and a payload whose email is the
    record's own (up to case) never gives 409. *)
Theorem duplicate_email_is_conflict
    (rs : list http_request) (rq : request) (now : string)
    (d : list (string * value)) (e : string) (user_id : Z) :
  is_json rq = true ->
  get_json rq = Ok (VDict d) ->
  Py.assoc "email" d = Some (VStr e) ->
  (validate_user_data (VDict d) false = Ok [] ->
   forall u s,
     In u (get_all_users (serve rs init)) ->
     email u = VStr s -> PyStr.lower s = PyStr.lower e ->
     Views.create_user rq now (serve rs init)
     = (Ok conflict_on_create, serve rs init))
  /\ (validate_user_data (VDict d) true = Ok [] ->
      forall u0 u s,
        get_user_by_id (serve rs init) user_id = Some u0 ->
        In u (get_all_users (serve rs init)) -> id u <> user_id ->
        email u = VStr s -> PyStr.lower s = PyStr.lower e ->
        Views.update_user user_id rq now (serve rs init)
        = (Ok conflict_on_update, serve rs init))
  /\ (forall u0 s0 r self',
        get_user_by_id (serve rs init) user_id = Some u0 ->
        email u0 = VStr s0 -> PyStr.lower s0 = PyStr.lower e ->
        Views.update_user user_id rq now (serve rs init) = (Ok r, self') ->
        status_code r <> 409).
Proof.
  intros Hj Hd He.
  pose proof (serve_consistent rs init init_consistent) as Hc.
  set (self := serve rs init) in *.
  split; [|split].
  - intros Hv u s Hin Hs Hl.
    rewrite create_view_eq, Hj, Hd, Hv. cbn [negb].
    rewrite (email_exists_true _ d e He); [reflexivity | |eauto].
    now apply (reached_match_is_string self u s).
  - intros Hv u0 u s Hget Hin Hid Hs Hl.
    rewrite update_view_eq, Hget, Hj, Hd, Hv. cbn [negb Py.contains rbind].
    rewrite He.
    rewrite (email_exists_elsewhere_true _ user_id d e He); [reflexivity| |eauto 6].
    pose proof Hin as Hin'. apply In_values in Hin' as [k Hk].
    apply (reached_emails_are_strings self user_id u0 k u Hc);
      [now apply get_Some_In | exact Hk |].
    rewrite <- (ids_are_keys _ Hc _ _ Hk). congruence.
  - intros u0 s0 r self' Hget Hs0 Hl.
    rewrite update_view_eq, Hget, Hj, Hd. cbn [negb].
    destruct (validate_user_data (VDict d) true) as [[|m ms]|x];
      [|intros [= <- _]; discriminate|intros [= <- _]; discriminate].
    cbn [Py.contains rbind]. rewrite He.
    destruct (Views.email_exists_elsewhere (get_all_users self) user_id (VDict d))
      as [[|]|x] eqn:Hloop.
    + exfalso.
      destruct (email_exists_elsewhere_found _ _ _ Hloop)
        as (u & s & e' & Hin & Hid & Hs & Hg & Hl').
      cbn [Py.getitem] in Hg. rewrite He in Hg. injection Hg as <-.
      apply In_values in Hin as [k Hk].
      apply (emails_unique _ Hc k u user_id u0 s s0); auto.
      * now apply get_Some_In.
      * rewrite <- (ids_are_keys _ Hc _ _ Hk). exact Hid.
      * congruence.
    + destruct (update_user user_id (VDict d) now self) as [[o|x] s'];
        intros [= <- _]; discriminate.
    + intros [= <- _]. discriminate.
Qed.

Lemma duplicate_email_is_conflict_witness :
  Views.create_user
    (mkRequest true
       (Ok (VDict [("name", VStr "Duplicate User"); ("email", VStr "John.Doe@Example.COM");
                   ("age", VInt 30); ("position", VStr "Developer")])))
    "2025-10-01 08:00:00" (serve [DELETE_user 2] init)
  = (Ok conflict_on_create, serve [DELETE_user 2] init).
Proof.
  destruct (duplicate_email_is_conflict [DELETE_user 2]
              (mkRequest true
                 (Ok (VDict [("name", VStr "Duplicate User");
                             ("email", VStr "John.Doe@Example.COM");
                             ("age", VInt 30); ("position", VStr "Developer")])))
              "2025-10-01 08:00:00"
              [("name", VStr "Duplicate User"); ("email", VStr "John.Doe@Example.COM");
               ("age", VInt 30); ("position", VStr "Developer")]
              "John.Doe@Example.COM" 1 eq_refl eq_refl eq_refl) as (H & _).
  apply (H eq_refl
           (mkUser 1 (VStr "John Doe") (VStr "john.doe@example.com") (VInt 30)
              (VStr "Software Developer") seed_time seed_time)
           "john.doe@example.com").
  - cbn. auto.
  - reflexivity.
  - reflexivity.
Defined.

(** C3 as stated fails: a payload with the email of a seeded record, in
    other letter case, and an age out of range is answered 400, not
    409. *)
Lemma duplicate_email_invalid_payload_is_400 :
  ~ (forall (self : UserManager) (rq : request) (now : string)
            (d : list (string * value)) (e : string) (u : user) (s : string),
        is_json rq = true ->
        get_json rq = Ok (VDict d) ->
        Py.assoc "email" d = Some (VStr e) ->
        In u (get_all_users self) ->
        email u = VStr s -> PyStr.lower s = PyStr.lower e ->
        exists r self', Views.create_user rq now self = (Ok r, self')
                        /\ status_code r = 409).
Proof.
  intros H.
  destruct (H init
              (mkRequest true
                 (Ok (VDict [("name", VStr "Duplicate User");
                             ("email", VStr "JOHN.DOE@EXAMPLE.COM");
                             ("age", VInt 200); ("position", VStr "Developer")])))
              "2025-10-01 08:00:00"
              [("name", VStr "Duplicate User"); ("email", VStr "JOHN.DOE@EXAMPLE.COM");
               ("age", VInt 200); ("position", VStr "Developer")]
              "JOHN.DOE@EXAMPLE.COM"
              (mkUser 1 (VStr "John Doe") (VStr "john.doe@example.com") (VInt 30)
                 (VStr "Software Developer") seed_time seed_time)
              "john.doe@example.com"
              eq_refl eq_refl eq_refl (or_introl eq_refl) eq_refl eq_refl)
    as (r & self' & Hr & Hst).
  vm_compute in Hr. injection Hr as <- _. discriminate Hst.
Qed.

(* ===================================================================== *)
(** ** Search *)
(* ===================================================================== *)

Lemma prefix_spec n h :
  String.prefix n h = true <-> exists after, h = (n ++ after)%string.
Proof.
  revert h. induction n as [|c n IH]; intros h; cbn [String.prefix String.append].
  - split; [intros _; now exists h | intros _; now destruct h].
  - destruct h as [|c' h]; [split; [discriminate | intros [? [=]]]|].
    cbn [String.prefix].
    destruct (Ascii.ascii_dec c c') as [->|Hne].
    + rewrite IH. split; intros [after H]; exists after; congruence.
    + split; [discriminate | intros [after [= ? _]]; congruence].
Qed.

Lemma contains_spec n h :
  PyStr.contains n h = true
  <-> exists before after, h = (before ++ n ++ after)%string.
Proof.
  induction h as [|c h IH]; cbn [PyStr.contains]; rewrite orb_true_iff, prefix_spec.
  - split.
    + intros [[after H]|[=]]. now exists EmptyString, after.
    + intros ([|c b] & after & H); [left; now exists after | discriminate H].
  - rewrite IH. split.
    + intros [[after H]|(b & after & H)].
      * now exists EmptyString, after.
      * exists (String c b), after. cbn. now rewrite H.
    + intros ([|c' b] & after & H).
      * left. now exists after.
      * right. cbn in H. injection H as _ H. eauto.
Qed.

Lemma user_matches_text query u :
  text_fields u -> Views.user_matches query u = Ok (matchesb query u).
Proof.
  intros (n & e & p & Hn & He & Hp).
  unfold Views.user_matches, Views.field_matches, matchesb.
  rewrite Hn, He, Hp. cbn [Py.lower rbind text].
  destruct (PyStr.contains (PyStr.lower query) (PyStr.lower n)); [reflexivity|].
  destruct (PyStr.contains (PyStr.lower query) (PyStr.lower e)); reflexivity.
Qed.

Lemma search_loop_text l query found :
  (forall u, In u l -> text_fields u) ->
  Views.search_loop l query found = Ok (found ++ filter (matchesb query) l).
Proof.
  revert found. induction l as [|u l IH]; intros found Ht; cbn [Views.search_loop filter].
  - now rewrite app_nil_r.
  - rewrite (user_matches_text _ _ (Ht u (or_introl eq_refl))). cbn [rbind].
    rewrite IH by (intros; apply Ht; now right).
    destruct (matchesb query u); [now rewrite <- app_assoc | reflexivity].
Qed.

Lemma matchesb_spec query u :
  text_fields u -> (matchesb query u = true <-> matches query u).
Proof.
  intros (n & e & p & Hn & He & Hp). unfold matchesb, matches, occurs_in.
  rewrite Hn, He, Hp. cbn [text]. rewrite !orb_true_iff, !contains_spec. split.
  - intros [[H|H]|H]; [exists n | exists e | exists p]; auto.
  - intros (s & [Hs|[Hs|Hs]] & H); injection Hs as <-; auto.
Qed.

(** Whenever the test of the loop returns, it returns what [matchesb]
    says, and that is whether the record matches. *)
Lemma user_matches_Ok query u b :
  Views.user_matches query u = Ok b ->
  b = matchesb query u /\ (b = true <-> matches query u).
Proof.
  unfold Views.user_matches, Views.field_matches, matchesb, matches, occurs_in.
  destruct (name u) as [| | | |n| |]; cbn [Py.lower rbind text]; try discriminate.
  destruct (PyStr.contains (PyStr.lower query) (PyStr.lower n)) eqn:En.
  { intros [= <-]. split; [reflexivity|]. split; [intros _|reflexivity].
    exists n. split; [auto|]. now apply contains_spec. }
  destruct (email u) as [| | | |e| |]; cbn [Py.lower rbind text]; try discriminate.
  destruct (PyStr.contains (PyStr.lower query) (PyStr.lower e)) eqn:Ee.
  { intros [= <-]. split; [reflexivity|]. split; [intros _|reflexivity].
    exists e. split; [auto|]. now apply contains_spec. }
  destruct (position u) as [| | | |p| |]; cbn [Py.lower rbind text]; try discriminate.
  intros [= <-]. split; [reflexivity|]. split.
  - intros Hp. exists p. split; [auto|]. now apply contains_spec.
  - intros (s & [Hs|[Hs|Hs]] & H); injection Hs as <-;
      apply contains_spec in H; congruence.
Qed.

Lemma search_loop_Ok l query found result :
  Views.search_loop l query found = Ok result ->
  result = found ++ filter (matchesb query) l
  /\ (forall u, In u l -> (matchesb query u = true <-> matches query u)).
Proof.
  revert found. induction l as [|u l IH]; intros found; cbn [Views.search_loop filter].
  - intros [= <-]. split; [now rewrite app_nil_r | intros u []].
  - destruct (Views.user_matches query u) as [b|x] eqn:Hu; cbn [rbind]; [|discriminate].
    destruct (user_matches_Ok _ _ _ Hu) as [-> Hb].
    intros H. apply IH in H as [-> Hl]. split.
    + destruct (matchesb query u); [now rewrite <- app_assoc | reflexivity].
    + intros u' [<-|Hin]; [exact Hb | now apply Hl].
Qed.

Lemma lstrip_all_space s : all_space s = true -> PyStr.lstrip_by PyStr.isspace s = "".
Proof.
  induction s as [|c s IH]; cbn; [reflexivity|].
  destruct (PyStr.isspace c); cbn; [exact IH | discriminate].
Qed.

Lemma strip_all_space s : all_space s = true -> PyStr.strip s = "".
Proof. intros H. unfold PyStr.strip. now rewrite lstrip_all_space. Qed.

Lemma search_blank q self :
  query_of q = "" -> Views.search_users q self = (Ok search_rejected, self).
Proof.
  unfold Views.search_users, query_of. now intros ->.
Qed.

(* ===================================================================== *)
(** ** Empty values through PUT *)
(* ===================================================================== *)

(** C4.  The code breaks the claim.  Update-mode validation skips a
    field whose value is falsy, so PUT on the seeded record 1 with a
    body whose only key is name, bound to the empty string, passes
    validation, is answered 200 and leaves the record with an empty
    name; one PUT can empty all four fields.  Create-mode validation
    reports the same empty name as missing, and update-mode validation
    rejects a one-letter name as too short. *)
Theorem update_stores_empty_fields :
  validate_user_data (VDict [("name", VStr "")]) true = Ok []
  /\ (exists self',
        Views.update_user 1 (mkRequest true (Ok (VDict [("name", VStr "")])))
          "2025-10-01 08:00:00" init
        = (Ok (create_response
                 (Some (UserData (Some
                    (mkUser 1 (VStr "") (VStr "john.doe@example.com") (VInt 30)
                       (VStr "Software Developer") seed_time "2025-10-01 08:00:00"))))
                 "User updated successfully" 200 None), self')
        /\ get_user_by_id self' 1
           = Some (mkUser 1 (VStr "") (VStr "john.doe@example.com") (VInt 30)
                     (VStr "Software Developer") seed_time "2025-10-01 08:00:00"))
  /\ (exists r self',
        Views.update_user 1
          (mkRequest true
             (Ok (VDict [("name", VStr ""); ("email", VStr ""); ("age", VInt 0);
                         ("position", VStr "")])))
          "2025-10-01 08:00:00" init = (Ok r, self')
        /\ status_code r = 200
        /\ get_user_by_id self' 1
           = Some (mkUser 1 (VStr "") (VStr "") (VInt 0) (VStr "")
                     seed_time "2025-10-01 08:00:00"))
  /\ In "Field 'name' is required"
       match validate_user_data (VDict [("name", VStr "")]) false with
       | Ok errors => errors
       | Raise _ => []
       end
  /\ validate_user_data (VDict [("name", VStr "J")]) true
     = Ok ["Name must be at least 2 characters long"].
Proof.
  split; [reflexivity|].
  split; [eexists; split; reflexivity|].
  split; [do 2 eexists; split; [cbv; reflexivity | split; reflexivity]|].
  split; [cbn; auto | reflexivity].
Qed.

(* ===================================================================== *)
(** ** All or nothing *)
(* ===================================================================== *)

(** A payload that passed validation never makes the store raise. *)
Lemma validated_update_returns self user_id data now u errors :
  validate_user_data data true = Ok errors ->
  get_user_by_id self user_id = Some u ->
  exists u', update_user user_id data now self
             = (Ok (Some u'), with_user self user_id u').
Proof.
  intros Hv Hget. destruct (validate_shape _ _ _ Hv) as [[d ->]|(Hn & He & Ha & Hp)].
  - exists (updated_record u d now). now apply update_user_dict.
  - exists (set_updated_at now u). now apply update_user_no_field.
Qed.

Lemma validated_create_is_dict data :
  validate_user_data data false = Ok [] -> exists d, data = VDict d.
Proof.
  intros Hv. destruct (validate_shape _ _ _ Hv) as [Hd|(Hn & He & Ha & Hp)]; [exact Hd|].
  exfalso.
  destruct (validate_parts _ _ _ Hv) as (r & e & a & n & p & Hr & _ & _ & _ & _ & Hnil).
  symmetry in Hnil. apply app_eq_nil in Hnil as [-> _].
  unfold required_errors, required_fields in Hr. cbn [require_fields] in Hr.
  unfold missing in Hr. rewrite Hn, He, Ha, Hp in Hr. discriminate Hr.
Qed.

Lemma update_user_raise self user_id data now e :
  fst (update_user user_id data now self) = Raise e ->
  snd (update_user user_id data now self) = self.
Proof.
  destruct (get_user_by_id self user_id) as [u|] eqn:Hget;
    [|now rewrite update_user_unknown].
  rewrite <- (with_user_same _ _ _ Hget) at 1 2 3.
  destruct data as [| | | |s|l|d];
    try (unfold update_user, bind; rewrite known_with_user; cbn [negb];
         rewrite update_field_with; cbn [Py.contains fst snd]; intros _;
         reflexivity).
  - unfold update_user, bind. rewrite known_with_user. cbn [negb].
    rewrite update_field_with. cbn [Py.contains Py.getitem].
    destruct (PyStr.contains "name" s);
      [cbn [fst snd]; intros _; reflexivity|].
    rewrite update_field_with. cbn [Py.contains Py.getitem].
    destruct (PyStr.contains "email" s);
      [cbn [fst snd]; intros _; reflexivity|].
    rewrite update_field_with. cbn [Py.contains Py.getitem].
    destruct (PyStr.contains "age" s);
      [cbn [fst snd]; intros _; reflexivity|].
    rewrite update_field_with. cbn [Py.contains Py.getitem].
    destruct (PyStr.contains "position" s);
      [cbn [fst snd]; intros _; reflexivity|].
    rewrite stamp_with_user, read_with_user. discriminate.
  - unfold update_user, bind. rewrite known_with_user. cbn [negb].
    rewrite update_field_with. cbn [Py.contains Py.getitem].
    destruct (existsb (Py.is_str "name") l);
      [cbn [fst snd]; intros _; reflexivity|].
    rewrite update_field_with. cbn [Py.contains Py.getitem].
    destruct (existsb (Py.is_str "email") l);
      [cbn [fst snd]; intros _; reflexivity|].
    rewrite update_field_with. cbn [Py.contains Py.getitem].
    destruct (existsb (Py.is_str "age") l);
      [cbn [fst snd]; intros _; reflexivity|].
    rewrite update_field_with. cbn [Py.contains Py.getitem].
    destruct (existsb (Py.is_str "position") l);
      [cbn [fst snd]; intros _; reflexivity|].
    rewrite stamp_with_user, read_with_user. discriminate.
  - rewrite (update_user_dict _ _ d now u) by apply get_with_user. discriminate.
Qed.

(** X1.  The three mutating methods of the store are all or nothing: when
    [create_user] or [update_user] raises, on any payload, the store is
    exactly as before (no half-updated record, no consumed
    identifier), and [delete_user] never raises. *)
Theorem store_methods_are_atomic
    (self : UserManager) (user_id : Z) (user_data : value) (now : string) :
  (forall e, fst (create_user user_data now self) = Raise e ->
             snd (create_user user_data now self) = self)
  /\ (forall e, fst (update_user user_id user_data now self) = Raise e ->
                snd (update_user user_id user_data now self) = self)
  /\ (exists o, fst (delete_user user_id self) = Ok o).
Proof.
  split; [|split].
  - intros e H. destruct (create_user user_data now self) as [[u|x] s'] eqn:E;
      [discriminate|]. now apply create_user_Raise in E.
  - intros e. apply update_user_raise.
  - destruct (get_user_by_id self user_id) as [u|] eqn:Hget.
    + rewrite (delete_user_known _ _ _ Hget). cbn [fst]. eauto.
    + rewrite (delete_user_unknown _ _ Hget). cbn [fst]. eauto.
Qed.

Lemma store_methods_are_atomic_witness :
  fst (update_user 1 (VStr "my name") "2025-10-01 08:00:00" init) = Raise TypeError
  /\ snd (update_user 1 (VStr "my name") "2025-10-01 08:00:00" init) = init.
Proof.
  split; [reflexivity|].
  destruct (store_methods_are_atomic init 1 (VStr "my name") "2025-10-01 08:00:00")
    as (_ & H & _).
  apply (H TypeError). reflexivity.
Defined.

(* ===================================================================== *)
(** ** What every view does *)
(* ===================================================================== *)

Lemma search_loop_Raise l query found e :
  Views.search_loop l query found = Raise e ->
  e = AttributeError /\ exists u, In u l /\ ~ text_fields u.
Proof.
  revert found. induction l as [|u l IH]; intros found; cbn [Views.search_loop];
    [discriminate|].
  destruct (Views.user_matches query u) as [b|x] eqn:Hu; cbn [rbind].
  - intros H. destruct (IH _ H) as (-> & u' & Hin & Hn).
    split; [reflexivity|]. exists u'. split; [now right | exact Hn].
  - intros [= ->].
    assert (Hbad : e = AttributeError /\ ~ text_fields u).
    { unfold Views.user_matches, Views.field_matches in Hu.
      destruct (name u) as [| | | |n| |] eqn:Hn; cbn [Py.lower rbind] in Hu;
        try (injection Hu as <-; split; [reflexivity|];
             intros (? & ? & ? & ? & _); congruence).
      destruct (PyStr.contains (PyStr.lower query) (PyStr.lower n)); [discriminate|].
      destruct (email u) as [| | | |m| |] eqn:He; cbn [Py.lower rbind] in Hu;
        try (injection Hu as <-; split; [reflexivity|];
             intros (? & ? & ? & _ & ? & _); congruence).
      destruct (PyStr.contains (PyStr.lower query) (PyStr.lower m)); [discriminate|].
      destruct (position u) as [| | | |p| |] eqn:Hp; cbn [Py.lower rbind] in Hu;
        try (injection Hu as <-; split; [reflexivity|];
             intros (? & ? & ? & _ & _ & ?); congruence).
      discriminate. }
    destruct Hbad as [-> Hn]. split; [reflexivity|]. exists u. split; [now left | exact Hn].
Qed.

(** X2.  No view lets an exception out, except the search view, which has
    no [try]: it raises only [AttributeError], and only when some stored
    record has a name, email or position that is not a string. *)
Theorem only_search_can_raise (r : http_request) (self : UserManager) (e : exn) :
  fst (dispatch r self) = Raise e ->
  (exists q, r = GET_search q)
  /\ e = AttributeError
  /\ exists u, In u (get_all_users self) /\ ~ text_fields u.
Proof.
  destruct r as [| |user_id|rq now|user_id rq now|user_id|q]; cbn [dispatch].
  - discriminate.
  - discriminate.
  - unfold Views.get_user, bind, read.
    destruct (get_user_by_id self user_id); discriminate.
  - rewrite create_view_eq.
    destruct (negb (is_json rq)); [discriminate|].
    destruct (get_json rq) as [data|x]; [|discriminate].
    destruct (validate_user_data data false) as [[|m ms]|x]; try discriminate.
    destruct (Views.email_exists (get_all_users self) data) as [[|]|x]; try discriminate.
    destruct (create_user data now self) as [[u|x] s']; discriminate.
  - rewrite update_view_eq.
    destruct (get_user_by_id self user_id) as [u0|]; [|discriminate].
    destruct (negb (is_json rq)); [discriminate|].
    destruct (get_json rq) as [data|x]; [|discriminate].
    destruct (validate_user_data data true) as [[|m ms]|x]; try discriminate.
    destruct (_ <- Py.contains "email" data ;; _)%result as [[|]|x]; try discriminate.
    destruct (update_user user_id data now self) as [[u|x] s']; discriminate.
  - unfold Views.delete_user, try_except, bind.
    destruct (delete_user user_id self) as [[[u|]|x] s']; discriminate.
  - unfold Views.search_users.
    destruct (PyStr.is_empty _); [discriminate|].
    unfold bind, read, lift.
    destruct (Views.search_loop (get_all_users self) _ []) as [found|x] eqn:Hl;
      [discriminate|].
    cbn [fst]. intros [= ->].
    destruct (search_loop_Raise _ _ _ _ Hl) as (-> & u & Hin & Hn).
    split; [eauto|]. split; [reflexivity | eauto].
Qed.

Lemma only_search_can_raise_witness :
  fst (dispatch (GET_search (Some "John"))
         (serve [PUT_user 1 (json (VDict [("name", VNone)])) "2025-10-01 08:00:00"] init))
  = Raise AttributeError
  /\ exists u,
       In u (get_all_users
               (serve [PUT_user 1 (json (VDict [("name", VNone)])) "2025-10-01 08:00:00"]
                  init))
       /\ ~ text_fields u.
Proof.
  split; [reflexivity|].
  apply (only_search_can_raise (GET_search (Some "John"))
           (serve [PUT_user 1 (json (VDict [("name", VNone)])) "2025-10-01 08:00:00"] init)
           AttributeError eq_refl).
Defined.

(** X3.  A request changes the store only when it succeeds: unless POST
    answers 201, or PUT or DELETE answers 200, the records and the
    counter are exactly as before.  The GET views never change them. *)
Theorem only_success_changes_the_store (r : http_request) (self : UserManager) :
  snd (dispatch r self) = self
  \/ exists resp,
       fst (dispatch r self) = Ok resp
       /\ match r with
          | POST_users _ _ => status_code resp = 201
          | PUT_user _ _ _ => status_code resp = 200
          | DELETE_user _ => status_code resp = 200
          | _ => False
          end.
Proof.
  destruct r as [| |user_id|rq now|user_id rq now|user_id|q]; cbn [dispatch].
  - now left.
  - now left.
  - left. unfold Views.get_user, bind, read. now destruct (get_user_by_id self user_id).
  - rewrite create_view_eq.
    destruct (negb (is_json rq)); [now left|].
    destruct (get_json rq) as [data|x]; [|now left].
    destruct (validate_user_data data false) as [[|m ms]|x] eqn:Hv; [|now left|now left].
    destruct (Views.email_exists (get_all_users self) data) as [[|]|x];
      [now left| |now left].
    destruct (validated_create_is_dict _ Hv) as [d ->].
    rewrite create_user_dict. right. eexists. split; reflexivity.
  - rewrite update_view_eq.
    destruct (get_user_by_id self user_id) as [u0|] eqn:Hget; [|now left].
    destruct (negb (is_json rq)); [now left|].
    destruct (get_json rq) as [data|x]; [|now left].
    destruct (validate_user_data data true) as [[|m ms]|x] eqn:Hv; [|now left|now left].
    destruct (_ <- Py.contains "email" data ;; _)%result as [[|]|x];
      [now left| |now left].
    destruct (validated_update_returns self user_id data now u0 [] Hv Hget) as [u' ->].
    right. eexists. split; reflexivity.
  - destruct (get_user_by_id self user_id) as [u|] eqn:Hget.
    + rewrite (delete_view_known _ _ _ Hget). right. eexists. split; reflexivity.
    + rewrite (delete_view_unknown _ _ Hget). now left.
  - left. unfold Views.search_users.
    destruct (PyStr.is_empty _); [reflexivity|].
    unfold bind, read, lift. now destruct (Views.search_loop _ _ _).
Qed.

Ltac pick_status := first [left; reflexivity | right; pick_status].

Ltac check_envelope :=
  unfold enveloped; cbn;
  split; [pick_status|];
  split; [eexists; split; [reflexivity | discriminate]|];
  split; [split; [intros H; first [now left | now right | now (exfalso; apply H)]
                 | intros [H|H]; discriminate]|];
  split; [intros l H; first [discriminate H | (injection H as <-; split; [discriminate | reflexivity])]|];
  intros e H; first [discriminate H | reflexivity].

(** X4.  Every answer of a view is an envelope with one of the statuses
    200, 201, 400, 404, 409 and 500 and a non-empty message; it carries
    data exactly when the status is 200 or 201, a list of messages only
    with status 400 and then a non-empty one, and the text of an
    exception exactly with status 500.  The three registered error
    handlers answer in the same shape with their status and fixed
    message, and carry neither data nor errors. *)
Theorem every_answer_is_an_envelope
    (r : http_request) (self : UserManager) (resp : response) :
  fst (dispatch r self) = Ok resp ->
  enveloped resp
  /\ (status_code resp = 500 <-> exists e, resp_errors resp = Some (ExceptionText e))
  /\ enveloped Views.not_found
  /\ enveloped Views.bad_request
  /\ enveloped Views.internal_error
  /\ (status_code Views.not_found = 404
      /\ resp_message Views.not_found = Some "Resource not found"
      /\ resp_data Views.not_found = None
      /\ resp_errors Views.not_found = None)
  /\ (status_code Views.bad_request = 400
      /\ resp_message Views.bad_request = Some "Bad request"
      /\ resp_data Views.bad_request = None
      /\ resp_errors Views.bad_request = None)
  /\ (status_code Views.internal_error = 500
      /\ resp_message Views.internal_error = Some "Internal server error"
      /\ resp_data Views.internal_error = None
      /\ resp_errors Views.internal_error = None).
Proof.
  intros H.
  enough (G : enveloped resp
              /\ (status_code resp = 500
                  <-> exists e, resp_errors resp = Some (ExceptionText e))).
  { clear H. destruct G as [G1 G2]. split; [exact G1|]. split; [exact G2|].
    split; [check_envelope|]. split; [check_envelope|]. split; [check_envelope|].
    repeat split; reflexivity. }
  revert H.
  destruct r as [| |user_id|rq now|user_id rq now|user_id|q]; cbn [dispatch].
  - intros [= <-]. split; [check_envelope|].
    cbn. split; [discriminate | intros [e H]; discriminate H].
  - intros [= <-]. split; [check_envelope|].
    cbn. split; [discriminate | intros [e H]; discriminate H].
  - unfold Views.get_user, bind, read.
    destruct (get_user_by_id self user_id); intros [= <-];
      (split; [check_envelope|]);
      cbn; (split; [discriminate | intros [e H]; discriminate H]).
  - rewrite create_view_eq.
    destruct (negb (is_json rq)).
    { intros [= <-]. split; [check_envelope|].
      cbn. split; [discriminate | intros [e H]; discriminate H]. }
    destruct (get_json rq) as [data|x].
    2:{ intros [= <-]. split; [check_envelope|]. cbn. split; eauto. }
    destruct (validate_user_data data false) as [[|m ms]|x].
    2:{ intros [= <-]. split; [check_envelope|].
        cbn. split; [discriminate | intros [e H]; discriminate H]. }
    2:{ intros [= <-]. split; [check_envelope|]. cbn. split; eauto. }
    destruct (Views.email_exists (get_all_users self) data) as [[|]|x].
    { intros [= <-]. split; [check_envelope|].
      cbn. split; [discriminate | intros [e H]; discriminate H]. }
    2:{ intros [= <-]. split; [check_envelope|]. cbn. split; eauto. }
    destruct (create_user data now self) as [[u|x] s']; intros [= <-].
    + split; [check_envelope|]. cbn. split; [discriminate | intros [e H]; discriminate H].
    + split; [check_envelope|]. cbn. split; eauto.
  - rewrite update_view_eq.
    destruct (get_user_by_id self user_id) as [u0|].
    2:{ intros [= <-]. split; [check_envelope|].
        cbn. split; [discriminate | intros [e H]; discriminate H]. }
    destruct (negb (is_json rq)).
    { intros [= <-]. split; [check_envelope|].
      cbn. split; [discriminate | intros [e H]; discriminate H]. }
    destruct (get_json rq) as [data|x].
    2:{ intros [= <-]. split; [check_envelope|]. cbn. split; eauto. }
    destruct (validate_user_data data true) as [[|m ms]|x].
    2:{ intros [= <-]. split; [check_envelope|].
        cbn. split; [discriminate | intros [e H]; discriminate H]. }
    2:{ intros [= <-]. split; [check_envelope|]. cbn. split; eauto. }
    destruct (_ <- Py.contains "email" data ;; _)%result as [[|]|x].
    { intros [= <-]. split; [check_envelope|].
      cbn. split; [discriminate | intros [e H]; discriminate H]. }
    2:{ intros [= <-]. split; [check_envelope|]. cbn. split; eauto. }
    destruct (update_user user_id data now self) as [[u|x] s']; intros [= <-].
    + split; [check_envelope|]. cbn. split; [discriminate | intros [e H]; discriminate H].
    + split; [check_envelope|]. cbn. split; eauto.
  - unfold Views.delete_user, try_except, bind.
    destruct (delete_user user_id self) as [[[u|]|x] s']; intros [= <-];
      (split; [check_envelope|]); cbn;
      first [split; [discriminate | intros [e H]; discriminate H] | split; eauto].
  - unfold Views.search_users.
    destruct (PyStr.is_empty _).
    { intros [= <-]. split; [check_envelope|].
      cbn. split; [discriminate | intros [e H]; discriminate H]. }
    unfold bind, read, lift.
    destruct (Views.search_loop (get_all_users self) _ []) as [found|x]; [|discriminate].
    intros [= <-]. split; [check_envelope|].
    cbn. split; [discriminate | intros [e H]; discriminate H].
Qed.

Lemma every_answer_is_an_envelope_witness :
  enveloped (create_response None "User with ID 999 not found" 404 None)
  /\ resp_errors Views.internal_error = None.
Proof.
  destruct (every_answer_is_an_envelope (GET_user 999) init
              (create_response None "User with ID 999 not found" 404 None) eq_refl)
    as (H & _ & _ & _ & _ & _ & _ & _ & _ & _ & H').
  split; [exact H | exact H'].
Defined.

(* ===================================================================== *)
(** ** Stores reached from the seeded one *)
(* ===================================================================== *)

Lemma serve_is_calls rs self : exists cs, serve rs self = calls cs self.
Proof.
  revert self. induction rs as [|r rs IH]; intros self; cbn [serve].
  - now exists [].
  - destruct (dispatch_state r self) as [->|[c ->]].
    + apply IH.
    + destruct (IH (call c self)) as [cs ->]. now exists (c :: cs).
Qed.

Lemma calls_app cs1 cs2 self : calls (cs1 ++ cs2) self = calls cs2 (calls cs1 self).
Proof.
  revert self. induction cs1 as [|c cs1 IH]; intros self; cbn; [reflexivity | apply IH].
Qed.

Lemma calls_keys_below cs self :
  keys_below_next_id self -> keys_below_next_id (calls cs self).
Proof.
  revert self. induction cs as [|c cs IH]; intros self H; cbn [calls]; [exact H|].
  apply IH. now apply call_keys_below.
Qed.

Lemma below_is_absent self k :
  keys_below_next_id self -> next_id self <= k -> get_user_by_id self k = None.
Proof.
  intros Hb Hk. apply get_None_keys. intros Hin. apply Hb in Hin. lia.
Qed.

(** [update_user] keeps the [id] and [created_at] of the record. *)
Lemma update_field_keeps self user_id data field assign u :
  (forall v u0, id (assign v u0) = id u0 /\ created_at (assign v u0) = created_at u0) ->
  exists r u',
    update_field user_id data field assign (with_user self user_id u)
    = (r, with_user self user_id u')
    /\ id u' = id u /\ created_at u' = created_at u.
Proof.
  intros Hk. rewrite update_field_with.
  destruct (Py.contains field data) as [[|]|e]; [|eauto 6|eauto 6].
  destruct (Py.getitem data field) as [v|e]; [|eauto 6].
  destruct (Hk v u). eauto 6.
Qed.

Lemma update_user_keeps self user_id data now u :
  get_user_by_id self user_id = Some u ->
  exists u', snd (update_user user_id data now self) = with_user self user_id u'
             /\ id u' = id u /\ created_at u' = created_at u.
Proof.
  intros Hget.
  enough (H : exists u', snd (update_user user_id data now (with_user self user_id u))
                         = with_user self user_id u'
                         /\ id u' = id u /\ created_at u' = created_at u)
    by now rewrite (with_user_same _ _ _ Hget) in H.
  unfold update_user, bind. rewrite known_with_user. cbn [negb].
  destruct (update_field_keeps self user_id data "name" set_name u)
    as ([[]|e] & u1 & -> & I1 & C1); [now split| |cbn [snd]; eauto].
  destruct (update_field_keeps self user_id data "email" set_email u1)
    as ([[]|e] & u2 & -> & I2 & C2); [now split| |cbn [snd]; exists u2; intuition congruence].
  destruct (update_field_keeps self user_id data "age" set_age u2)
    as ([[]|e] & u3 & -> & I3 & C3); [now split| |cbn [snd]; exists u3; intuition congruence].
  destruct (update_field_keeps self user_id data "position" set_position u3)
    as ([[]|e] & u4 & -> & I4 & C4); [now split| |cbn [snd]; exists u4; intuition congruence].
  rewrite stamp_with_user, read_with_user. cbn [snd].
  exists (set_updated_at now u4). cbn [set_updated_at id created_at].
  intuition congruence.
Qed.

(** One call of the store, seen from one key. *)
Lemma call_absent_stays c self k :
  get_user_by_id self k = None -> k < next_id self ->
  get_user_by_id (call c self) k = None.
Proof.
  intros Hnone Hlt. destruct c as [data now|user_id data now|user_id]; cbn [call].
  - destruct (create_user data now self) as [[u|e] s'] eqn:E.
    + apply create_user_Ok in E as (d & _ & _ & ->). cbn [snd].
      unfold get_user_by_id. cbn [users]. rewrite get_set_ne by lia. exact Hnone.
    + apply create_user_Raise in E. now subst.
  - destruct (get_user_by_id self user_id) as [u|] eqn:Hget.
    + destruct (update_user_state self user_id data now u Hget) as [u' ->].
      unfold get_user_by_id. cbn [with_user users].
      rewrite get_set_ne by congruence. exact Hnone.
    + now rewrite update_user_unknown.
  - destruct (get_user_by_id self user_id) as [u|] eqn:Hget.
    + rewrite (delete_user_known _ _ _ Hget). cbn [snd].
      unfold get_user_by_id. cbn [users].
      destruct (Z.eq_dec user_id k) as [->|Hne]; [apply get_remove_eq|].
      rewrite get_remove_ne by exact Hne. exact Hnone.
    + now rewrite delete_user_unknown.
Qed.

Lemma calls_absent_stay cs self k :
  get_user_by_id self k = None -> k < next_id self ->
  get_user_by_id (calls cs self) k = None.
Proof.
  revert self. induction cs as [|c cs IH]; intros self Hnone Hlt; cbn [calls];
    [exact Hnone|].
  apply IH; [now apply call_absent_stays|].
  pose proof (call_next_id c self). lia.
Qed.

Lemma call_keeps_identity c self k u u' :
  keys_below_next_id self ->
  get_user_by_id self k = Some u ->
  get_user_by_id (call c self) k = Some u' ->
  id u' = id u /\ created_at u' = created_at u.
Proof.
  intros Hb Hget. destruct c as [data now|user_id data now|user_id]; cbn [call].
  - destruct (create_user data now self) as [[v|e] s'] eqn:E.
    + apply create_user_Ok in E as (d & _ & _ & ->). cbn [snd].
      unfold get_user_by_id. cbn [users].
      assert (Hne : next_id self <> k).
      { intros <-. rewrite (below_is_absent self (next_id self) Hb) in Hget by lia.
        discriminate. }
      rewrite get_set_ne by exact Hne. unfold get_user_by_id in Hget.
      rewrite Hget. now intros [= <-].
    + apply create_user_Raise in E. subst. cbn [snd]. rewrite Hget. now intros [= <-].
  - destruct (get_user_by_id self user_id) as [u0|] eqn:Hget0.
    + destruct (update_user_keeps self user_id data now u0 Hget0) as (u1 & -> & I & C).
      unfold get_user_by_id. cbn [with_user users].
      destruct (Z.eq_dec user_id k) as [->|Hne].
      * rewrite get_set_eq. intros [= <-]. rewrite Hget in Hget0.
        injection Hget0 as <-. now split.
      * rewrite get_set_ne by exact Hne. unfold get_user_by_id in Hget.
        rewrite Hget. now intros [= <-].
    + rewrite update_user_unknown by exact Hget0. cbn [snd]. rewrite Hget.
      now intros [= <-].
  - destruct (get_user_by_id self user_id) as [u0|] eqn:Hget0.
    + rewrite (delete_user_known _ _ _ Hget0). cbn [snd].
      unfold get_user_by_id. cbn [users].
      destruct (Z.eq_dec user_id k) as [->|Hne]; [now rewrite get_remove_eq|].
      rewrite get_remove_ne by exact Hne. unfold get_user_by_id in Hget.
      rewrite Hget. now intros [= <-].
    + rewrite delete_user_unknown by exact Hget0. cbn [snd]. rewrite Hget.
      now intros [= <-].
Qed.

Lemma calls_keep_identity cs self k u u' :
  keys_below_next_id self ->
  get_user_by_id self k = Some u ->
  get_user_by_id (calls cs self) k = Some u' ->
  id u' = id u /\ created_at u' = created_at u.
Proof.
  revert self u. induction cs as [|c cs IH]; intros self u Hb Hget; cbn [calls].
  - rewrite Hget. now intros [= <-].
  - intros Hend.
    destruct (get_user_by_id (call c self) k) as [u1|] eqn:H1.
    + destruct (call_keeps_identity c self k u u1 Hb Hget H1) as [I C].
      destruct (IH (call c self) u1 (call_keys_below c self Hb) H1 Hend) as [I' C'].
      split; congruence.
    + exfalso.
      assert (Hlt : k < next_id (call c self)).
      { pose proof (call_next_id c self).
        apply get_Some_keys in Hget. apply Hb in Hget. lia. }
      rewrite (calls_absent_stay cs _ k H1 Hlt) in Hend. discriminate.
Qed.

(** X5.  A user that was deleted never comes back: after a DELETE
    answered 200, whatever requests follow, the identifier stays absent
    and a GET by it is answered 404. *)
Theorem deleted_user_never_returns
    (rs later : list http_request) (user_id : Z) (resp : response) :
  fst (Views.delete_user user_id (serve rs init)) = Ok resp ->
  status_code resp = 200 ->
  get_user_by_id (serve later (snd (Views.delete_user user_id (serve rs init)))) user_id
  = None
  /\ fst (Views.get_user user_id
            (serve later (snd (Views.delete_user user_id (serve rs init)))))
     = Ok (create_response None (Views.not_found_message user_id) 404 None).
Proof.
  intros Hdel Hst.
  pose proof (serve_keys_below rs init init_keys_below) as Hb.
  set (self := serve rs init) in *.
  destruct (get_user_by_id self user_id) as [u|] eqn:Hget.
  2:{ rewrite (delete_view_unknown _ _ Hget) in Hdel. cbn [fst] in Hdel.
      injection Hdel as <-. discriminate Hst. }
  rewrite (delete_view_known _ _ _ Hget). cbn [snd].
  set (self' := mkUserManager (PyDict.remove (users self) user_id) (next_id self)).
  assert (Hgone : get_user_by_id (serve later self') user_id = None).
  { destruct (serve_is_calls later self') as [cs ->].
    apply calls_absent_stay.
    - apply get_remove_eq.
    - cbn [self' next_id]. apply get_Some_keys in Hget. now apply Hb. }
  split; [exact Hgone|].
  now rewrite (get_view_unknown _ _ Hgone).
Qed.

Lemma deleted_user_never_returns_witness :
  get_user_by_id
    (serve [POST_users (json (VDict [("name", VStr "Jane Smith");
                                     ("email", VStr "jane.smith@example.com");
                                     ("age", VInt 28); ("position", VStr "Product Manager")]))
              "2025-10-01 08:00:00"]
       (snd (Views.delete_user 2 (serve [] init)))) 2
  = None.
Proof.
  apply (deleted_user_never_returns []
           [POST_users (json (VDict [("name", VStr "Jane Smith");
                                     ("email", VStr "jane.smith@example.com");
                                     ("age", VInt 28); ("position", VStr "Product Manager")]))
              "2025-10-01 08:00:00"]
           2 _ eq_refl eq_refl).
Defined.

(** X6.  The [id] and the [created_at] of a stored record never change:
    along any sequence of calls of [create_user], [update_user] and
    [delete_user] from the seeded store, with any payloads, a record
    found under a key later has the [id] and [created_at] it had
    before.  The same holds along any sequence of requests. *)
Theorem id_and_created_at_never_change
    (cs later : list store_call) (rs rs' : list http_request)
    (k : Z) (u u' : user) :
  (get_user_by_id (calls cs init) k = Some u ->
   get_user_by_id (calls later (calls cs init)) k = Some u' ->
   id u' = id u /\ created_at u' = created_at u)
  /\ (get_user_by_id (serve rs init) k = Some u ->
      get_user_by_id (serve rs' (serve rs init)) k = Some u' ->
      id u' = id u /\ created_at u' = created_at u).
Proof.
  split.
  - apply calls_keep_identity. apply calls_keys_below, init_keys_below.
  - destruct (serve_is_calls rs' (serve rs init)) as [cs' ->].
    apply calls_keep_identity. apply serve_keys_below, init_keys_below.
Qed.

Lemma id_and_created_at_never_change_witness :
  id (mkUser 1 (VStr "J. Doe") (VStr "john.doe@example.com") (VInt 31)
        (VStr "Software Developer") seed_time "2025-10-01 08:00:00") = 1
  /\ created_at (mkUser 1 (VStr "J. Doe") (VStr "john.doe@example.com") (VInt 31)
                   (VStr "Software Developer") seed_time "2025-10-01 08:00:00")
     = seed_time.
Proof.
  destruct (id_and_created_at_never_change []
              [Update 1 (VDict [("name", VStr "J. Doe"); ("age", VInt 31)])
                 "2025-10-01 08:00:00"; Delete 3]
              [] [] 1
              (mkUser 1 (VStr "John Doe") (VStr "john.doe@example.com") (VInt 30)
                 (VStr "Software Developer") seed_time seed_time)
              (mkUser 1 (VStr "J. Doe") (VStr "john.doe@example.com") (VInt 31)
                 (VStr "Software Developer") seed_time "2025-10-01 08:00:00"))
    as (H & _).
  apply H; reflexivity.
Defined.

(* ===================================================================== *)
(** ** The listing *)
(* ===================================================================== *)

Lemma StronglySorted_snoc (l : list Z) (x : Z) :
  StronglySorted Z.lt l -> (forall y, In y l -> y < x) ->
  StronglySorted Z.lt (l ++ [x]).
Proof.
  induction l as [|a l IH]; cbn; intros Hs Hlt.
  - constructor; constructor.
  - inversion Hs as [|? ? Hs' Hall]; subst. constructor.
    + apply IH; [exact Hs' | intros; apply Hlt; now right].
    + apply Forall_app. split; [exact Hall|].
      constructor; [apply Hlt; now left | constructor].
Qed.

Lemma StronglySorted_filter (f : Z -> bool) (l : list Z) :
  StronglySorted Z.lt l -> StronglySorted Z.lt (filter f l).
Proof.
  induction l as [|a l IH]; cbn; intros Hs; [constructor|].
  inversion Hs as [|? ? Hs' Hall]; subst.
  destruct (f a); [|now apply IH].
  constructor; [now apply IH|].
  rewrite Forall_forall in *. intros y Hy. apply filter_In in Hy as [Hy _]. now apply Hall.
Qed.

Lemma keys_remove_filter {V : Type} (d : list (Z * V)) k :
  PyDict.keys (PyDict.remove d k) = filter (fun k' => negb (k' =? k)) (PyDict.keys d).
Proof.
  unfold PyDict.keys, PyDict.remove.
  induction d as [|[k1 v1] d IH]; cbn [filter map fst]; [reflexivity|].
  destruct (k1 =? k); cbn [negb map fst]; [exact IH | now rewrite IH].
Qed.

Lemma keys_set_fresh {V : Type} (d : list (Z * V)) k v :
  PyDict.get d k = None -> PyDict.keys (PyDict.set d k v) = PyDict.keys d ++ [k].
Proof.
  intros H. rewrite (set_fresh _ _ _ H). unfold PyDict.keys. now rewrite map_app.
Qed.

Lemma call_ascending c self :
  keys_below_next_id self -> ascending self -> ascending (call c self).
Proof.
  unfold ascending. intros Hb Hs.
  destruct c as [data now|user_id data now|user_id]; cbn [call].
  - destruct (create_user data now self) as [[u|e] s'] eqn:E.
    + apply create_user_Ok in E as (d & _ & _ & ->). cbn [snd users].
      rewrite keys_set_fresh by (apply (below_is_absent self); [exact Hb | lia]).
      apply StronglySorted_snoc; [exact Hs | exact Hb].
    + apply create_user_Raise in E. now subst.
  - destruct (get_user_by_id self user_id) as [u|] eqn:Hget.
    + destruct (update_user_state self user_id data now u Hget) as [u' ->].
      cbn [with_user users]. now rewrite (keys_set_known _ _ _ _ Hget).
    + now rewrite update_user_unknown.
  - destruct (get_user_by_id self user_id) as [u|] eqn:Hget.
    + rewrite (delete_user_known _ _ _ Hget). cbn [snd users].
      rewrite keys_remove_filter. now apply StronglySorted_filter.
    + now rewrite delete_user_unknown.
Qed.

Lemma calls_ascending cs self :
  keys_below_next_id self -> ascending self -> ascending (calls cs self).
Proof.
  revert self. induction cs as [|c cs IH]; intros self Hb Hs; cbn [calls]; [exact Hs|].
  apply IH; [now apply call_keys_below | now apply call_ascending].
Qed.

Lemma init_ascending : ascending init.
Proof.
  unfold ascending. cbn.
  repeat (constructor; [|repeat (constructor; [lia|]); constructor]). constructor.
Qed.

Lemma ids_of_values (d : list (Z * user)) :
  (forall k u, In (k, u) d -> id u = k) ->
  map id (PyDict.values d) = PyDict.keys d.
Proof.
  induction d as [|[k u] d IH]; cbn; intros H; [reflexivity|].
  rewrite (H k u (or_introl eq_refl)). f_equal. apply IH. intros; apply H; now right.
Qed.

Lemma In_get {V : Type} (d : list (Z * V)) k v :
  NoDup (PyDict.keys d) -> In (k, v) d -> PyDict.get d k = Some v.
Proof.
  induction d as [|[k1 v1] d IH]; cbn [PyDict.get PyDict.keys map fst In]; intros Hnd;
    [intros []|].
  inversion Hnd as [|? ? Hnotin Hnd']; subst.
  intros [[= -> ->]|Hin]; [now rewrite Z.eqb_refl|].
  destruct (k1 =? k) eqn:E; [|now apply IH].
  apply Z.eqb_eq in E. subst k1. exfalso. apply Hnotin.
  change (In k (map fst d)). apply in_map_iff. now exists (k, v).
Qed.

(** X7.  After any sequence of requests, GET /users lists the records in
    strictly increasing order of [id], every listed [id] is below the
    counter, and the listing agrees with lookup: a record is listed
    exactly when a get by its own [id] returns it, and a get by [k]
    only ever returns a record whose [id] is [k]. *)
Theorem listing_is_ordered_and_agrees_with_get
    (rs : list http_request) (k : Z) (u : user) :
  StronglySorted Z.lt (map id (get_all_users (serve rs init)))
  /\ Forall (fun v => id v < next_id (serve rs init)) (get_all_users (serve rs init))
  /\ (In u (get_all_users (serve rs init))
      <-> get_user_by_id (serve rs init) (id u) = Some u)
  /\ (get_user_by_id (serve rs init) k = Some u -> id u = k).
Proof.
  pose proof (serve_consistent rs init init_consistent) as Hc.
  assert (Hs : ascending (serve rs init)).
  { destruct (serve_is_calls rs init) as [cs ->].
    apply calls_ascending; [apply init_keys_below | apply init_ascending]. }
  set (self := serve rs init) in *.
  split; [|split; [|split]].
  - unfold get_all_users. rewrite ids_of_values; [exact Hs | apply (ids_are_keys _ Hc)].
  - apply Forall_forall. intros v Hin. apply In_values in Hin as [kv Hin].
    rewrite (ids_are_keys _ Hc _ _ Hin).
    apply (keys_fresh _ Hc). change (In kv (map fst (users self))).
    apply in_map_iff. now exists (kv, v).
  - split.
    + intros Hin. apply In_values in Hin as [kv Hin].
      rewrite (ids_are_keys _ Hc _ _ Hin).
      apply In_get; [apply (keys_unique _ Hc) | exact Hin].
    + intros Hget. apply In_values. exists (id u). now apply get_Some_In.
  - intros Hget. apply (ids_are_keys _ Hc). now apply get_Some_In.
Qed.

Lemma listing_is_ordered_and_agrees_with_get_witness :
  id (mkUser 3 (VStr "Mike Johnson") (VStr "mike.johnson@example.com") (VInt 35)
        (VStr "DevOps Engineer") seed_time seed_time) = 3.
Proof.
  destruct (listing_is_ordered_and_agrees_with_get [DELETE_user 2] 3
              (mkUser 3 (VStr "Mike Johnson") (VStr "mike.johnson@example.com") (VInt 35)
                 (VStr "DevOps Engineer") seed_time seed_time)) as (_ & _ & _ & H).
  apply H. reflexivity.
Defined.

Lemma same_key_same_record self k u1 u2 :
  consistent self -> In (k, u1) (users self) -> In (k, u2) (users self) -> u1 = u2.
Proof.
  intros Hc H1 H2.
  apply (In_get _ _ _ (keys_unique _ Hc)) in H1.
  apply (In_get _ _ _ (keys_unique _ Hc)) in H2. congruence.
Qed.

(** X8.  After any sequence of requests, no two stored records have
    emails that are equal up to letter case: two listed records whose
    emails agree once lowered are one and the same record.  When the
    store holds more than one record, every stored email is a string. *)
Theorem stored_emails_stay_unique
    (rs : list http_request) (u1 u2 : user) (s1 s2 : string) :
  In u1 (get_all_users (serve rs init)) ->
  In u2 (get_all_users (serve rs init)) ->
  (email u1 = VStr s1 -> email u2 = VStr s2 ->
   PyStr.lower s1 = PyStr.lower s2 -> u1 = u2)
  /\ (u1 <> u2 -> exists t1 t2, email u1 = VStr t1 /\ email u2 = VStr t2).
Proof.
  intros H1 H2.
  pose proof (serve_consistent rs init init_consistent) as Hc.
  apply In_values in H1 as [k1 H1]. apply In_values in H2 as [k2 H2].
  split.
  - intros E1 E2 Hl.
    destruct (Z.eq_dec k1 k2) as [->|Hne];
      [now apply (same_key_same_record _ _ _ _ Hc H1 H2)|].
    exfalso. now apply (emails_unique _ Hc k1 u1 k2 u2 s1 s2).
  - intros Hne.
    assert (Hk : k1 <> k2).
    { intros ->. apply Hne. now apply (same_key_same_record _ _ _ _ Hc H1 H2). }
    destruct (reached_emails_are_strings _ k1 u1 k2 u2 Hc H1 H2 Hk u1) as [t1 E1];
      [apply In_values; eauto|].
    destruct (reached_emails_are_strings _ k1 u1 k2 u2 Hc H1 H2 Hk u2) as [t2 E2];
      [apply In_values; eauto|].
    eauto.
Qed.

Lemma stored_emails_stay_unique_witness :
  exists t1 t2,
    VStr "john.doe@example.com" = VStr t1 /\ VStr "mike.johnson@example.com" = VStr t2.
Proof.
  destruct (stored_emails_stay_unique [DELETE_user 2]
              (mkUser 1 (VStr "John Doe") (VStr "john.doe@example.com") (VInt 30)
                 (VStr "Software Developer") seed_time seed_time)
              (mkUser 3 (VStr "Mike Johnson") (VStr "mike.johnson@example.com") (VInt 35)
                 (VStr "DevOps Engineer") seed_time seed_time)
              "john.doe@example.com" "mike.johnson@example.com") as (_ & H).
  - cbn. auto.
  - cbn. auto.
  - apply H. discriminate.
Defined.

Lemma len_users self : len (get_all_users self) = Z.of_nat (List.length (users self)).
Proof. unfold len, get_all_users, PyDict.values. now rewrite length_map. Qed.

Lemma length_set_fresh {V : Type} (d : list (Z * V)) k v :
  PyDict.get d k = None -> List.length (PyDict.set d k v) = S (List.length d).
Proof.
  intros H. rewrite (set_fresh _ _ _ H), length_app. cbn. lia.
Qed.

Lemma length_remove_known {V : Type} (d : list (Z * V)) k v :
  NoDup (PyDict.keys d) -> PyDict.get d k = Some v ->
  S (List.length (PyDict.remove d k)) = List.length d.
Proof.
  induction d as [|[k1 v1] d IH]; cbn [PyDict.get PyDict.keys map fst]; intros Hnd;
    [discriminate|].
  inversion Hnd as [|? ? Hnotin Hnd']; subst.
  unfold PyDict.remove. cbn [filter fst].
  destruct (k1 =? k) eqn:E; cbn [negb List.length].
  - intros _. apply Z.eqb_eq in E. subst k1. f_equal.
    change (filter _ d) with (PyDict.remove d k).
    rewrite remove_absent; [reflexivity|]. now apply get_None_keys.
  - intros H. f_equal. now apply IH.
Qed.

(** X9.  After any sequence of requests, a POST answered 201 adds exactly
    one user, a DELETE answered 200 removes exactly one, and every other
    answer (of any view) leaves the number of users as it was; GET /users
    reports that number as [total_count]. *)
Theorem user_count_follows_answers
    (rs : list http_request) (r : http_request) (resp : response) :
  fst (dispatch r (serve rs init)) = Ok resp ->
  len (get_all_users (snd (dispatch r (serve rs init))))
  = len (get_all_users (serve rs init)) + count_change r resp
  /\ resp_data_of (Views.get_users (serve rs init))
     = Some (UsersData (get_all_users (serve rs init))
               (len (get_all_users (serve rs init)))).
Proof.
  pose proof (serve_consistent rs init init_consistent) as Hc.
  set (self := serve rs init) in *. intros H.
  split; [|reflexivity]. revert H. rewrite !len_users.
  destruct r as [| |user_id|rq now|user_id rq now|user_id|q]; cbn [dispatch count_change].
  - intros _. unfold Views.home, ret. cbn [snd]. lia.
  - intros _. unfold Views.get_users, bind, read, ret. cbn [snd]. lia.
  - unfold Views.get_user, bind, read.
    destruct (get_user_by_id self user_id); intros _; cbn [snd ret]; lia.
  - rewrite create_view_eq.
    destruct (negb (is_json rq)); [intros [= <-]; cbn [snd count_change status_code create_response Z.eqb Pos.eqb]; lia|].
    destruct (get_json rq) as [data|x]; [|intros [= <-]; cbn; lia].
    destruct (validate_user_data data false) as [[|m ms]|x] eqn:Hv;
      [|intros [= <-]; cbn; lia|intros [= <-]; cbn; lia].
    destruct (Views.email_exists (get_all_users self) data) as [[|]|x];
      [intros [= <-]; cbn; lia| |intros [= <-]; cbn; lia].
    destruct (validated_create_is_dict _ Hv) as [d ->].
    rewrite create_user_dict. intros [= <-]. cbn [snd users create_response status_code].
    rewrite length_set_fresh
      by (apply (below_is_absent self); [apply (keys_fresh _ Hc) | lia]).
    cbn. lia.
  - rewrite update_view_eq.
    destruct (get_user_by_id self user_id) as [u0|] eqn:Hget; [|intros _; cbn [snd]; lia].
    destruct (negb (is_json rq)); [intros _; cbn [snd]; lia|].
    destruct (get_json rq) as [data|x]; [|intros _; cbn [snd]; lia].
    destruct (validate_user_data data true) as [[|m ms]|x] eqn:Hv;
      [|intros _; cbn [snd]; lia|intros _; cbn [snd]; lia].
    destruct (_ <- Py.contains "email" data ;; _)%result as [[|]|x];
      [intros _; cbn [snd]; lia| |intros _; cbn [snd]; lia].
    destruct (validated_update_returns self user_id data now u0 [] Hv Hget) as [u' ->].
    intros _. cbn [snd with_user users].
    rewrite (length_set_known _ _ _ _ Hget). lia.
  - destruct (get_user_by_id self user_id) as [u|] eqn:Hget.
    + rewrite (delete_view_known _ _ _ Hget). intros [= <-].
      cbn [snd users create_response status_code].
      pose proof (length_remove_known _ _ _ (keys_unique _ Hc) Hget). cbn. lia.
    + rewrite (delete_view_unknown _ _ Hget). intros [= <-]. cbn. lia.
  - unfold Views.search_users.
    destruct (PyStr.is_empty _); [intros _; cbn [snd ret]; lia|].
    unfold bind, read, lift.
    destruct (Views.search_loop _ _ _); intros _; cbn [snd ret]; lia.
Qed.

Lemma user_count_follows_answers_witness :
  len (get_all_users (snd (dispatch (DELETE_user 3) (serve [DELETE_user 1] init))))
  = len (get_all_users (serve [DELETE_user 1] init))
    + count_change (DELETE_user 3)
        (create_response
           (Some (DeletedUserData (Some
              (mkUser 3 (VStr "Mike Johnson") (VStr "mike.johnson@example.com") (VInt 35)
                 (VStr "DevOps Engineer") seed_time seed_time))))
           "User deleted successfully" 200 None).
Proof.
  apply (user_count_follows_answers [DELETE_user 1] (DELETE_user 3) _ eq_refl).
Defined.

(* ===================================================================== *)
(** ** More on validation *)
(* ===================================================================== *)

(** X10.  Create-mode validation is update-mode validation preceded by
    the required-field messages: its result is the list of the missing
    required fields followed by what update mode reports.  So a payload
    that is accepted for creation is accepted for update, and one that
    update mode rejects is rejected for creation. *)
Theorem create_mode_extends_update_mode (data : value) (errors : list string) :
  validate_user_data data false
  = (r <- required_errors data ;;
     u <- validate_user_data data true ;;
     Ok (r ++ u))%result
  /\ (validate_user_data data false = Ok [] -> validate_user_data data true = Ok [])
  /\ (validate_user_data data true = Ok errors -> errors <> [] ->
      validate_user_data data false <> Ok []).
Proof.
  assert (E : validate_user_data data false
              = (r <- required_errors data ;;
                 u <- validate_user_data data true ;;
                 Ok (r ++ u))%result).
  { rewrite !validate_user_data_concat.
    destruct (required_errors data) as [r|x]; cbn [rbind]; [|reflexivity].
    destruct (email_errors data) as [e|x]; cbn [rbind]; [|reflexivity].
    destruct (age_errors data) as [a|x]; cbn [rbind]; [|reflexivity].
    destruct (name_errors data) as [n|x]; cbn [rbind]; [|reflexivity].
    destruct (position_errors data) as [p|x]; cbn [rbind]; reflexivity. }
  split; [exact E|]. rewrite E. split.
  - destruct (required_errors data) as [r|x]; cbn [rbind]; [|discriminate].
    destruct (validate_user_data data true) as [u|x]; cbn [rbind]; [|discriminate].
    intros [= H]. apply app_eq_nil in H as [_ ->]. reflexivity.
  - intros -> Hne.
    destruct (required_errors data) as [r|x]; cbn [rbind]; [|discriminate].
    intros [= H]. apply app_eq_nil in H as [_ H]. contradiction.
Qed.

Lemma create_mode_extends_update_mode_witness :
  validate_user_data (VDict [("name", VStr "J")]) false <> Ok [].
Proof.
  destruct (create_mode_extends_update_mode (VDict [("name", VStr "J")])
              ["Name must be at least 2 characters long"]) as (_ & _ & H).
  apply H; [reflexivity | discriminate].
Defined.

Lemma email_errors_shape d e :
  email_errors (VDict d) = Ok e ->
  e = [] \/ (e = ["Invalid email format"] /\ is_missing d "email" = false).
Proof.
  unfold email_errors, validate_email, is_missing. rewrite provided_dict. unfold given.
  destruct (Py.assoc "email" d) as [v|]; cbn [rbind]; [|intros [= <-]; now left].
  destruct (Py.truthy v); cbn [rbind negb]; [|intros [= <-]; now left].
  destruct (Py.re_match_email v) as [[|]|x]; cbn [rbind negb app];
    intros [= <-]; auto.
Qed.

Lemma age_errors_shape d a :
  age_errors (VDict d) = Ok a ->
  a = []
  \/ ((a = ["Age must be between 0 and 150"] \/ a = ["Age must be a valid number"])
      /\ is_missing d "age" = false).
Proof.
  unfold age_errors, validate_age, is_missing. rewrite provided_dict. unfold given.
  destruct (Py.assoc "age" d) as [v|]; cbn [rbind]; [|intros [= <-]; now left].
  destruct (Py.truthy v); cbn [rbind negb]; [|intros [= <-]; now left].
  destruct (Py.int v) as [n|[]]; cbn [app]; try discriminate.
  - destruct ((n <? 0) || (n >? 150)); intros [= <-]; auto.
  - intros [= <-]; auto.
  - intros [= <-]; auto.
Qed.

Lemma length_errors_shape d field message l :
  validate_length (VDict d) field message [] = Ok l ->
  l = [] \/ (l = [message] /\ is_missing d field = false).
Proof.
  unfold validate_length, is_missing. rewrite provided_dict. unfold given.
  destruct (Py.assoc field d) as [v|]; cbn [rbind]; [|intros [= <-]; now left].
  destruct (Py.truthy v); cbn [rbind negb]; [|intros [= <-]; now left].
  destruct (Py.strip v) as [s|x]; cbn [rbind app]; [|discriminate].
  destruct (PyStr.len s <? 2); intros [= <-]; auto.
Qed.

Lemma nodup_length {A : Type} (dec : forall x y : A, {x = y} + {x <> y}) (l : list A) :
  List.length (nodup dec l) = List.length l -> NoDup l.
Proof.
  induction l as [|a l IH]; cbn [nodup]; [constructor|].
  assert (Hl : (List.length (nodup dec l) <= List.length l)%nat).
  { apply NoDup_incl_length; [apply NoDup_nodup|].
    intros x Hx. now apply nodup_In in Hx. }
  destruct (in_dec dec a l) as [Hin|Hin]; cbn [List.length].
  - intros H. lia.
  - intros [= H]. constructor; [exact Hin | now apply IH].
Qed.

Lemma filter_two {A : Type} (p : A -> bool) (l : list A) (a b : A) :
  In a l -> In b l -> a <> b -> p a = true -> p b = true ->
  (2 <= List.length (filter p l))%nat.
Proof.
  intros Ha Hb Hne Pa Pb.
  assert (Na : In a (filter p l)) by (apply filter_In; auto).
  assert (Nb : In b (filter p l)) by (apply filter_In; auto).
  destruct (filter p l) as [|x [|y r]]; cbn [List.length]; [destruct Na| |lia].
  destruct Na as [<-|[]], Nb as [<-|[]]. contradiction.
Qed.

Lemma one_per_field_sound errors :
  one_per_field errors = true ->
  NoDup errors
  /\ (List.length errors <= 4)%nat
  /\ (forall field, In field required_fields ->
        (List.length (filter (about field) errors) <= 1)%nat)
  /\ (forall message, In message errors ->
        exists field, In field required_fields /\ about field message = true).
Proof.
  unfold one_per_field. rewrite !andb_true_iff.
  intros [[[H1 H2] H3] H4].
  split; [apply (nodup_length string_dec); now apply Nat.eqb_eq|].
  split; [now apply Nat.leb_le|].
  split.
  - intros field Hin. rewrite forallb_forall in H3. apply Nat.leb_le. now apply H3.
  - intros message Hin. rewrite forallb_forall in H4.
    apply H4 in Hin. apply existsb_exists in Hin. exact Hin.
Qed.

(** Two different messages about one field are never both reported. *)
Lemma one_per_field_excludes errors field a b :
  (forall f, In f required_fields ->
     (List.length (filter (about f) errors) <= 1)%nat) ->
  In field required_fields ->
  about field a = true -> about field b = true -> a <> b ->
  In a errors -> ~ In b errors.
Proof.
  intros H Hf Pa Pb Hne Ha Hb.
  pose proof (filter_two (about field) errors a b Ha Hb Hne Pa Pb).
  specialize (H field Hf). lia.
Qed.

Lemma validated_one_per_field d is_update errors :
  validate_user_data (VDict d) is_update = Ok errors -> one_per_field errors = true.
Proof.
  intros Hv.
  destruct (validate_parts _ _ _ Hv) as (r & e & a & n & p & Hr & He & Ha & Hn & Hp & ->).
  apply email_errors_shape in He. apply age_errors_shape in Ha.
  apply length_errors_shape in Hn. apply length_errors_shape in Hp.
  assert (R : r = if is_update then []
                  else map required_message (filter (is_missing d) required_fields)).
  { destruct is_update; [now injection Hr as <-|].
    rewrite required_errors_dict in Hr. now injection Hr as <-. }
  subst r. clear Hr Hv. unfold required_fields. cbn [filter].
  destruct is_update.
  - destruct He as [->|[-> _]], Ha as [->|[[->| ->] _]],
             Hn as [->|[-> _]], Hp as [->|[-> _]]; vm_compute; reflexivity.
  - destruct (is_missing d "name"), (is_missing d "email"),
             (is_missing d "age"), (is_missing d "position");
    destruct He as [->|[-> He]], Ha as [->|[[->| ->] Ha]],
             Hn as [->|[-> Hn]], Hp as [->|[-> Hp]];
    try discriminate; vm_compute; reflexivity.
Qed.

(** X11.  On a dict payload the validator reports at most one message
    per field, in either mode: of the messages about a field (that it is
    required, and those of its own rule) the list holds at most one, so
    a field reported as required is never also reported by its own rule
    and the two age messages never come together; every message is
    about one of the four fields, no message occurs twice, and the list
    has at most four messages. *)
Theorem one_message_per_field
    (d : list (string * value)) (is_update : bool) (errors : list string) :
  validate_user_data (VDict d) is_update = Ok errors ->
  NoDup errors
  /\ (List.length errors <= 4)%nat
  /\ (forall field, In field required_fields ->
        (List.length (filter (about field) errors) <= 1)%nat)
  /\ (forall message, In message errors ->
        exists field, In field required_fields /\ about field message = true)
  /\ (In "Field 'email' is required" errors -> ~ In "Invalid email format" errors)
  /\ (In "Field 'age' is required" errors ->
      ~ In "Age must be between 0 and 150" errors)
  /\ (In "Field 'age' is required" errors ->
      ~ In "Age must be a valid number" errors)
  /\ (In "Age must be between 0 and 150" errors ->
      ~ In "Age must be a valid number" errors)
  /\ (In "Field 'name' is required" errors ->
      ~ In "Name must be at least 2 characters long" errors)
  /\ (In "Field 'position' is required" errors ->
      ~ In "Position must be at least 2 characters long" errors).
Proof.
  intros Hv. apply validated_one_per_field in Hv.
  apply one_per_field_sound in Hv as (H1 & H2 & H3 & H4).
  split; [exact H1|]. split; [exact H2|]. split; [exact H3|]. split; [exact H4|].
  repeat split.
  - apply (one_per_field_excludes errors "email"); cbn; auto; discriminate.
  - apply (one_per_field_excludes errors "age"); cbn; auto; discriminate.
  - apply (one_per_field_excludes errors "age"); cbn; auto; discriminate.
  - apply (one_per_field_excludes errors "age"); cbn; auto; discriminate.
  - apply (one_per_field_excludes errors "name"); cbn; auto; discriminate.
  - apply (one_per_field_excludes errors "position"); cbn; auto 6; discriminate.
Qed.

Lemma one_message_per_field_witness :
  NoDup invalid_payload_errors
  /\ (List.length invalid_payload_errors <= 4)%nat
  /\ (List.length (filter (about "age") invalid_payload_errors) <= 1)%nat.
Proof.
  destruct (one_message_per_field
              [("name", VStr ""); ("email", VStr "bad"); ("age", VInt (-5));
               ("position", VStr "")] false invalid_payload_errors eq_refl)
    as (H1 & H2 & H3 & _).
  split; [exact H1|]. split; [exact H2|].
  apply H3. cbn. auto.
Defined.

(* ===================================================================== *)
(** ** What POST and PUT store *)
(* ===================================================================== *)

Lemma validated_length d field message v :
  validate_length (VDict d) field message [] = Ok [] ->
  Py.assoc field d = Some v -> Py.truthy v = true ->
  exists s, v = VStr s /\ 2 <= PyStr.len (PyStr.strip s).
Proof.
  unfold validate_length. rewrite provided_dict. unfold given.
  intros H Hv Ht. rewrite Hv, Ht in H. cbn [rbind] in H.
  destruct v; try discriminate H. cbn [Py.strip rbind app] in H.
  exists s. split; [reflexivity|].
  destruct (PyStr.len (PyStr.strip s) <? 2) eqn:E; [discriminate H|].
  apply Z.ltb_ge in E. exact E.
Qed.

Lemma validated_age d v :
  age_errors (VDict d) = Ok [] ->
  Py.assoc "age" d = Some v -> Py.truthy v = true ->
  exists n, Py.int v = Ok n /\ 0 <= n <= 150.
Proof.
  unfold age_errors, validate_age. rewrite provided_dict. unfold given.
  intros H Hv Ht. rewrite Hv, Ht in H. cbn [rbind] in H.
  destruct (Py.int v) as [n|[]]; try discriminate H.
  exists n. split; [reflexivity|].
  destruct ((n <? 0) || (n >? 150)) eqn:E; [discriminate H|].
  apply orb_false_iff in E as [E1 E2]. apply Z.ltb_ge in E1.
  rewrite Z.gtb_ltb in E2. apply Z.ltb_ge in E2. lia.
Qed.

(** X12.  A POST answered 201 stores the four values of the payload
    exactly as they came (nothing is trimmed, lowered or converted),
    under the identifier the counter held, with [created_at] and
    [updated_at] both the clock reading, and advances the counter by
    one: the record of the answer is the one the new store holds under
    that identifier, it is among the users the store lists, and every
    other identifier maps to what it mapped to before.
    The stored name and position are strings with at least two
    characters once stripped, the email is a string that matches the
    pattern, and [int] of the age is between 0 and 150 (the age itself
    being truthy). *)
Theorem created_record_is_the_payload
    (self self' : UserManager) (rq : request) (now : string) (resp : response) :
  Views.create_user rq now self = (Ok resp, self') ->
  status_code resp = 201 ->
  exists d u,
    get_json rq = Ok (VDict d)
    /\ resp_data resp = Some (UserData (Some u))
    /\ Py.assoc "name" d = Some (name u)
    /\ Py.assoc "email" d = Some (email u)
    /\ Py.assoc "age" d = Some (age u)
    /\ Py.assoc "position" d = Some (position u)
    /\ id u = next_id self
    /\ created_at u = now /\ updated_at u = now
    /\ next_id self' = next_id self + 1
    /\ users self' = PyDict.set (users self) (next_id self) u
    /\ get_user_by_id self' (next_id self) = Some u
    /\ In u (get_all_users self')
    /\ (forall k, k <> next_id self -> get_user_by_id self' k = get_user_by_id self k)
    /\ (exists s, name u = VStr s /\ 2 <= PyStr.len (PyStr.strip s))
    /\ (exists s, email u = VStr s /\ Re.match_anchored Re.email_pattern s = true)
    /\ (exists n, Py.int (age u) = Ok n /\ 0 <= n <= 150 /\ Py.truthy (age u) = true)
    /\ (exists s, position u = VStr s /\ 2 <= PyStr.len (PyStr.strip s)).
Proof.
  intros H Hst.
  destruct (create_view_201 _ _ _ _ _ H Hst) as (d & _ & Hd & Hv & _ & -> & ->).
  exists d, (new_record self d now).
  destruct (validate_create_given d "name") as (vn & Hn & Tn); [cbn; auto | exact Hv |].
  destruct (validate_create_given d "email") as (ve & He & Te); [cbn; auto | exact Hv |].
  destruct (validate_create_given d "age") as (va & Ha & Ta); [cbn; auto | exact Hv |].
  destruct (validate_create_given d "position") as (vp & Hp & Tp);
    [cbn; auto 6 | exact Hv |].
  destruct (validate_parts _ _ _ Hv) as (r & e & a & n & p & _ & _ & Ea & En & Ep & Hnil).
  symmetry in Hnil.
  apply app_eq_nil in Hnil as [_ Hnil]. apply app_eq_nil in Hnil as [_ Hnil].
  apply app_eq_nil in Hnil as [-> Hnil]. apply app_eq_nil in Hnil as [-> ->].
  destruct (validate_create_email d Hv) as (s & Hs & Hm).
  assert (Un : name (new_record self d now) = vn)
    by (unfold new_record; cbn [name]; now rewrite Hn).
  assert (Ue : email (new_record self d now) = ve)
    by (unfold new_record; cbn [email]; now rewrite He).
  assert (Ua : age (new_record self d now) = va)
    by (unfold new_record; cbn [age]; now rewrite Ha).
  assert (Up : position (new_record self d now) = vp)
    by (unfold new_record; cbn [position]; now rewrite Hp).
  rewrite Un, Ue, Ua, Up.
  split; [exact Hd|]. split; [reflexivity|].
  split; [exact Hn|]. split; [exact He|]. split; [exact Ha|]. split; [exact Hp|].
  repeat (split; [reflexivity|]).
  split; [unfold get_user_by_id; cbn [users]; apply get_set_eq|].
  split.
  { unfold get_all_users. cbn [users]. apply In_values. exists (next_id self).
    apply get_Some_In. apply get_set_eq. }
  split; [intros k Hk; unfold get_user_by_id; cbn [users]; now apply get_set_ne|].
  split; [now apply (validated_length d "name" _ vn En)|].
  split; [exists s; split; [congruence | exact Hm]|].
  split.
  - destruct (validated_age d va Ea Ha Ta) as (k & Hk & Hr). exists k. auto.
  - now apply (validated_length d "position" _ vp Ep).
Qed.

Lemma created_record_is_the_payload_witness :
  exists d u,
    Ok (VDict [("name", VStr "  Al  "); ("email", VStr "Al@Example.org");
               ("age", VStr "42"); ("position", VStr "QA")]) = Ok (VDict d)
    /\ Py.assoc "name" d = Some (name u)
    /\ Py.assoc "email" d = Some (email u)
    /\ Py.assoc "age" d = Some (age u)
    /\ name u = VStr "  Al  " /\ email u = VStr "Al@Example.org" /\ age u = VStr "42"
    /\ get_user_by_id
         (snd (Views.create_user
                 (json (VDict [("name", VStr "  Al  "); ("email", VStr "Al@Example.org");
                               ("age", VStr "42"); ("position", VStr "QA")]))
                 "2025-10-01 08:00:00" init)) 4 = Some u.
Proof.
  destruct (created_record_is_the_payload init _
              (json (VDict [("name", VStr "  Al  "); ("email", VStr "Al@Example.org");
                            ("age", VStr "42"); ("position", VStr "QA")]))
              "2025-10-01 08:00:00" _ eq_refl eq_refl)
    as (d & u & Hd & _ & Hn & He & Ha & _ & _ & _ & _ & _ & _ & Hg & _).
  exists d, u. injection Hd as <-.
  repeat split; try assumption.
  - cbn in Hn. congruence.
  - cbn in He. congruence.
  - cbn in Ha. congruence.
Defined.

(** X13.  Keys other than name, email, age and position play no part:
    two dict payloads that agree on these four get the same validation
    result in either mode, and POST and PUT answer them alike and leave
    the same store. *)
Theorem other_keys_are_ignored
    (d d' : list (string * value)) (is_update : bool)
    (self : UserManager) (user_id : Z) (now : string) :
  Py.assoc "name" d = Py.assoc "name" d' ->
  Py.assoc "email" d = Py.assoc "email" d' ->
  Py.assoc "age" d = Py.assoc "age" d' ->
  Py.assoc "position" d = Py.assoc "position" d' ->
  validate_user_data (VDict d) is_update = validate_user_data (VDict d') is_update
  /\ Views.create_user (json (VDict d)) now self
     = Views.create_user (json (VDict d')) now self
  /\ Views.update_user user_id (json (VDict d)) now self
     = Views.update_user user_id (json (VDict d')) now self.
Proof.
  intros Hn He Ha Hp.
  assert (V : forall m, validate_user_data (VDict d) m = validate_user_data (VDict d') m).
  { intros m. rewrite !validate_user_data_concat, !required_errors_dict.
    unfold email_errors, age_errors, name_errors, position_errors,
      validate_email, validate_age, validate_length.
    rewrite !provided_dict. unfold given, required_fields. cbn [filter].
    unfold is_missing. now rewrite Hn, He, Ha, Hp. }
  assert (L : forall l, Views.email_exists l (VDict d) = Views.email_exists l (VDict d')).
  { induction l as [|u l IH]; cbn [Views.email_exists Py.getitem]; [reflexivity|].
    now rewrite He, IH. }
  assert (L' : forall l, Views.email_exists_elsewhere l user_id (VDict d)
                         = Views.email_exists_elsewhere l user_id (VDict d')).
  { induction l as [|u l IH]; cbn [Views.email_exists_elsewhere Py.getitem];
      [reflexivity|].
    now rewrite He, IH. }
  split; [apply V|]. split.
  - rewrite !create_view_eq. cbn [json is_json get_json negb].
    rewrite V, L, !create_user_dict. unfold new_record.
    now rewrite Hn, He, Ha, Hp.
  - rewrite !update_view_eq. cbn [json is_json get_json negb Py.contains rbind].
    rewrite V, L', He.
    destruct (get_user_by_id self user_id) as [u0|] eqn:Hget; [|reflexivity].
    rewrite !(update_user_dict _ _ _ now u0 Hget). unfold updated_record.
    now rewrite Hn, He, Ha, Hp.
Qed.

Lemma other_keys_are_ignored_witness :
  Views.update_user 1 (json (VDict [("role", VStr "admin"); ("age", VInt 31)]))
    "2025-10-01 08:00:00" init
  = Views.update_user 1 (json (VDict [("age", VInt 31)])) "2025-10-01 08:00:00" init.
Proof.
  destruct (other_keys_are_ignored [("role", VStr "admin"); ("age", VInt 31)]
              [("age", VInt 31)] true init 1 "2025-10-01 08:00:00"
              eq_refl eq_refl eq_refl eq_refl) as (_ & _ & H).
  exact H.
Defined.

Lemma provided_absent data field :
  Py.contains field data = Ok false -> provided data field = Ok None.
Proof. unfold provided, rbind. now intros ->. Qed.

(** X14.  A PUT on a known record whose JSON body names none of the four
    fields (an empty object, an object with other keys only, an array,
    a string) is answered 200 and changes nothing but [updated_at]. *)
Theorem update_without_fields_only_stamps
    (self : UserManager) (user_id : Z) (u : user) (rq : request)
    (data : value) (now : string) :
  get_user_by_id self user_id = Some u ->
  is_json rq = true ->
  get_json rq = Ok data ->
  Py.contains "name" data = Ok false ->
  Py.contains "email" data = Ok false ->
  Py.contains "age" data = Ok false ->
  Py.contains "position" data = Ok false ->
  Views.update_user user_id rq now self
  = (Ok (create_response (Some (UserData (Some (set_updated_at now u))))
           "User updated successfully" 200 None),
     with_user self user_id (set_updated_at now u)).
Proof.
  intros Hget Hj Hd Hn He Ha Hp.
  assert (Hv : validate_user_data data true = Ok []).
  { unfold validate_user_data, validate_email, validate_age, validate_length.
    cbn [negb rbind]. rewrite !provided_absent by assumption. reflexivity. }
  rewrite update_view_eq, Hget, Hj, Hd, Hv, He. cbn [negb rbind].
  now rewrite (update_user_no_field _ _ _ now _ Hget Hn He Ha Hp).
Qed.

Lemma update_without_fields_only_stamps_witness :
  Views.update_user 2 (json (VList [VStr "x"; VInt 1])) "2025-10-01 08:00:00" init
  = (Ok (create_response
           (Some (UserData (Some
              (mkUser 2 (VStr "Jane Smith") (VStr "jane.smith@example.com") (VInt 28)
                 (VStr "Product Manager") seed_time "2025-10-01 08:00:00"))))
           "User updated successfully" 200 None),
     with_user init 2
       (mkUser 2 (VStr "Jane Smith") (VStr "jane.smith@example.com") (VInt 28)
          (VStr "Product Manager") seed_time "2025-10-01 08:00:00")).
Proof.
  apply (update_without_fields_only_stamps init 2
           (mkUser 2 (VStr "Jane Smith") (VStr "jane.smith@example.com") (VInt 28)
              (VStr "Product Manager") seed_time seed_time)
           (json (VList [VStr "x"; VInt 1])) (VList [VStr "x"; VInt 1])
           "2025-10-01 08:00:00"); reflexivity.
Defined.

(* ===================================================================== *)
(** ** Validation against its description *)
(* ===================================================================== *)

Lemma in_range_spec n : (n <? 0) || (n >? 150) = negb (in_range n).
Proof.
  unfold in_range. rewrite Z.gtb_ltb.
  destruct (Z.ltb_spec n 0), (Z.ltb_spec 150 n), (Z.leb_spec 0 n), (Z.leb_spec n 150);
    cbn; try reflexivity; lia.
Qed.

Lemma required_errors_messages d : required_errors (VDict d) = Ok (required_messages d).
Proof.
  rewrite required_errors_dict. unfold required_messages, required_fields.
  cbn [filter].
  destruct (is_missing d "name"), (is_missing d "email"), (is_missing d "age"),
    (is_missing d "position"); reflexivity.
Qed.

Lemma email_errors_dict d :
  email_errors (VDict d)
  = if is_string (given d "email") then Ok (email_messages d) else Raise TypeError.
Proof.
  unfold email_errors, validate_email, email_messages. rewrite provided_dict.
  cbn [rbind].
  destruct (given d "email") as [[| | | |s| |]|]; try reflexivity.
  cbn [Py.re_match_email rbind is_string].
  destruct (Re.match_anchored Re.email_pattern s); reflexivity.
Qed.

Lemma age_errors_dict d :
  age_errors (VDict d)
  = if converts (given d "age") then Ok (age_messages d) else Raise OverflowError.
Proof.
  unfold age_errors, validate_age, age_messages. rewrite provided_dict.
  cbn [rbind].
  destruct (given d "age") as [v|]; [|reflexivity].
  destruct v as [| | |[]| | |]; cbn [Py.int converts app]; try reflexivity;
    try (rewrite in_range_spec; destruct (in_range _); reflexivity).
  destruct (PyStr.to_int s) as [n|]; [|reflexivity].
  rewrite in_range_spec. destruct (in_range n); reflexivity.
Qed.

Lemma length_errors_dict d field message :
  validate_length (VDict d) field message []
  = if is_string (given d field) then Ok (length_messages d field message)
    else Raise AttributeError.
Proof.
  unfold validate_length, length_messages, too_short. rewrite provided_dict.
  cbn [rbind].
  destruct (given d field) as [[| | | |s| |]|]; reflexivity.
Qed.

(** On a dict, validation raises the exception of the first rule that
    cannot handle its field, and otherwise returns every triggered
    message. *)
Lemma validate_dict d is_update :
  validate_user_data (VDict d) is_update
  = match fault d with
    | Some e => Raise e
    | None => Ok (triggered d is_update)
    end.
Proof.
  rewrite validate_user_data_concat, required_errors_messages, email_errors_dict,
    age_errors_dict.
  unfold name_errors, position_errors. rewrite !length_errors_dict.
  unfold fault, triggered.
  destruct (is_string (given d "email")), (converts (given d "age")),
    (is_string (given d "name")), (is_string (given d "position")), is_update;
    reflexivity.
Qed.

Lemma fault_None d : fault d = None <-> no_fault d = true.
Proof.
  unfold fault, no_fault.
  destruct (is_string (given d "email")), (converts (given d "age")),
    (is_string (given d "name")), (is_string (given d "position"));
    cbn; split; intros H; try reflexivity; discriminate H.
Qed.

(** The answers of POST and PUT to a payload that fails validation,
    field by field. *)
Lemma create_view_rejects rq now self data errors :
  is_json rq = true ->
  get_json rq = Ok data ->
  validate_user_data data false = Ok errors ->
  errors <> [] ->
  exists r,
    Views.create_user rq now self = (Ok r, self)
    /\ status_code r = 400
    /\ resp_message r = Some "Validation failed"
    /\ resp_errors r = Some (Messages errors)
    /\ resp_data r = None.
Proof.
  intros Hj Hd Hv Hne. rewrite create_view_eq, Hj, Hd, Hv. cbn [negb].
  destruct errors as [|m ms]; [contradiction|].
  eexists. split; [reflexivity|]. repeat split.
Qed.

Lemma create_view_fault rq now self data e :
  is_json rq = true ->
  get_json rq = Ok data ->
  validate_user_data data false = Raise e ->
  exists r,
    Views.create_user rq now self = (Ok r, self)
    /\ status_code r = 500
    /\ resp_message r = Some "Error creating user"
    /\ resp_errors r = Some (ExceptionText e)
    /\ resp_data r = None.
Proof.
  intros Hj Hd Hv. rewrite create_view_eq, Hj, Hd, Hv. cbn [negb].
  eexists. split; [reflexivity|]. repeat split.
Qed.

Lemma update_view_rejects user_id rq now self u data errors :
  get_user_by_id self user_id = Some u ->
  is_json rq = true ->
  get_json rq = Ok data ->
  validate_user_data data true = Ok errors ->
  errors <> [] ->
  exists r,
    Views.update_user user_id rq now self = (Ok r, self)
    /\ status_code r = 400
    /\ resp_message r = Some "Validation failed"
    /\ resp_errors r = Some (Messages errors)
    /\ resp_data r = None.
Proof.
  intros Hu Hj Hd Hv Hne. rewrite update_view_eq, Hu, Hj, Hd, Hv. cbn [negb].
  destruct errors as [|m ms]; [contradiction|].
  eexists. split; [reflexivity|]. repeat split.
Qed.

Lemma update_view_fault user_id rq now self u data e :
  get_user_by_id self user_id = Some u ->
  is_json rq = true ->
  get_json rq = Ok data ->
  validate_user_data data true = Raise e ->
  exists r,
    Views.update_user user_id rq now self = (Ok r, self)
    /\ status_code r = 500
    /\ resp_message r = Some "Error updating user"
    /\ resp_errors r = Some (ExceptionText e)
    /\ resp_data r = None.
Proof.
  intros Hu Hj Hd Hv. rewrite update_view_eq, Hu, Hj, Hd, Hv. cbn [negb].
  eexists. split; [reflexivity|]. repeat split.
Qed.

Lemma not_missing_given d field :
  is_missing d field = false ->
  exists v, Py.assoc field d = Some v /\ Py.truthy v = true /\ given d field = Some v.
Proof.
  unfold is_missing, given. destruct (Py.assoc field d) as [v|]; [|discriminate].
  destruct (Py.truthy v) eqn:T; [|discriminate]. intros _. exists v. now rewrite T.
Qed.

Lemma fault_None_strings d :
  fault d = None ->
  is_string (given d "email") = true /\ converts (given d "age") = true
  /\ is_string (given d "name") = true /\ is_string (given d "position") = true.
Proof.
  unfold fault.
  destruct (is_string (given d "email")), (converts (given d "age")),
    (is_string (given d "name")), (is_string (given d "position"));
    cbn; intros H; try discriminate H; auto.
Qed.

(** An empty list in create mode: the four fields are there and each
    passes its rule. *)
Lemma triggered_nil_create d :
  fault d = None ->
  triggered d false = [] ->
  exists n e a k p,
    Py.assoc "name" d = Some (VStr n) /\ too_short n = false
    /\ Py.assoc "email" d = Some (VStr e)
    /\ Re.match_anchored Re.email_pattern e = true
    /\ Py.assoc "age" d = Some a /\ Py.truthy a = true
    /\ Py.int a = Ok k /\ 0 <= k <= 150
    /\ Py.assoc "position" d = Some (VStr p) /\ too_short p = false.
Proof.
  intros Hf Ht. apply fault_None_strings in Hf as (Se & _ & Sn & Sp).
  unfold triggered in Ht.
  apply app_eq_nil in Ht as [Hr Ht]. apply app_eq_nil in Ht as [He Ht].
  apply app_eq_nil in Ht as [Ha Ht]. apply app_eq_nil in Ht as [Hn Hp].
  unfold required_messages in Hr.
  destruct (is_missing d "name") eqn:Mn; [discriminate Hr|].
  destruct (is_missing d "email") eqn:Me; [discriminate Hr|].
  destruct (is_missing d "age") eqn:Ma; [discriminate Hr|].
  destruct (is_missing d "position") eqn:Mp; [discriminate Hr|].
  apply not_missing_given in Mn as (vn & An & Tn & Gn).
  apply not_missing_given in Me as (ve & Ae & Te & Ge).
  apply not_missing_given in Ma as (va & Aa & Ta & Ga).
  apply not_missing_given in Mp as (vp & Ap & Tp & Gp).
  unfold email_messages in He. unfold age_messages in Ha.
  unfold length_messages in Hn, Hp.
  rewrite Ge in He, Se. rewrite Ga in Ha. rewrite Gn in Hn, Sn. rewrite Gp in Hp, Sp.
  destruct vn as [| | | |n| |]; try discriminate Sn.
  destruct ve as [| | | |e| |]; try discriminate Se.
  destruct vp as [| | | |p| |]; try discriminate Sp.
  destruct (Py.int va) as [k|x] eqn:Hk; [|discriminate Ha].
  exists n, e, va, k, p.
  split; [exact An|]. split; [now destruct (too_short n)|].
  split; [exact Ae|].
  split; [now destruct (Re.match_anchored Re.email_pattern e)|].
  split; [exact Aa|]. split; [exact Ta|]. split; [exact Hk|].
  split.
  { unfold in_range in Ha.
    destruct (Z.leb_spec 0 k), (Z.leb_spec k 150); cbn in Ha; try discriminate Ha. lia. }
  split; [exact Ap | now destruct (too_short p)].
Qed.

(** An empty list in either mode: every field that is given passes its
    rule. *)
Lemma triggered_nil_rules d is_update :
  triggered d is_update = [] ->
  (forall s, given d "email" = Some (VStr s) ->
             Re.match_anchored Re.email_pattern s = true)
  /\ (forall v, given d "age" = Some v -> exists k, Py.int v = Ok k /\ 0 <= k <= 150)
  /\ (forall s, given d "name" = Some (VStr s) -> too_short s = false)
  /\ (forall s, given d "position" = Some (VStr s) -> too_short s = false).
Proof.
  unfold triggered. intros Ht.
  apply app_eq_nil in Ht as [_ Ht]. apply app_eq_nil in Ht as [He Ht].
  apply app_eq_nil in Ht as [Ha Ht]. apply app_eq_nil in Ht as [Hn Hp].
  unfold email_messages in He. unfold age_messages in Ha.
  unfold length_messages in Hn, Hp.
  split; [|split; [|split]].
  - intros s G. rewrite G in He.
    now destruct (Re.match_anchored Re.email_pattern s).
  - intros v G. rewrite G in Ha.
    destruct (Py.int v) as [k|x]; [|discriminate Ha].
    exists k. split; [reflexivity|]. unfold in_range in Ha.
    destruct (Z.leb_spec 0 k), (Z.leb_spec k 150); cbn in Ha; try discriminate Ha. lia.
  - intros s G. rewrite G in Hn. now destruct (too_short s).
  - intros s G. rewrite G in Hp. now destruct (too_short s).
Qed.

(** C5.  [validate_user_data] is a function of the payload and the mode
    alone.  Its rules run in turn, each appending to the list, and the
    first rule that raises ends the run: the result is the concatenation
    of the messages of all rules only when none of them raises.  On a
    dict payload that is the case exactly when a given name, email and
    position are strings and a given age is not an infinite float;
    validation then returns every triggered message, in the order
    required fields (create mode only), email, age, name, position.  A
    non-empty list makes POST (and PUT on a known record) answer 400
    with the whole list and leave the store alone; an empty list means
    the payload is acceptable for the mode: every given field passes
    its rule (the email matches the pattern, the age converts to a
    number from 0 to 150, name and position have two characters or
    more once stripped), in create mode the four fields are all given,
    and the request goes on to the email comparison.  On
    the other dict payloads validation raises and returns no list,
    whatever the other rules would have reported, and POST and PUT
    answer 500 with the text of the exception.  The example payload
    yields four distinct messages in create mode, and POST answers 400
    with all four. *)
Theorem validation_collects_unless_a_rule_raises
    (data : value) (d : list (string * value)) (is_update : bool)
    (self : UserManager) (rq : request) (now : string) :
  validate_user_data data is_update
  = (r <- (if is_update then Ok [] else required_errors data) ;;
     e <- email_errors data ;;
     a <- age_errors data ;;
     n <- name_errors data ;;
     p <- position_errors data ;;
     Ok (r ++ e ++ a ++ n ++ p))%result
  /\ (fault d = None <-> no_fault d = true)
  /\ (fault d = None ->
      validate_user_data (VDict d) is_update = Ok (triggered d is_update))
  /\ (forall e, fault d = Some e -> validate_user_data (VDict d) is_update = Raise e)
  /\ (is_json rq = true -> get_json rq = Ok (VDict d) ->
      (fault d = None -> triggered d false <> [] ->
       exists r,
         Views.create_user rq now self = (Ok r, self)
         /\ status_code r = 400
         /\ resp_message r = Some "Validation failed"
         /\ resp_errors r = Some (Messages (triggered d false))
         /\ resp_data r = None)
      /\ (fault d = None -> triggered d false = [] ->
          forall r self',
            Views.create_user rq now self = (Ok r, self') ->
            status_code r = 201 \/ status_code r = 409 \/ status_code r = 500)
      /\ (forall e, fault d = Some e ->
          exists r,
            Views.create_user rq now self = (Ok r, self)
            /\ status_code r = 500
            /\ resp_message r = Some "Error creating user"
            /\ resp_errors r = Some (ExceptionText e)
            /\ resp_data r = None))
  /\ (forall user_id u,
        get_user_by_id self user_id = Some u ->
        is_json rq = true -> get_json rq = Ok (VDict d) ->
        (fault d = None -> triggered d true <> [] ->
         exists r,
           Views.update_user user_id rq now self = (Ok r, self)
           /\ status_code r = 400
           /\ resp_message r = Some "Validation failed"
           /\ resp_errors r = Some (Messages (triggered d true))
           /\ resp_data r = None)
        /\ (fault d = None -> triggered d true = [] ->
            forall r self',
              Views.update_user user_id rq now self = (Ok r, self') ->
              status_code r = 200 \/ status_code r = 409 \/ status_code r = 500)
        /\ (forall e, fault d = Some e ->
            exists r,
              Views.update_user user_id rq now self = (Ok r, self)
              /\ status_code r = 500
              /\ resp_message r = Some "Error updating user"
              /\ resp_errors r = Some (ExceptionText e)
              /\ resp_data r = None))
  /\ (triggered d is_update = [] ->
      (forall s, given d "email" = Some (VStr s) ->
                 Re.match_anchored Re.email_pattern s = true)
      /\ (forall v, given d "age" = Some v ->
                    exists k, Py.int v = Ok k /\ 0 <= k <= 150)
      /\ (forall s, given d "name" = Some (VStr s) -> too_short s = false)
      /\ (forall s, given d "position" = Some (VStr s) -> too_short s = false))
  /\ (fault d = None -> triggered d false = [] ->
      exists n e a k p,
        Py.assoc "name" d = Some (VStr n) /\ too_short n = false
        /\ Py.assoc "email" d = Some (VStr e)
        /\ Re.match_anchored Re.email_pattern e = true
        /\ Py.assoc "age" d = Some a /\ Py.truthy a = true
        /\ Py.int a = Ok k /\ 0 <= k <= 150
        /\ Py.assoc "position" d = Some (VStr p) /\ too_short p = false)
  /\ validate_user_data invalid_payload false = Ok invalid_payload_errors
  /\ NoDup invalid_payload_errors
  /\ len invalid_payload_errors = 4
  /\ (exists r,
        Views.create_user (json invalid_payload) now self = (Ok r, self)
        /\ status_code r = 400
        /\ resp_errors r = Some (Messages invalid_payload_errors)
        /\ resp_data r = None).
Proof.
  split; [apply validate_user_data_concat|].
  split; [apply fault_None|].
  split; [intros Hf; now rewrite validate_dict, Hf|].
  split; [intros e Hf; now rewrite validate_dict, Hf|].
  split.
  { intros Hj Hd. split; [|split].
    - intros Hf Hne.
      apply (create_view_rejects rq now self (VDict d)); try assumption.
      now rewrite validate_dict, Hf.
    - intros Hf Hnil r self' H.
      apply (create_view_valid rq now self (VDict d) r self'); try assumption.
      now rewrite validate_dict, Hf, Hnil.
    - intros e Hf.
      apply (create_view_fault rq now self (VDict d)); try assumption.
      now rewrite validate_dict, Hf. }
  split.
  { intros user_id u Hu Hj Hd. split; [|split].
    - intros Hf Hne.
      apply (update_view_rejects user_id rq now self u (VDict d)); try assumption.
      now rewrite validate_dict, Hf.
    - intros Hf Hnil r self' H.
      apply (update_view_valid user_id rq now self u (VDict d) r self'); try assumption.
      now rewrite validate_dict, Hf, Hnil.
    - intros e Hf.
      apply (update_view_fault user_id rq now self u (VDict d)); try assumption.
      now rewrite validate_dict, Hf. }
  split; [apply triggered_nil_rules|].
  split; [apply triggered_nil_create|].
  split; [reflexivity|].
  split; [apply (nodup_length string_dec); reflexivity|].
  split; [reflexivity|].
  destruct (create_view_rejects (json invalid_payload) now self invalid_payload
              invalid_payload_errors) as (r & Hr & Hs & _ & He & Hd);
    [reflexivity | reflexivity | reflexivity | discriminate |].
  exists r. auto.
Qed.

Lemma validation_collects_unless_a_rule_raises_witness :
  fault [("email", VStr "bad"); ("age", VInt 200); ("name", VStr "J")] = None
  /\ validate_user_data
       (VDict [("email", VStr "bad"); ("age", VInt 200); ("name", VStr "J")]) true
     = Ok ["Invalid email format"; "Age must be between 0 and 150";
           "Name must be at least 2 characters long"]
  /\ exists r,
       Views.update_user 1
         (json (VDict [("email", VStr "bad"); ("age", VInt 200); ("name", VStr "J")]))
         "2025-10-01 08:00:00" init = (Ok r, init)
       /\ status_code r = 400
       /\ resp_errors r
          = Some (Messages ["Invalid email format"; "Age must be between 0 and 150";
                            "Name must be at least 2 characters long"]).
Proof.
  destruct (validation_collects_unless_a_rule_raises VNone
              [("email", VStr "bad"); ("age", VInt 200); ("name", VStr "J")] true init
              (json (VDict [("email", VStr "bad"); ("age", VInt 200);
                            ("name", VStr "J")]))
              "2025-10-01 08:00:00") as (_ & _ & Hv & _ & _ & Hp & _).
  split; [reflexivity|].
  split; [exact (Hv eq_refl)|].
  destruct (Hp 1 _ eq_refl eq_refl eq_refl) as (H & _).
  destruct (H eq_refl) as (r & Hr & Hs & _ & He & _); [discriminate|].
  exists r. auto.
Defined.

(** C5 as stated fails: validation does short-circuit when a rule
    raises.  The create-mode payload with an empty name and position,
    the number 5 as email and the age -5 triggers three messages, yet
    validation returns no list at all and POST answers 500. *)
Lemma validation_raises_instead_of_collecting :
  ~ (forall (d : list (string * value)) (is_update : bool),
       exists errors,
         validate_user_data (VDict d) is_update = Ok errors
         /\ (is_update = false ->
             forall field, is_missing d field = true -> In field required_fields ->
                           In (required_message field) errors))
  /\ validate_user_data
       (VDict [("name", VStr ""); ("email", VInt 5); ("age", VInt (-5));
               ("position", VStr "")]) false = Raise TypeError
  /\ status_of
       (Views.create_user
          (json (VDict [("name", VStr ""); ("email", VInt 5); ("age", VInt (-5));
                        ("position", VStr "")])) "2025-10-01 08:00:00" init) = 500.
Proof.
  split; [|split; reflexivity].
  intros H.
  destruct (H [("name", VStr ""); ("email", VInt 5); ("age", VInt (-5));
               ("position", VStr "")] false) as (errors & E & _).
  discriminate E.
Qed.

(* ===================================================================== *)
(** ** Falsy ages in create mode *)
(* ===================================================================== *)

(** C10.  In create mode a dict payload whose age is falsy (the integer
    0, the empty string, ...) is treated as having no age.  When no
    other field makes a rule raise, validation returns its list with
    "Field 'age' is required" in it and POST answers 400 with that
    list; when a given email, name or position is not a string,
    validation raises before it returns any message and POST answers
    500 with the text of the exception.  Either way the store is left
    as it was.  A record that POST creates therefore has a truthy age
    that converts to a number from 0 to 150: never the integer 0 or
    another falsy value, but possibly a value that converts to 0, such
    as the string "0" or the float 0.5, which is stored as it came. *)
Theorem falsy_age_is_missing_on_create
    (d : list (string * value)) (v : value)
    (self : UserManager) (rq : request) (now : string) :
  Py.assoc "age" d = Some v ->
  Py.truthy v = false ->
  missing (VDict d) "age" = Ok true
  /\ (fault d = None ->
      validate_user_data (VDict d) false = Ok (triggered d false)
      /\ In "Field 'age' is required" (triggered d false)
      /\ (is_json rq = true -> get_json rq = Ok (VDict d) ->
          exists r,
            Views.create_user rq now self = (Ok r, self)
            /\ status_code r = 400
            /\ resp_message r = Some "Validation failed"
            /\ resp_errors r = Some (Messages (triggered d false))
            /\ resp_data r = None))
  /\ (forall e, fault d = Some e ->
        validate_user_data (VDict d) false = Raise e
        /\ (e = TypeError \/ e = AttributeError)
        /\ (is_json rq = true -> get_json rq = Ok (VDict d) ->
            exists r,
              Views.create_user rq now self = (Ok r, self)
              /\ status_code r = 500
              /\ resp_message r = Some "Error creating user"
              /\ resp_errors r = Some (ExceptionText e)
              /\ resp_data r = None))
  /\ (forall rq' now' r self',
        Views.create_user rq' now' self = (Ok r, self') ->
        status_code r = 201 ->
        exists u n,
          resp_data r = Some (UserData (Some u))
          /\ get_user_by_id self' (id u) = Some u
          /\ Py.truthy (age u) = true
          /\ age u <> VInt 0 /\ age u <> VStr ""
          /\ Py.int (age u) = Ok n /\ 0 <= n <= 150)
  /\ (exists r self' u,
        Views.create_user
          (json (VDict [("name", VStr "Baby Doe"); ("email", VStr "baby@example.com");
                        ("age", VStr "0"); ("position", VStr "Mascot")]))
          now init = (Ok r, self')
        /\ status_code r = 201
        /\ resp_data r = Some (UserData (Some u))
        /\ get_user_by_id self' 4 = Some u
        /\ age u = VStr "0" /\ Py.int (age u) = Ok 0)
  /\ (exists r self' u,
        Views.create_user
          (json (VDict [("name", VStr "Baby Doe"); ("email", VStr "baby@example.com");
                        ("age", VFloat (FFinite 1 2)); ("position", VStr "Mascot")]))
          now init = (Ok r, self')
        /\ status_code r = 201
        /\ resp_data r = Some (UserData (Some u))
        /\ get_user_by_id self' 4 = Some u
        /\ age u = VFloat (FFinite 1 2) /\ Py.int (age u) = Ok 0).
Proof.
  intros Hage Hfalsy.
  assert (Hm : is_missing d "age" = true).
  { unfold is_missing. now rewrite Hage, Hfalsy. }
  assert (Hg : given d "age" = None).
  { unfold given. now rewrite Hage, Hfalsy. }
  split; [now rewrite missing_dict, Hm|].
  split.
  { intros Hf.
    assert (Hv : validate_user_data (VDict d) false = Ok (triggered d false))
      by now rewrite validate_dict, Hf.
    assert (Hin : In "Field 'age' is required" (triggered d false)).
    { unfold triggered, required_messages. rewrite Hm.
      apply in_or_app. left. apply in_or_app. right. apply in_or_app. right.
      apply in_or_app. left. now left. }
    split; [exact Hv|]. split; [exact Hin|].
    intros Hj Hd.
    apply (create_view_rejects rq now self (VDict d)); try assumption.
    intros E. rewrite E in Hin. destruct Hin. }
  split.
  { intros e Hf.
    assert (Hv : validate_user_data (VDict d) false = Raise e)
      by now rewrite validate_dict, Hf.
    split; [exact Hv|]. split.
    - unfold fault in Hf. rewrite Hg in Hf. cbn [converts negb] in Hf.
      destruct (negb (is_string (given d "email"))); [injection Hf as <-; now left|].
      destruct (negb (is_string (given d "name") && is_string (given d "position")));
        [injection Hf as <-; now right | discriminate Hf].
    - intros Hj Hd. now apply (create_view_fault rq now self (VDict d)). }
  split.
  { intros rq' now' r self' H Hst.
    destruct (create_view_201 _ _ _ _ _ H Hst) as (d' & _ & _ & Hv & _ & -> & ->).
    destruct (validate_create_given d' "age") as (a & Ha & Ht); [cbn; auto | exact Hv |].
    destruct (validate_parts _ _ _ Hv) as (r & e & x & n & p & _ & _ & Ea & _ & _ & Hnil).
    symmetry in Hnil.
    apply app_eq_nil in Hnil as [_ Hnil]. apply app_eq_nil in Hnil as [_ Hnil].
    apply app_eq_nil in Hnil as [-> _].
    destruct (validated_age d' a Ea Ha Ht) as (k & Hk & Hr).
    exists (new_record self d' now'), k.
    split; [reflexivity|].
    split; [unfold get_user_by_id; cbn [users new_record id]; apply get_set_eq|].
    cbn [new_record age]. rewrite Ha.
    split; [exact Ht|].
    split; [intros ->; discriminate Ht|].
    split; [intros ->; discriminate Ht|].
    split; [exact Hk | exact Hr]. }
  split.
  - do 3 eexists. split; [cbv; reflexivity|]. repeat split.
  - do 3 eexists. split; [cbv; reflexivity|]. repeat split.
Qed.

Lemma falsy_age_is_missing_on_create_witness :
  Py.assoc "age" [("name", VStr "Baby Doe"); ("email", VStr "baby@example.com");
                  ("age", VInt 0); ("position", VStr "Mascot")] = Some (VInt 0)
  /\ Py.truthy (VInt 0) = false
  /\ exists r,
       Views.create_user
         (json (VDict [("name", VStr "Baby Doe"); ("email", VStr "baby@example.com");
                       ("age", VInt 0); ("position", VStr "Mascot")]))
         "2025-10-01 08:00:00" init = (Ok r, init)
       /\ status_code r = 400
       /\ resp_errors r = Some (Messages ["Field 'age' is required"]).
Proof.
  split; [reflexivity|].
  split; [reflexivity|].
  destruct (falsy_age_is_missing_on_create
              [("name", VStr "Baby Doe"); ("email", VStr "baby@example.com");
               ("age", VInt 0); ("position", VStr "Mascot")] (VInt 0) init
              (json (VDict [("name", VStr "Baby Doe"); ("email", VStr "baby@example.com");
                            ("age", VInt 0); ("position", VStr "Mascot")]))
              "2025-10-01 08:00:00" eq_refl eq_refl)
    as (_ & H & _).
  destruct (H eq_refl) as (_ & _ & H').
  destruct (H' eq_refl eq_refl) as (r & Hr & Hs & _ & He & _).
  exists r. auto.
Defined.

(** C10 as stated fails twice.  A payload with age 0 and the number 5 as
    name is answered 500 and never gets the message about the age; and a
    user whose age is 0 can be created, by giving the age as the string
    "0". *)
Lemma falsy_age_is_not_always_reported :
  ~ (forall (self : UserManager) (rq : request) (now : string)
            (d : list (string * value)),
       is_json rq = true ->
       get_json rq = Ok (VDict d) ->
       Py.assoc "age" d = Some (VInt 0) ->
       exists r errors,
         Views.create_user rq now self = (Ok r, self)
         /\ resp_errors r = Some (Messages errors)
         /\ In "Field 'age' is required" errors)
  /\ ~ (forall (self self' : UserManager) (rq : request) (now : string)
               (r : response) (u : user),
          Views.create_user rq now self = (Ok r, self') ->
          resp_data r = Some (UserData (Some u)) ->
          Py.int (age u) <> Ok 0).
Proof.
  split.
  - intros H.
    destruct (H init
                (json (VDict [("name", VInt 5); ("email", VStr "a@b.co");
                              ("age", VInt 0); ("position", VStr "QA")]))
                "2025-10-01 08:00:00"
                [("name", VInt 5); ("email", VStr "a@b.co");
                 ("age", VInt 0); ("position", VStr "QA")]
                eq_refl eq_refl eq_refl) as (r & errors & Hr & He & _).
    injection Hr as <-. discriminate He.
  - intros H.
    apply (H init _
             (json (VDict [("name", VStr "Baby Doe"); ("email", VStr "baby@example.com");
                           ("age", VStr "0"); ("position", VStr "Mascot")]))
             "2025-10-01 08:00:00" _ _ eq_refl eq_refl).
    reflexivity.
Qed.

(* ===================================================================== *)
(** ** Letter case *)
(* ===================================================================== *)

Lemma code_inj a b : PyStr.code a = PyStr.code b -> a = b.
Proof.
  unfold PyStr.code. intros H.
  rewrite <- (ascii_N_embedding a), <- (ascii_N_embedding b). now rewrite H.
Qed.

Lemma isupper_capital c : PyStr.isupper c = true <-> capital c.
Proof.
  unfold PyStr.isupper, PyStr.between, capital.
  rewrite orb_true_iff, !andb_true_iff, negb_true_iff, !N.leb_le, N.eqb_neq.
  tauto.
Qed.

Lemma not_upper_capital c : PyStr.isupper c = false <-> ~ capital c.
Proof.
  rewrite <- isupper_capital. destruct (PyStr.isupper c); split; congruence.
Qed.

Lemma code_lower_char c :
  PyStr.code (PyStr.lower_char c)
  = if PyStr.isupper c then (PyStr.code c + 32)%N else PyStr.code c.
Proof.
  unfold PyStr.lower_char. destruct (PyStr.isupper c) eqn:E; [|reflexivity].
  apply isupper_capital in E. unfold PyStr.code at 1.
  apply N_ascii_embedding. unfold capital in E. lia.
Qed.

(** [str.lower] identifies exactly the two cases of a letter. *)
Lemma lower_char_same a b :
  PyStr.lower_char a = PyStr.lower_char b <-> same_letter a b.
Proof.
  unfold same_letter, small_of. split.
  - intros H. apply (f_equal PyStr.code) in H. rewrite !code_lower_char in H.
    destruct (PyStr.isupper a) eqn:Ea, (PyStr.isupper b) eqn:Eb.
    + left. apply code_inj. lia.
    + right. left. split; [now apply isupper_capital | lia].
    + right. right. split; [now apply isupper_capital | lia].
    + left. now apply code_inj.
  - intros [->|[[Ha H]|[Hb H]]]; [reflexivity| |]; apply code_inj;
      rewrite !code_lower_char.
    + assert (Eb : ~ capital b) by (unfold capital in *; lia).
      apply isupper_capital in Ha. apply not_upper_capital in Eb.
      rewrite Ha, Eb. lia.
    + assert (Ea : ~ capital a) by (unfold capital in *; lia).
      apply isupper_capital in Hb. apply not_upper_capital in Ea.
      rewrite Hb, Ea. lia.
Qed.

Lemma lower_same_text s t : PyStr.lower s = PyStr.lower t <-> same_text s t.
Proof.
  revert t. induction s as [|a s IH]; intros [|b t]; cbn [PyStr.lower].
  - split; [constructor | reflexivity].
  - split; [discriminate | intros H; inversion H].
  - split; [discriminate | intros H; inversion H].
  - split.
    + intros [= Hc Hs]. constructor; [now apply lower_char_same | now apply IH].
    + intros H. inversion H as [|? ? ? ? Hc Hs]; subst.
      apply lower_char_same in Hc. apply IH in Hs. congruence.
Qed.

Lemma lower_app s t : PyStr.lower (s ++ t) = (PyStr.lower s ++ PyStr.lower t)%string.
Proof. induction s as [|a s IH]; cbn; [reflexivity | now rewrite IH]. Qed.

Lemma lower_split s x y :
  PyStr.lower s = (x ++ y)%string ->
  exists a b, s = (a ++ b)%string /\ PyStr.lower a = x /\ PyStr.lower b = y.
Proof.
  revert s. induction x as [|c x IH]; intros s H.
  - exists "", s. cbn. auto.
  - destruct s as [|c' s]; [discriminate H|]. cbn in H. injection H as Hc Hs.
    destruct (IH s Hs) as (a & b & -> & Ha & Hb).
    exists (String c' a), b. cbn. rewrite Ha, Hc. auto.
Qed.

(** [q.lower() in s.lower()] is containment with letter case ignored. *)
Lemma occurs_in_ignoring_case q s : occurs_in q s <-> contains_ignoring_case q s.
Proof.
  unfold occurs_in, contains_ignoring_case. split.
  - intros (x & y & H).
    destruct (lower_split _ _ _ H) as (before & rest & -> & <- & Hr).
    destruct (lower_split _ _ _ Hr) as (mid & after & -> & Hm & <-).
    exists before, mid, after. split; [reflexivity|].
    apply lower_same_text. now symmetry.
  - intros (before & mid & after & -> & H).
    apply lower_same_text in H. exists (PyStr.lower before), (PyStr.lower after).
    now rewrite !lower_app, H.
Qed.

Lemma matches_has_text q u : matches q u <-> has_text q u.
Proof.
  unfold matches, has_text. split; intros (s & Hs & H); exists s;
    (split; [exact Hs | now apply occurs_in_ignoring_case]).
Qed.

(** *** Blank queries *)

Lemma rstrip_empty s :
  PyStr.rstrip_by PyStr.isspace s = "" -> all_space s = true.
Proof.
  induction s as [|c s IH]; cbn [PyStr.rstrip_by all_space]; [reflexivity|].
  destruct (PyStr.isspace c); cbn [andb]; [|discriminate].
  destruct (PyStr.rstrip_by PyStr.isspace s); cbn [PyStr.is_empty];
    [intros _; now apply IH | discriminate].
Qed.

Lemma lstrip_keeps_space s :
  all_space (PyStr.lstrip_by PyStr.isspace s) = true -> all_space s = true.
Proof.
  induction s as [|c s IH]; cbn [PyStr.lstrip_by all_space]; [reflexivity|].
  destruct (PyStr.isspace c) eqn:E; cbn [andb]; [exact IH|].
  cbn [all_space]. now rewrite E.
Qed.

Lemma strip_empty s : PyStr.strip s = "" <-> all_space s = true.
Proof.
  split; [|apply strip_all_space].
  unfold PyStr.strip. intros H. apply lstrip_keeps_space. now apply rstrip_empty.
Qed.

Lemma query_of_blank q :
  query_of q = "" <-> q = None \/ exists s, q = Some s /\ all_space s = true.
Proof.
  unfold query_of. destruct q as [s|].
  - rewrite strip_empty. split.
    + intros H. right. now exists s.
    + intros [H|(s' & [= <-] & H)]; [discriminate H | exact H].
  - split; [now left | reflexivity].
Qed.

(** *** Stores whose records have text in every searched field *)

Lemma In_set_cases {V : Type} (d : list (Z * V)) k0 v0 k v :
  In (k, v) (PyDict.set d k0 v0) -> (k = k0 /\ v = v0) \/ In (k, v) d.
Proof.
  induction d as [|[k1 v1] d IH]; cbn [PyDict.set].
  - intros [[= <- <-]|[]]. now left.
  - destruct (k1 =? k0).
    + intros [[= <- <-]|H]; [now left | right; now right].
    + intros [H|H]; [right; now left|].
      destruct (IH H) as [?|?]; [now left | right; now right].
Qed.

Lemma all_text_set self k u n :
  all_text self -> text_fields u ->
  all_text (mkUserManager (PyDict.set (users self) k u) n).
Proof.
  intros Ha Hu u' Hin. unfold get_all_users in Hin. cbn [users] in Hin.
  apply In_values in Hin as [k' Hin].
  apply In_set_cases in Hin as [[_ ->]|Hin]; [exact Hu|].
  apply Ha. apply In_values. eauto.
Qed.

Lemma all_text_remove self k n :
  all_text self -> all_text (mkUserManager (PyDict.remove (users self) k) n).
Proof.
  intros Ha u Hin. unfold get_all_users in Hin. cbn [users] in Hin.
  apply In_values in Hin as [k' Hin]. apply In_remove in Hin as [_ Hin].
  apply Ha. apply In_values. eauto.
Qed.

Lemma init_all_text : all_text init.
Proof.
  intros u. cbn. intros [<-|[<-|[<-|[]]]]; unfold text_fields; cbn;
    do 3 eexists; (split; [|split]); reflexivity.
Qed.

Lemma created_text_fields self d now :
  validate_user_data (VDict d) false = Ok [] -> text_fields (new_record self d now).
Proof.
  rewrite validate_dict. destruct (fault d) eqn:Hf; [discriminate|]. intros [= Ht].
  destruct (triggered_nil_create d Hf Ht)
    as (n & e & a & k & p & Hn & _ & He & _ & _ & _ & _ & _ & Hp & _).
  exists n, e, p. unfold new_record. cbn [name email position].
  now rewrite Hn, He, Hp.
Qed.

Lemma updated_text_fields u d now :
  text_fields u ->
  (forall field v, In field ["name"; "email"; "position"] ->
                   Py.assoc field d = Some v -> exists s, v = VStr s) ->
  text_fields (updated_record u d now).
Proof.
  intros (n & e & p & Hn & He & Hp) Hd.
  unfold text_fields, updated_record. cbn [name email position].
  destruct (Py.assoc "name" d) as [vn|] eqn:An;
    [destruct (Hd "name" vn) as [n' ->]; [cbn; auto | exact An |]|];
  (destruct (Py.assoc "email" d) as [ve|] eqn:Ae;
    [destruct (Hd "email" ve) as [e' ->]; [cbn; auto | exact Ae |]|]);
  (destruct (Py.assoc "position" d) as [vp|] eqn:Ap;
    [destruct (Hd "position" vp) as [p' ->]; [cbn; auto | exact Ap |]|]);
  eauto 10.
Qed.

Lemma dispatch_all_text r self :
  keeps_text r -> all_text self -> all_text (snd (dispatch r self)).
Proof.
  intros Hk Ha. destruct r as [| |user_id|rq now|user_id rq now|user_id|q];
    cbn [dispatch].
  - exact Ha.
  - exact Ha.
  - unfold Views.get_user, bind, read. now destruct (get_user_by_id self user_id).
  - rewrite create_view_eq.
    destruct (negb (is_json rq)); [exact Ha|].
    destruct (get_json rq) as [data|e]; [|exact Ha].
    destruct (validate_user_data data false) as [[|m ms]|e] eqn:Hv;
      [|exact Ha|exact Ha].
    destruct (Views.email_exists (get_all_users self) data) as [[|]|e];
      [exact Ha| |exact Ha].
    destruct (create_user data now self) as [[u|e] s'] eqn:Hcr.
    + apply create_user_Ok in Hcr as (d & -> & -> & ->). cbn [snd].
      apply all_text_set; [exact Ha | now apply created_text_fields].
    + apply create_user_Raise in Hcr. now subst.
  - cbn [keeps_text] in Hk. rewrite update_view_eq.
    destruct (get_user_by_id self user_id) as [u0|] eqn:Hget; [|exact Ha].
    destruct (negb (is_json rq)); [exact Ha|].
    destruct (get_json rq) as [data|e] eqn:Hd; [|exact Ha].
    destruct (validate_user_data data true) as [[|m ms]|e] eqn:Hv;
      [|exact Ha|exact Ha].
    destruct (_ <- Py.contains "email" data ;; _)%result as [[|]|e];
      [exact Ha| |exact Ha].
    assert (H0 : text_fields u0).
    { apply Ha. apply In_values. exists user_id. now apply get_Some_In. }
    destruct (validate_shape _ _ _ Hv) as [[d ->]|(Hn & He & Hage & Hp)].
    + rewrite (update_user_dict _ _ d now _ Hget). cbn [snd].
      apply all_text_set; [exact Ha|].
      apply updated_text_fields; [exact H0|].
      intros field v Hin Hv'. now apply (Hk d field v).
    + rewrite (update_user_no_field _ _ _ now _ Hget Hn He Hage Hp). cbn [snd].
      apply all_text_set; [exact Ha | exact H0].
  - destruct (get_user_by_id self user_id) as [u|] eqn:Hget.
    + rewrite (delete_view_known _ _ _ Hget). now apply all_text_remove.
    + now rewrite (delete_view_unknown _ _ Hget).
  - unfold Views.search_users. destruct (PyStr.is_empty _); [exact Ha|].
    unfold bind, read, lift. now destruct (Views.search_loop _ _ _).
Qed.

(** From the seeded store, requests that put no non-string under name,
    email or position lead to stores the search runs on. *)
Lemma serve_all_text rs self :
  Forall keeps_text rs -> all_text self -> all_text (serve rs self).
Proof.
  revert self. induction rs as [|r rs IH]; intros self Hk Ha; cbn [serve]; [exact Ha|].
  inversion Hk as [|? ? Hr Hrs]; subst.
  apply IH; [exact Hrs | now apply dispatch_all_text].
Qed.

Lemma search_answer self query found :
  query <> "" ->
  Views.search_loop (get_all_users self) query [] = Ok found ->
  forall q, query_of q = query ->
  exists r,
    Views.search_users q self = (Ok r, self)
    /\ status_code r = 200
    /\ resp_data r = Some (SearchData found (len found) query)
    /\ resp_message r
       = Some ("Found " ++ PyStr.of_Z (len found) ++ " users matching '"
               ++ query ++ "'")%string
    /\ resp_errors r = None.
Proof.
  intros Hne Hl q Hq. unfold Views.search_users. fold (query_of q). rewrite Hq.
  destruct query as [|c query]; [contradiction|]. cbn [PyStr.is_empty].
  unfold bind, read, lift. rewrite Hl.
  eexists. split; [reflexivity|]. repeat split.
Qed.




(* ===================================================================== *)
(** ** How the operations compose *)
(* ===================================================================== *)

Lemma remove_set_fresh {V : Type} (d : list (Z * V)) k v :
  PyDict.get d k = None -> PyDict.remove (PyDict.set d k v) k = d.
Proof.
  intros H. rewrite (set_fresh _ _ _ H). unfold PyDict.remove.
  rewrite filter_app. cbn [filter fst]. rewrite Z.eqb_refl. cbn [negb].
  rewrite app_nil_r. now apply remove_absent.
Qed.

(** X15.  Creating a user and then deleting it gives the records back
    exactly as they were, in the same order; only the counter has moved
    on, so the identifier is spent.  This holds after any sequence of
    store calls from the seeded store. *)
Theorem create_then_delete_restores_records
    (cs : list store_call) (data : value) (now : string)
    (u : user) (s1 : UserManager) :
  create_user data now (calls cs init) = (Ok u, s1) ->
  delete_user (id u) s1
  = (Ok (Some u), mkUserManager (users (calls cs init)) (next_id (calls cs init) + 1))
  /\ get_all_users (snd (delete_user (id u) s1)) = get_all_users (calls cs init).
Proof.
  intros H. apply create_user_Ok in H as (d & -> & -> & ->).
  pose proof (calls_keys_below cs init init_keys_below) as Hb.
  set (self := calls cs init) in *.
  assert (Hnone : get_user_by_id self (next_id self) = None)
    by (apply below_is_absent; [exact Hb | lia]).
  assert (E : delete_user (id (new_record self d now))
                (mkUserManager
                   (PyDict.set (users self) (next_id self) (new_record self d now))
                   (next_id self + 1))
              = (Ok (Some (new_record self d now)),
                 mkUserManager (users self) (next_id self + 1))).
  { rewrite (delete_user_known _ _ (new_record self d now)).
    - cbn [users next_id new_record id]. now rewrite remove_set_fresh.
    - unfold get_user_by_id. cbn [users new_record id]. apply get_set_eq. }
  split; [exact E|]. now rewrite E.
Qed.

Lemma create_then_delete_restores_records_witness :
  get_all_users
    (snd (delete_user 4
            (snd (create_user (VDict [("name", VStr "Ann")]) "2025-10-01 08:00:00"
                    (calls [Delete 2] init)))))
  = get_all_users (calls [Delete 2] init).
Proof.
  destruct (create_then_delete_restores_records [Delete 2]
              (VDict [("name", VStr "Ann")]) "2025-10-01 08:00:00" _ _ eq_refl)
    as (_ & H).
  exact H.
Defined.

Lemma updated_record_twice u d now now' :
  updated_record (updated_record u d now) d now' = updated_record u d now'.
Proof.
  unfold updated_record. cbn [id name email age position created_at].
  destruct (Py.assoc "name" d), (Py.assoc "email" d), (Py.assoc "age" d),
    (Py.assoc "position" d); reflexivity.
Qed.

Lemma with_user_with_user self user_id u u' :
  with_user (with_user self user_id u) user_id u' = with_user self user_id u'.
Proof. unfold with_user. cbn [users next_id]. now rewrite set_set. Qed.

(** X16.  [update_user] is idempotent up to the time stamp: applying the
    same dict payload a second time gives the record and the store that
    a single application at the later time gives. *)
Theorem update_user_twice_is_once
    (self : UserManager) (user_id : Z) (u : user)
    (d : list (string * value)) (now now' : string) :
  get_user_by_id self user_id = Some u ->
  update_user user_id (VDict d) now' (snd (update_user user_id (VDict d) now self))
  = update_user user_id (VDict d) now' self.
Proof.
  intros Hget. rewrite (update_user_dict _ _ d now u Hget). cbn [snd].
  rewrite (update_user_dict _ _ d now' (updated_record u d now))
    by apply get_with_user.
  rewrite (update_user_dict _ _ d now' u Hget).
  now rewrite updated_record_twice, with_user_with_user.
Qed.

Lemma update_user_twice_is_once_witness :
  update_user 1 (VDict [("age", VInt 31)]) "2025-10-01 09:00:00"
    (snd (update_user 1 (VDict [("age", VInt 31)]) "2025-10-01 08:00:00" init))
  = update_user 1 (VDict [("age", VInt 31)]) "2025-10-01 09:00:00" init.
Proof.
  apply (update_user_twice_is_once init 1
           (mkUser 1 (VStr "John Doe") (VStr "john.doe@example.com") (VInt 30)
              (VStr "Software Developer") seed_time seed_time)).
  reflexivity.
Defined.

(* ===================================================================== *)
(** ** The query of a search *)
(* ===================================================================== *)

Lemma lower_empty s : PyStr.lower s = "" -> s = "".
Proof. destruct s; [reflexivity | discriminate]. Qed.

Lemma search_loop_lower l q1 q2 found :
  PyStr.lower q1 = PyStr.lower q2 ->
  Views.search_loop l q1 found = Views.search_loop l q2 found.
Proof.
  intros E.
  assert (M : forall u, Views.user_matches q1 u = Views.user_matches q2 u).
  { intros u. unfold Views.user_matches, Views.field_matches. now rewrite E. }
  revert found. induction l as [|u l IH]; intros found;
    cbn [Views.search_loop]; [reflexivity|].
  rewrite M.
  destruct (Views.user_matches q2 u) as [b|x]; cbn [rbind]; [apply IH | reflexivity].
Qed.

(** X17.  The search depends on [q] only through its stripped, lowered
    form: two queries that agree once stripped and lowered get the same
    status and the same list of users, on any store. *)
Theorem search_ignores_case_and_margins
    (self : UserManager) (q1 q2 : option string) :
  PyStr.lower (query_of q1) = PyStr.lower (query_of q2) ->
  status_of (Views.search_users q1 self) = status_of (Views.search_users q2 self)
  /\ found_users (Views.search_users q1 self) = found_users (Views.search_users q2 self).
Proof.
  intros E. unfold Views.search_users. fold (query_of q1). fold (query_of q2).
  destruct (query_of q1) as [|c1 s1] eqn:E1.
  - symmetry in E. apply lower_empty in E. rewrite E. split; reflexivity.
  - destruct (query_of q2) as [|c2 s2] eqn:E2; [discriminate E|].
    cbn [PyStr.is_empty]. unfold bind, read, lift, status_of, found_users, resp_data_of.
    rewrite (search_loop_lower _ _ _ [] E).
    destruct (Views.search_loop (get_all_users self) (String c2 s2) []) as [l|x];
      split; reflexivity.
Qed.

Lemma search_ignores_case_and_margins_witness :
  found_users (Views.search_users (Some "  DEVELOPER ") init)
  = found_users (Views.search_users (Some "developer") init).
Proof.
  destruct (search_ignores_case_and_margins init (Some "  DEVELOPER ") (Some "developer")
              eq_refl) as (_ & H).
  exact H.
Defined.

(* ===================================================================== *)
(** ** What the email pattern accepts *)
(* ===================================================================== *)

Lemma sapp_nil_r (s : string) : (s ++ "")%string = s.
Proof. induction s as [|c s IH]; cbn; [reflexivity | now rewrite IH]. Qed.

Lemma sapp_assoc (a b c : string) : ((a ++ b) ++ c)%string = (a ++ (b ++ c))%string.
Proof. induction a as [|x a IH]; cbn; [reflexivity | now rewrite IH]. Qed.

Lemma sapp_eq_nil (a b : string) : (a ++ b)%string = "" -> a = "" /\ b = "".
Proof. destruct a; cbn; [auto | discriminate]. Qed.

Lemma denotes_never_inv s : ~ denotes Re.Never s.
Proof. intros H. inversion H. Qed.

Lemma denotes_eps_inv s : denotes Re.Eps s <-> s = "".
Proof. split; [intros H; now inversion H | intros ->; constructor]. Qed.

Lemma denotes_class_inv p s :
  denotes (Re.Class p) s <-> exists c, s = String c "" /\ p c = true.
Proof.
  split.
  - intros H. inversion H; subst. eauto.
  - intros (c & -> & H). now constructor.
Qed.

Lemma denotes_seq_inv a b s :
  denotes (Re.Seq a b) s
  <-> exists s1 s2, s = (s1 ++ s2)%string /\ denotes a s1 /\ denotes b s2.
Proof.
  split.
  - intros H. inversion H; subst. eauto.
  - intros (s1 & s2 & -> & H1 & H2). now constructor.
Qed.

Lemma denotes_alt_inv a b s :
  denotes (Re.Alt a b) s <-> denotes a s \/ denotes b s.
Proof.
  split.
  - intros H. inversion H; subst; auto.
  - intros [H|H]; [now apply denotes_alt_l | now apply denotes_alt_r].
Qed.

Lemma denotes_star_step a c s :
  denotes (Re.Star a) (String c s)
  <-> exists s1 s2, s = (s1 ++ s2)%string /\ denotes a (String c s1)
                    /\ denotes (Re.Star a) s2.
Proof.
  split.
  - intros H. remember (Re.Star a) as r eqn:Er. remember (String c s) as w eqn:Ew.
    revert s Ew. induction H as [| | | | | |a' s1 t H1 _ H2 IH2]; intros s0 Ew;
      try discriminate Er.
    + discriminate Ew.
    + injection Er as ->. destruct s1 as [|c1 s1].
      * cbn in Ew. now apply IH2.
      * cbn in Ew. injection Ew as -> <-. eauto.
  - intros (s1 & s2 & -> & H1 & H2).
    change (String c (s1 ++ s2)) with (String c s1 ++ s2)%string. now constructor.
Qed.

Lemma nullable_spec r : Re.nullable r = true <-> denotes r "".
Proof.
  induction r as [| |p|a IHa b IHb|a IHa b IHb|a IHa]; cbn [Re.nullable].
  - split; [discriminate | intros H; now apply denotes_never_inv in H].
  - split; [constructor | reflexivity].
  - split; [discriminate | intros H; apply denotes_class_inv in H as (c & H & _); discriminate].
  - rewrite andb_true_iff, IHa, IHb, denotes_seq_inv. split.
    + intros [Ha Hb]. now exists "", "".
    + intros (s1 & s2 & E & Ha & Hb). symmetry in E.
      apply sapp_eq_nil in E as [-> ->]. auto.
  - now rewrite orb_true_iff, IHa, IHb, denotes_alt_inv.
  - split; [constructor | reflexivity].
Qed.

Lemma deriv_spec c r s : denotes (Re.deriv c r) s <-> denotes r (String c s).
Proof.
  revert s. induction r as [| |p|a IHa b IHb|a IHa b IHb|a IHa]; intros s; cbn [Re.deriv].
  - split; intros H; now apply denotes_never_inv in H.
  - split; intros H; [now apply denotes_never_inv in H|].
    apply denotes_eps_inv in H. discriminate.
  - rewrite denotes_class_inv. destruct (p c) eqn:Hp.
    + rewrite denotes_eps_inv. split.
      * intros ->. eauto.
      * intros (c' & [= <- ->] & _). reflexivity.
    + split; [intros H; now apply denotes_never_inv in H|].
      intros (c' & [= <- ->] & H). congruence.
  - assert (Hseq : denotes (Re.Seq (Re.deriv c a) b) s
                   <-> exists s1 s2, s = (s1 ++ s2)%string
                                     /\ denotes a (String c s1) /\ denotes b s2).
    { rewrite denotes_seq_inv. split; intros (s1 & s2 & E & H1 & H2);
        exists s1, s2; (split; [exact E|]); (split; [now apply IHa | exact H2]). }
    rewrite (denotes_seq_inv a b).
    destruct (Re.nullable a) eqn:Hn.
    + rewrite denotes_alt_inv, Hseq, IHb. split.
      * intros [(s1 & s2 & -> & H1 & H2)|Hb].
        -- exists (String c s1), s2. auto.
        -- exists "", (String c s). split; [reflexivity|].
           split; [now apply nullable_spec | exact Hb].
      * intros (s1 & s2 & E & H1 & H2). destruct s1 as [|c1 s1].
        -- cbn in E. subst s2. now right.
        -- cbn in E. injection E as <- ->. left. eauto.
    + rewrite Hseq. split.
      * intros (s1 & s2 & -> & H1 & H2). exists (String c s1), s2. auto.
      * intros (s1 & s2 & E & H1 & H2). destruct s1 as [|c1 s1].
        -- apply nullable_spec in H1. congruence.
        -- cbn in E. injection E as <- ->. eauto.
  - now rewrite !denotes_alt_inv, IHa, IHb.
  - rewrite denotes_star_step, denotes_seq_inv.
    split; intros (s1 & s2 & E & H1 & H2); exists s1, s2;
      (split; [exact E|]); (split; [now apply IHa | exact H2]).
Qed.

(** The matcher decides membership in the language of the expression. *)
Lemma fullmatch_spec r s : Re.fullmatch r s = true <-> denotes r s.
Proof.
  revert r. induction s as [|c s IH]; intros r; cbn [Re.fullmatch].
  - apply nullable_spec.
  - now rewrite IH, deriv_spec.
Qed.

Lemma denotes_star_class p s :
  denotes (Re.Star (Re.Class p)) s <-> all_chars p s = true.
Proof.
  induction s as [|c s IH]; cbn [all_chars].
  - split; [reflexivity | constructor].
  - rewrite denotes_star_step, andb_true_iff, <- IH. split.
    + intros (s1 & s2 & -> & H1 & H2).
      apply denotes_class_inv in H1 as (c' & [= <- ->] & Hp). auto.
    + intros [Hp H]. exists "", s. split; [reflexivity|].
      split; [now constructor | exact H].
Qed.

Lemma denotes_plus_class p s :
  denotes (Re.Plus (Re.Class p)) s <-> s <> "" /\ all_chars p s = true.
Proof.
  unfold Re.Plus. rewrite denotes_seq_inv. split.
  - intros (s1 & s2 & -> & H1 & H2).
    apply denotes_class_inv in H1 as (c & -> & Hp).
    apply denotes_star_class in H2. cbn. rewrite Hp, H2. split; [discriminate | reflexivity].
  - intros [Hne H]. destruct s as [|c s]; [contradiction|].
    cbn [all_chars] in H. apply andb_true_iff in H as [Hp H].
    exists (String c ""), s. split; [reflexivity|].
    split; [now constructor | now apply denotes_star_class].
Qed.

Lemma denotes_char (x : ascii) s :
  denotes (Re.Class (Ascii.eqb x)) s <-> s = String x "".
Proof.
  rewrite denotes_class_inv. split.
  - intros (c & -> & H). apply Ascii.eqb_eq in H. now subst.
  - intros ->. exists x. split; [reflexivity | apply Ascii.eqb_refl].
Qed.

Lemma denotes_two_or_more p s :
  denotes (Re.Seq (Re.Class p) (Re.Seq (Re.Class p) (Re.Star (Re.Class p)))) s
  <-> (2 <= String.length s)%nat /\ all_chars p s = true.
Proof.
  rewrite denotes_seq_inv. split.
  - intros (s1 & s2 & -> & H1 & H2).
    apply denotes_class_inv in H1 as (c1 & -> & P1).
    apply denotes_seq_inv in H2 as (s3 & s4 & -> & H3 & H4).
    apply denotes_class_inv in H3 as (c2 & -> & P2).
    apply denotes_star_class in H4. cbn. rewrite P1, P2, H4. split; [lia | reflexivity].
  - intros [Hlen H]. destruct s as [|c1 [|c2 s]]; cbn in Hlen; try lia.
    cbn [all_chars] in H. apply andb_true_iff in H as [P1 H].
    apply andb_true_iff in H as [P2 H].
    exists (String c1 ""), (String c2 s). split; [reflexivity|].
    split; [now constructor|]. apply denotes_seq_inv.
    exists (String c2 ""), s. split; [reflexivity|].
    split; [now constructor | now apply denotes_star_class].
Qed.

Lemma email_pattern_shape s : denotes Re.email_pattern s <-> email_shape s.
Proof.
  unfold Re.email_pattern, email_shape.
  change (fun c => Re.alnum c || Re.one_of "._%+-" c) with local_char.
  change (fun c => Re.alnum c || Re.one_of ".-" c) with domain_char.
  rewrite denotes_seq_inv. split.
  - intros (l & r1 & -> & Hl & H).
    apply denotes_plus_class in Hl as [Hl1 Hl2].
    apply denotes_seq_inv in H as (a & r2 & -> & Ha & H).
    apply denotes_char in Ha. subst a.
    apply denotes_seq_inv in H as (d & r3 & -> & Hd & H).
    apply denotes_plus_class in Hd as [Hd1 Hd2].
    apply denotes_seq_inv in H as (b & t & -> & Hb & Ht).
    apply denotes_char in Hb. subst b.
    apply denotes_two_or_more in Ht as [Ht1 Ht2].
    exists l, d, t. repeat split; assumption.
  - intros (l & d & t & -> & Hl1 & Hl2 & Hd1 & Hd2 & Ht1 & Ht2).
    exists l, ("@" ++ d ++ "." ++ t)%string. split; [reflexivity|].
    split; [now apply denotes_plus_class|].
    apply denotes_seq_inv. exists "@"%string, (d ++ "." ++ t)%string.
    split; [reflexivity|]. split; [now apply denotes_char|].
    apply denotes_seq_inv. exists d, ("." ++ t)%string.
    split; [reflexivity|]. split; [now apply denotes_plus_class|].
    apply denotes_seq_inv. exists "."%string, t.
    split; [reflexivity|]. split; [now apply denotes_char|].
    now apply denotes_two_or_more.
Qed.

Lemma chop_newline_spec s t :
  Re.chop_newline s = Some t <-> s = (t ++ String Re.newline "")%string.
Proof.
  revert t. induction s as [|c s IH]; intros t; cbn [Re.chop_newline].
  - split; [discriminate|]. intros H. destruct t; discriminate H.
  - destruct s as [|c' s].
    + destruct (Ascii.eqb_spec c Re.newline) as [->|Hne].
      * split; [intros [= <-]; reflexivity|].
        destruct t as [|c1 t]; [reflexivity|].
        cbn. intros [= _ H]. destruct t; discriminate H.
      * split; [discriminate|].
        destruct t as [|c1 t]; cbn; [intros [= ->]; contradiction|].
        intros [= _ H]. destruct t; discriminate H.
    + destruct (Re.chop_newline (String c' s)) as [r|]; cbn [option_map].
      * pose proof (proj1 (IH r) eq_refl) as E. split.
        -- intros [= <-]. cbn [String.append]. now rewrite E.
        -- destruct t as [|c1 t]; [cbn; intros [= _ H]; discriminate H|].
           cbn. intros [= <- H]. apply IH in H. now injection H as ->.
      * split; [discriminate|].
        destruct t as [|c1 t]; [cbn; intros [= _ H]; discriminate H|].
        cbn. intros [= <- H]. apply IH in H. discriminate H.
Qed.

(** X18.  The email rule accepts exactly the strings of the form
    local@domain.tld, where local is a non-empty run of letters, digits
    and [._%+-], domain a non-empty run of letters, digits, dots and
    hyphens and tld at least two letters, and the same strings followed
    by one newline (the [$] of the pattern also holds before a final
    newline).  For a payload whose email is a non-empty string, the
    email rule reports nothing exactly for these strings and reports
    "Invalid email format" for all others. *)
Theorem email_rule_accepts_the_shape (d : list (string * value)) (s : string) :
  (Re.match_anchored Re.email_pattern s = true <-> accepted_email s)
  /\ (Py.assoc "email" d = Some (VStr s) -> s <> "" ->
      (email_errors (VDict d) = Ok [] <-> accepted_email s)
      /\ (email_errors (VDict d) = Ok ["Invalid email format"] <-> ~ accepted_email s)).
Proof.
  assert (M : Re.match_anchored Re.email_pattern s = true <-> accepted_email s).
  { unfold Re.match_anchored, accepted_email.
    rewrite orb_true_iff, fullmatch_spec, email_pattern_shape. split.
    - intros [H|H]; [now left|]. right.
      destruct (Re.chop_newline s) as [t|] eqn:E; [|discriminate].
      apply chop_newline_spec in E. apply fullmatch_spec, email_pattern_shape in H. eauto.
    - intros [H|(t & E & H)]; [now left|]. right.
      apply chop_newline_spec in E. rewrite E.
      now apply fullmatch_spec, email_pattern_shape. }
  split; [exact M|].
  intros Hd Hne. unfold email_errors, validate_email. rewrite provided_dict.
  unfold given. rewrite Hd. cbn [Py.truthy].
  destruct s as [|c s]; [contradiction|]. cbn [PyStr.is_empty negb rbind Py.re_match_email].
  destruct (Re.match_anchored Re.email_pattern (String c s)) eqn:E; cbn [negb app].
  - split; [split; [intros _; now apply M | reflexivity]|].
    split; [discriminate|]. intros H. exfalso. apply H. now apply M.
  - split; [split; [discriminate|]|].
    + intros H. apply M in H. discriminate.
    + split; [|reflexivity]. intros _ H. apply M in H. discriminate.
Qed.

Lemma email_rule_accepts_the_shape_witness :
  email_errors (VDict [("email", VStr "first.last@sub-domain.example.org")]) = Ok []
  <-> accepted_email "first.last@sub-domain.example.org".
Proof.
  destruct (email_rule_accepts_the_shape
              [("email", VStr "first.last@sub-domain.example.org")]
              "first.last@sub-domain.example.org") as (_ & H).
  destruct (H eq_refl) as [H1 _]; [discriminate | exact H1].
Defined.

(* ===================================================================== *)
(** ** Edges: ages, bodies that are not objects, stripped queries *)
(* ===================================================================== *)

Lemma quot_in_range (num : Z) (den : positive) :
  0 <= Z.quot num (Z.pos den) <= 150 <-> - Z.pos den < num < 151 * Z.pos den.
Proof.
  pose proof (Z.quot_rem' num (Z.pos den)) as E.
  assert (Hd : 0 < Z.pos den) by lia.
  destruct (Z_le_gt_dec 0 num) as [Hpos|Hneg].
  - pose proof (Z.rem_bound_pos num (Z.pos den) Hpos Hd) as B. nia.
  - assert (Hn : num <= 0) by lia.
    pose proof (Z.rem_bound_pos_neg num (Z.pos den) Hd Hn) as B. nia.
Qed.

(** X19.  The bounds of the age rule.  For an integer age [n] the rule
    reports nothing exactly when 0 <= n <= 150, and the age counts as
    missing in create mode exactly when n = 0: so create mode lets
    through 1..150 and update mode 0..150.  A finite float is judged by
    its truncation towards zero, so every value strictly between -1 and
    151 other than zero passes; [true] passes as 1. *)
Theorem age_rule_bounds (d : list (string * value)) (v : value) :
  Py.assoc "age" d = Some v ->
  (forall n, v = VInt n ->
     (age_errors (VDict d) = Ok [] <-> 0 <= n <= 150)
     /\ (age_errors (VDict d) = Ok ["Age must be between 0 and 150"]
         <-> n < 0 \/ 150 < n)
     /\ (is_missing d "age" = true <-> n = 0))
  /\ (forall num den, v = VFloat (FFinite num den) ->
        (age_errors (VDict d) = Ok [] <-> - Z.pos den < num < 151 * Z.pos den)
        /\ (is_missing d "age" = true <-> num = 0))
  /\ (v = VBool true -> age_errors (VDict d) = Ok [] /\ is_missing d "age" = false).
Proof.
  intros Hd. unfold age_errors, validate_age, is_missing. rewrite provided_dict.
  unfold given. rewrite Hd. split; [|split].
  - intros n ->. cbn [Py.truthy Py.int].
    destruct (Z.eqb_spec n 0) as [->|Hne]; cbn [negb rbind Py.int].
    + repeat match goal with |- _ /\ _ => split end;
        (split; intros H; try discriminate H; try lia; try reflexivity).
    + rewrite Z.gtb_ltb.
      destruct (Z.ltb_spec n 0) as [Hl|Hl], (Z.ltb_spec 150 n) as [Hg|Hg]; cbn [orb app];
        repeat match goal with |- _ /\ _ => split end;
        (split; intros H; try discriminate H; try lia; try reflexivity).
  - intros num den ->. cbn [Py.truthy Py.int].
    destruct (Z.eqb_spec num 0) as [->|Hne]; cbn [negb rbind Py.int].
    + repeat match goal with |- _ /\ _ => split end;
        (split; intros H; try discriminate H; try lia; try reflexivity).
    + rewrite <- quot_in_range, Z.gtb_ltb.
      destruct (Z.ltb_spec (Z.quot num (Z.pos den)) 0) as [Hl|Hl],
               (Z.ltb_spec 150 (Z.quot num (Z.pos den))) as [Hg|Hg]; cbn [orb app];
        repeat match goal with |- _ /\ _ => split end;
        (split; intros H; try discriminate H; try lia; try reflexivity).
  - intros ->. split; reflexivity.
Qed.

Lemma age_rule_bounds_witness :
  age_errors (VDict [("age", VFloat (FFinite 1509 10))]) = Ok []
  <-> - Z.pos 10 < 1509 < 151 * Z.pos 10.
Proof.
  destruct (age_rule_bounds [("age", VFloat (FFinite 1509 10))]
              (VFloat (FFinite 1509 10)) eq_refl) as (_ & H & _).
  destruct (H 1509 10%positive eq_refl) as [H1 _]. exact H1.
Defined.

(** X20.  A POST whose JSON body is not an object never creates a user
    and leaves the store alone.  An array or a string that mentions
    none of the four field names is answered 400 with the four
    required-field messages; any other body that is not an object
    (null, a number, a boolean, an array or string that mentions a
    field name) is answered 500. *)
Theorem post_needs_an_object
    (self : UserManager) (rq : request) (now : string) (data : value) :
  is_json rq = true ->
  get_json rq = Ok data ->
  (forall d, data <> VDict d) ->
  exists resp,
    Views.create_user rq now self = (Ok resp, self)
    /\ ((Py.contains "name" data = Ok false /\ Py.contains "email" data = Ok false
         /\ Py.contains "age" data = Ok false /\ Py.contains "position" data = Ok false
         /\ resp = validation_failed (map required_message required_fields))
        \/ ((exists e, resp = create_response None "Error creating user" 500
                                (Some (ExceptionText e)))
            /\ ~ (Py.contains "name" data = Ok false
                  /\ Py.contains "email" data = Ok false
                  /\ Py.contains "age" data = Ok false
                  /\ Py.contains "position" data = Ok false))).
Proof.
  intros Hj Hd Hno. rewrite create_view_eq, Hj, Hd. cbn [negb].
  destruct (validate_user_data data false) as [errors|x] eqn:Hv.
  - destruct (validate_shape _ _ _ Hv) as [[d ->]|(Hn & He & Ha & Hp)];
      [now destruct (Hno d)|].
    assert (E : errors = map required_message required_fields).
    { unfold validate_user_data, validate_email, validate_age, validate_length in Hv.
      cbn [negb require_fields required_fields] in Hv. unfold missing in Hv.
      rewrite Hn, He, Ha, Hp in Hv. cbn [rbind negb app] in Hv.
      rewrite !provided_absent in Hv by assumption. cbn [rbind] in Hv.
      now injection Hv as <-. }
    subst errors. eexists. split; [reflexivity|]. left. auto 6.
  - eexists. split; [reflexivity|]. right. split; [eauto|].
    intros (Hn & He & Ha & Hp).
    unfold validate_user_data, validate_email, validate_age, validate_length in Hv.
    cbn [negb require_fields required_fields] in Hv. unfold missing in Hv.
    rewrite Hn, He, Ha, Hp in Hv. cbn [rbind negb app] in Hv.
    rewrite !provided_absent in Hv by assumption. discriminate Hv.
Qed.

Lemma post_needs_an_object_witness :
  exists resp,
    Views.create_user (json (VList [])) "2025-10-01 08:00:00" init = (Ok resp, init)
    /\ status_code resp = 400.
Proof.
  destruct (post_needs_an_object init (json (VList [])) "2025-10-01 08:00:00" (VList [])
              eq_refl eq_refl) as (resp & H & [(_ & _ & _ & _ & ->)|[_ Hn]]).
  - discriminate.
  - eexists. split; [exact H | reflexivity].
  - exfalso. apply Hn. repeat split; reflexivity.
Defined.

(** X21.  The answers of PUT and DELETE agree with the store: the record
    in a 200 answer of PUT is the record a get by that identifier
    returns afterwards, and the record in a 200 answer of DELETE is the
    record a get returned before, which is gone afterwards. *)
Theorem answers_agree_with_the_store
    (self self' : UserManager) (user_id : Z) (rq : request) (now : string)
    (resp : response) :
  (Views.update_user user_id rq now self = (Ok resp, self') ->
   status_code resp = 200 ->
   exists u, resp_data resp = Some (UserData (Some u))
             /\ get_user_by_id self' user_id = Some u
             /\ updated_at u = now)
  /\ (Views.delete_user user_id self = (Ok resp, self') ->
      status_code resp = 200 ->
      exists u, resp_data resp = Some (DeletedUserData (Some u))
                /\ get_user_by_id self user_id = Some u
                /\ get_user_by_id self' user_id = None).
Proof.
  split.
  - rewrite update_view_eq.
    destruct (get_user_by_id self user_id) as [u0|] eqn:Hget;
      [|intros [= <- _]; discriminate].
    destruct (negb (is_json rq)); [intros [= <- _]; discriminate|].
    destruct (get_json rq) as [data|x]; [|intros [= <- _]; discriminate].
    destruct (validate_user_data data true) as [[|m ms]|x] eqn:Hv;
      [|intros [= <- _]; discriminate|intros [= <- _]; discriminate].
    destruct (_ <- Py.contains "email" data ;; _)%result as [[|]|x];
      [intros [= <- _]; discriminate| |intros [= <- _]; discriminate].
    assert (Hu : exists u', update_user user_id data now self
                            = (Ok (Some u'), with_user self user_id u')
                            /\ updated_at u' = now).
    { destruct (validate_shape _ _ _ Hv) as [[d ->]|(Hn & He & Ha & Hp)].
      - exists (updated_record u0 d now). split; [now apply update_user_dict | reflexivity].
      - exists (set_updated_at now u0).
        split; [now apply update_user_no_field | reflexivity]. }
    destruct Hu as (u' & -> & Hnow). intros [= <- <-] _.
    exists u'. split; [reflexivity|]. split; [apply get_with_user | exact Hnow].
  - destruct (get_user_by_id self user_id) as [u|] eqn:Hget.
    + rewrite (delete_view_known _ _ _ Hget). intros [= <- <-] _.
      exists u. split; [reflexivity|]. split; [reflexivity | apply get_remove_eq].
    + rewrite (delete_view_unknown _ _ Hget). intros [= <- _]. discriminate.
Qed.

Lemma answers_agree_with_the_store_witness :
  exists u,
    Some (DeletedUserData (Some
            (mkUser 2 (VStr "Jane Smith") (VStr "jane.smith@example.com") (VInt 28)
               (VStr "Product Manager") seed_time seed_time)))
    = Some (DeletedUserData (Some u))
    /\ get_user_by_id init 2 = Some u.
Proof.
  destruct (answers_agree_with_the_store init
              (mkUserManager (PyDict.remove (users init) 2) (next_id init)) 2
              (json VNone) "2025-10-01 08:00:00"
              (create_response
                 (Some (DeletedUserData (Some
                    (mkUser 2 (VStr "Jane Smith") (VStr "jane.smith@example.com") (VInt 28)
                       (VStr "Product Manager") seed_time seed_time))))
                 "User deleted successfully" 200 None)) as (_ & H).
  destruct (H eq_refl eq_refl) as (u & H1 & H2 & _).
  exists u. split; assumption.
Defined.

Lemma lstrip_first sp s c :
  first_char (PyStr.lstrip_by sp s) = Some c -> sp c = false.
Proof.
  induction s as [|a s IH]; cbn [PyStr.lstrip_by]; [discriminate|].
  destruct (sp a) eqn:E; [exact IH|]. cbn. now intros [= <-].
Qed.

Lemma rstrip_first sp s :
  PyStr.rstrip_by sp s <> "" -> first_char (PyStr.rstrip_by sp s) = first_char s.
Proof.
  destruct s as [|a s]; cbn [PyStr.rstrip_by]; [contradiction|].
  destruct (sp a && PyStr.is_empty (PyStr.rstrip_by sp s)); [contradiction | reflexivity].
Qed.

Lemma rstrip_last sp s c :
  last_char (PyStr.rstrip_by sp s) = Some c -> sp c = false.
Proof.
  induction s as [|a s IH]; cbn [PyStr.rstrip_by]; [discriminate|].
  destruct (PyStr.rstrip_by sp s) as [|b r] eqn:E; cbn [PyStr.is_empty].
  - rewrite andb_true_r. destruct (sp a) eqn:Ea; [discriminate|].
    cbn. now intros [= <-].
  - rewrite andb_false_r. cbn [last_char]. exact IH.
Qed.

(** X22.  The query a search works with, and returns as [search_query]
    in a 200 answer, is never empty and has no white space at either
    end, whatever [q] was. *)
Theorem search_query_is_stripped
    (self : UserManager) (q : option string) (query : string) :
  search_query_of (Views.search_users q self) = Some query ->
  query = query_of q
  /\ (exists c, first_char query = Some c /\ PyStr.isspace c = false)
  /\ (exists c, last_char query = Some c /\ PyStr.isspace c = false).
Proof.
  unfold Views.search_users, search_query_of, resp_data_of. fold (query_of q).
  destruct (query_of q) as [|a s] eqn:E; cbn [PyStr.is_empty]; [discriminate|].
  unfold bind, read, lift.
  destruct (Views.search_loop (get_all_users self) (String a s) []) as [l|x];
    [|discriminate].
  cbn. intros [= <-]. split; [reflexivity|].
  unfold query_of, PyStr.strip in E.
  split.
  - exists a. split; [reflexivity|].
    apply (lstrip_first PyStr.isspace
             (match q with Some s0 => s0 | None => "" end)).
    rewrite <- (rstrip_first PyStr.isspace) by (rewrite E; discriminate).
    now rewrite E.
  - destruct (last_char (String a s)) as [c|] eqn:L.
    + exists c. split; [reflexivity|]. rewrite <- E in L.
      now apply (rstrip_last PyStr.isspace _ c) in L.
    + exfalso. clear E. revert a L. induction s as [|b s IH]; intros a; cbn; [discriminate|].
      apply IH.
Qed.

Lemma search_query_is_stripped_witness :
  "Jane" = query_of (Some "   Jane  ").
Proof.
  destruct (search_query_is_stripped init (Some "   Jane  ") "Jane" eq_refl) as (H & _).
  exact H.
Defined.
